(** * Business-intelligence API: scoring, recommendation merge and request gates

    A shallow embedding of the scoring and aggregation core of the
    repository (business_intelligence_analyzer.py, website_analyzer.py)
    and of the request gates in front of it (api_server.py,
    business_intelligence_api.py), with the properties the specification
    states about them.

    Python [int] is [Z]; [str] is [string] (ASCII case folding); a [dict]
    used as a map is a [gmap]; a dict with a fixed set of keys is a record
    whose optional keys are [option]s; a [list] is a [list]; a [float],
    where its rounding matters, is a primitive binary64 float. *)

From Stdlib Require Import ZArith List String Ascii Bool Lia QArith Sorted Permutation.
From Stdlib Require DecimalString Floats Uint63.
From stdpp Require Import base option list gmap strings.
Import ListNotations.

Local Open Scope string_scope.
Local Open Scope list_scope.
Local Open Scope Z_scope.

(** ** Python string operations used by the sources *)

Module PyStr.

(** [c.lower()] on one character (ASCII letters). *)
Definition lower_ascii (c : ascii) : ascii :=
  let n := nat_of_ascii c in
  if (65 <=? n)%nat && (n <=? 90)%nat then ascii_of_nat (n + 32) else c.

(** [s.lower()] *)
Fixpoint lower (s : string) : string :=
  match s with
  | EmptyString => EmptyString
  | String c r => String (lower_ascii c) (lower r)
  end.

(** [s.startswith(p)] *)
Fixpoint startswith (p s : string) : bool :=
  match p, s with
  | EmptyString, _ => true
  | String _ _, EmptyString => false
  | String a p', String b s' => if Ascii.eqb a b then startswith p' s' else false
  end.

(** [needle in hay] *)
Fixpoint contains (needle hay : string) : bool :=
  startswith needle hay ||
  match hay with
  | EmptyString => false
  | String _ r => contains needle r
  end.

(** Truth value of a [str]: the empty string is falsy. *)
Definition truthy (s : string) : bool :=
  match s with EmptyString => false | String _ _ => true end.

(** Truth value of a key read with [d.get(k)]: [None] (absent key or a
    stored [None]) and the empty string are falsy. *)
Definition truthy_opt (o : option string) : bool :=
  match o with None => false | Some s => truthy s end.

(** [s.replace(old, '')] for a non-empty [old]: every occurrence of
    [old], scanning from the left without overlap, is deleted.  [skip]
    counts the characters of the occurrence that are still to drop. *)
Fixpoint delete_all_from (old : string) (skip : nat) (s : string) : string :=
  match s with
  | EmptyString => EmptyString
  | String c r =>
      match skip with
      | S k => delete_all_from old k r
      | O =>
          if startswith old s
          then delete_all_from old (String.length old - 1) r
          else String c (delete_all_from old 0 r)
      end
  end.

Definition replace_with_empty (old s : string) : string :=
  delete_all_from old 0 s.

(** [x in [a, b, ...]] for strings. *)
Definition mem (x : string) (l : list string) : bool :=
  existsb (String.eqb x) l.

End PyStr.

(** ** The business-intelligence analyzer (business_intelligence_analyzer.py) *)

Module BIAnalyzer.

(** What the analyzers read off the parsed page: each field is the result
    of one BeautifulSoup query of the source. *)
Record Soup := {
  str_soup : string;                    (* str(soup) *)
  get_text : string;                    (* soup.get_text() *)
  a_hrefs : list string;                (* link.get('href', '') over soup.find_all('a', href=True) *)
  script_srcs : list (option string);   (* script.get('src') over soup.find_all('script') *)
  link_hrefs : list (option string);    (* link.get('href') over soup.find_all('link') *)
  forms : list (list (string * string)) (* per form: (name, id) of its input, textarea and select tags *)
}.

(** The keys of the five analysis dicts that [calculate_lead_scoring]
    reads.  [None] is what [d.get(key)] returns. *)
Record CompanyProfile := {
  industry : option string;
  employees : option string;
  location : option string
}.

(** [platforms_found] holds the keys of the source's dict, in insertion
    order. *)
Record SocialIntel := {
  platforms_found : list string;
  social_engagement_score : Z;
  social_budget_indicators : list string
}.

(** One value of [tech_analysis['detected_technologies']]. *)
Record Detected := {
  confidence : Z;
  evidence : list string;
  category : string;
  cost_indicator : string;
  agency_opportunity : string
}.

Record TechAnalysis := {
  detected_technologies : gmap string Detected;
  tech_sophistication_score : Z;
  agency_opportunities : list string
}.

(** [overall_budget_level] is read with the default ['low']; [None] is
    an absent key. *)
Record BudgetAnalysis := {
  overall_budget_level : option string
}.

(** Of [contact_intel], the lead magnets and the score; the other keys
    (contact_methods, key_personnel, contact_form_quality,
    contact_accessibility) are not read by the scoring. *)
Record ContactIntel := {
  lead_magnets : list string;
  sales_readiness_score : Z
}.

(** The dict that [calculate_lead_scoring] builds (the keys filled by
    the scoring itself). *)
Record LeadScore := {
  overall_score : Z;
  category_scores : gmap string Z;
  lead_quality : string;
  sales_priority : string;
  conversion_probability : string;
  deal_size_estimate : string;
  sales_cycle_estimate : string
}.

(** [self.social_platforms]: platform, its patterns and its weight. *)
Definition social_platforms : list (string * (list string * Z)) :=
  [ ("facebook", (["facebook\.com/([^/?]+)"; "fb\.com/([^/?]+)"], 10));
    ("instagram", (["instagram\.com/([^/?]+)"; "instagr\.am/([^/?]+)"], 8));
    ("twitter", (["twitter\.com/([^/?]+)"; "x\.com/([^/?]+)"], 7));
    ("linkedin", (["linkedin\.com/(?:company/|in/)([^/?]+)"], 15));
    ("youtube", (["youtube\.com/(?:c/|channel/|user/)([^/?]+)"; "youtu\.be/([^/?]+)"], 6));
    ("tiktok", (["tiktok\.com/@([^/?]+)"], 5));
    ("pinterest", (["pinterest\.com/([^/?]+)"], 4)) ].

(** [pixel_patterns] of analyze_social_media_intelligence. *)
Definition pixel_patterns : list (string * list string) :=
  [ ("facebook", ["connect\.facebook\.net"; "facebook\.com/tr"]);
    ("twitter", ["analytics\.twitter\.com"; "ads-twitter\.com"]);
    ("linkedin", ["snap\.licdn\.com"; "linkedin\.com/analytics"]);
    ("tiktok", ["analytics\.tiktok\.com"]) ].

(** One entry of [self.tech_patterns]. *)
Record TechConfig := {
  patterns : list string;
  indicators : list string;
  cfg_category : string;
  cfg_cost_indicator : string;
  cfg_agency_opportunity : string
}.

Definition tech_patterns : list (string * TechConfig) :=
  [ ("wordpress",
     {| patterns := ["wp-content"; "wp-includes"; "/wordpress/"];
        indicators := ["wp-json"; "xmlrpc.php"];
        cfg_category := "cms"; cfg_cost_indicator := "low";
        cfg_agency_opportunity := "high" |});
    ("shopify",
     {| patterns := ["cdn\.shopify\.com"; "shopify\.com"; "myshopify\.com"];
        indicators := ["Shopify.shop"; "shop_money_format"];
        cfg_category := "ecommerce"; cfg_cost_indicator := "medium";
        cfg_agency_opportunity := "high" |});
    ("wix",
     {| patterns := ["wix\.com"; "wixstatic\.com"; "wixsite\.com"];
        indicators := ["wixCode"; "wix-warmup"];
        cfg_category := "cms"; cfg_cost_indicator := "low";
        cfg_agency_opportunity := "medium" |});
    ("squarespace",
     {| patterns := ["squarespace\.com"; "sqspcdn\.com"];
        indicators := ["squarespace-cdn"];
        cfg_category := "cms"; cfg_cost_indicator := "low";
        cfg_agency_opportunity := "medium" |});
    ("hubspot",
     {| patterns := ["hubspot\.com"; "hs-scripts\.com"; "hsforms\.com"];
        indicators := ["hubspot"; "hsjs"];
        cfg_category := "marketing"; cfg_cost_indicator := "high";
        cfg_agency_opportunity := "low" |});
    ("salesforce",
     {| patterns := ["salesforce\.com"; "force\.com"];
        indicators := ["salesforce"; "sfdc"];
        cfg_category := "crm"; cfg_cost_indicator := "high";
        cfg_agency_opportunity := "medium" |});
    ("marketo",
     {| patterns := ["marketo\.com"; "mktoresp\.com"];
        indicators := ["marketo"; "mktApi"];
        cfg_category := "marketing"; cfg_cost_indicator := "high";
        cfg_agency_opportunity := "low" |});
    ("pardot",
     {| patterns := ["pardot\.com"; "pi\.pardot\.com"];
        indicators := ["pardot"];
        cfg_category := "marketing"; cfg_cost_indicator := "high";
        cfg_agency_opportunity := "low" |});
    ("custom_development",
     {| patterns := ["react"; "angular"; "vue\.js"; "node\.js"];
        indicators := ["webpack"; "babel"];
        cfg_category := "custom"; cfg_cost_indicator := "high";
        cfg_agency_opportunity := "low" |}) ].

Definition nonempty {A} (l : list A) : bool :=
  match l with [] => false | _ => true end.

Section Detectors.

(** The regular-expression engine is the standard library's:
    [re_search p s] is the truth value of [re.search(p, s)],
    [re_findall p s] and [re_findall_ignorecase p s] are the match tuples
    of [re.findall(p, s)] and [re.findall(p, s, re.IGNORECASE)]. *)
Variable re_search : string -> string -> bool.
Variable re_findall : string -> string -> list (list string).
Variable re_findall_ignorecase : string -> string -> list (list string).

(** *** analyze_social_media_intelligence *)

(** The scan of the anchors for one platform: the value left in
    [platform_data['url']]. *)
Fixpoint scan_links (pats : list string) (links : list string)
    (url : option string) : option string :=
  match links with
  | [] => url
  | link :: rest =>
      let href := PyStr.lower link in
      let url := if existsb (fun pattern => re_search pattern href) pats
                 then Some href else url in
      if PyStr.truthy_opt url then url else scan_links pats rest url
  end.

(** One round of the loop over [self.social_platforms]. *)
Definition social_step (soup : Soup) (acc : SocialIntel)
    (entry : string * (list string * Z)) : SocialIntel :=
  let '(platform, (pats, weight)) := entry in
  let url := scan_links pats (a_hrefs soup) None in
  let pixel_detected :=
    match List.find (fun kv => String.eqb (fst kv) platform) pixel_patterns with
    | Some (_, pixels) =>
        existsb (fun pattern => re_search pattern (str_soup soup)) pixels
    | None => false
    end in
  let budget :=
    if pixel_detected
    then social_budget_indicators acc ++ [platform +:+ "_ads"]
    else social_budget_indicators acc in
  if PyStr.truthy_opt url || pixel_detected then
    {| platforms_found := platforms_found acc ++ [platform];
       social_engagement_score := social_engagement_score acc + weight;
       social_budget_indicators := budget |}
  else
    {| platforms_found := platforms_found acc;
       social_engagement_score := social_engagement_score acc;
       social_budget_indicators := budget |}.

Definition analyze_social_media_intelligence (soup : Soup) : SocialIntel :=
  fold_left (social_step soup) social_platforms
    {| platforms_found := [];
       social_engagement_score := 0;
       social_budget_indicators := [] |}.

(** *** analyze_tech_stack *)

(** The pair ([detection_score], [evidence]) threaded through the four
    loops of one technology. *)
Definition Detection : Type := Z * list string.

Definition bump (pts : Z) (tag item : string) (hit : bool) (d : Detection)
    : Detection :=
  if hit then (fst d + pts, snd d ++ [tag +:+ item]) else d.

(** [for pattern in config['patterns']: if re.search(pattern, page_html)] *)
Definition check_html_patterns (cfg : TechConfig) (page_html : string)
    (d : Detection) : Detection :=
  fold_left (fun d pattern => bump 2 "pattern_" pattern (re_search pattern page_html) d)
    (patterns cfg) d.

(** [for indicator in config.get('indicators', []): if indicator.lower() in page_html] *)
Definition check_indicators (cfg : TechConfig) (page_html : string)
    (d : Detection) : Detection :=
  fold_left (fun d indicator =>
               bump 3 "indicator_" indicator
                 (PyStr.contains (PyStr.lower indicator) page_html) d)
    (indicators cfg) d.

(** The loops over the script and link tags: a tag whose attribute is
    absent or empty is skipped, the others are matched, lower-cased,
    against every pattern. *)
Definition check_attrs (pts : Z) (tag : string) (cfg : TechConfig)
    (attrs : list (option string)) (d : Detection) : Detection :=
  fold_left (fun d attr =>
               if PyStr.truthy_opt attr then
                 let v := PyStr.lower (default "" attr) in
                 fold_left (fun d pattern => bump pts tag pattern (re_search pattern v) d)
                   (patterns cfg) d
               else d)
    attrs d.

Definition detect (soup : Soup) (cfg : TechConfig) : Detection :=
  let page_html := PyStr.lower (str_soup soup) in
  let d : Detection := (0, []) in
  let d := check_html_patterns cfg page_html d in
  let d := check_indicators cfg page_html d in
  let d := check_attrs 3 "script_" cfg (script_srcs soup) d in
  let d := check_attrs 2 "link_" cfg (link_hrefs soup) d in
  d.

(** Counting the matches of one technology, source by source: patterns
    found in the page HTML, indicators found in it, and (tag, pattern)
    pairs where the pattern is found in the tag's non-empty attribute. *)
Definition html_pattern_hits (cfg : TechConfig) (page_html : string) : nat :=
  List.length (List.filter (fun pattern => re_search pattern page_html) (patterns cfg)).

Definition indicator_hits (cfg : TechConfig) (page_html : string) : nat :=
  List.length (List.filter (fun indicator =>
                              PyStr.contains (PyStr.lower indicator) page_html)
                 (indicators cfg)).

Definition attr_pattern_hits (cfg : TechConfig) (attrs : list (option string)) : nat :=
  List.length
    (List.flat_map
       (fun attr =>
          match attr with
          | Some v =>
              if PyStr.truthy v
              then List.map (fun pattern => (v, pattern))
                     (List.filter (fun pattern => re_search pattern (PyStr.lower v))
                        (patterns cfg))
              else []
          | None => []
          end)
       attrs).

(** One round of the loop over [self.tech_patterns]: the pair of
    [detected_technologies] and [tech_sophistication_score]. *)
Definition tech_step (soup : Soup) (acc : gmap string Detected * Z)
    (entry : string * TechConfig) : gmap string Detected * Z :=
  let '(tech, cfg) := entry in
  let '(detection_score, ev) := detect soup cfg in
  if 0 <? detection_score then
    (<[tech := {| confidence := Z.min (detection_score * 10) 100;
                  evidence := ev;
                  category := cfg_category cfg;
                  cost_indicator := cfg_cost_indicator cfg;
                  agency_opportunity := cfg_agency_opportunity cfg |}]> (fst acc),
     snd acc + detection_score)
  else acc.

Definition analyze_tech_stack (soup : Soup) : TechAnalysis :=
  let '(detected, score) := fold_left (tech_step soup) tech_patterns (∅, 0) in
  let opps := [] in
  let opps := if bool_decide (is_Some (detected !! "wordpress"))
              then opps ++ ["wordpress_optimization"] else opps in
  let opps := if bool_decide (is_Some (detected !! "shopify"))
              then opps ++ ["ecommerce_optimization"] else opps in
  let opps := if negb (existsb (fun kv => PyStr.contains "marketing" (category (snd kv)))
                         (map_to_list detected))
              then opps ++ ["marketing_automation_implementation"] else opps in
  {| detected_technologies := detected;
     tech_sophistication_score := score;
     agency_opportunities := opps |}.

(** *** extract_contact_intelligence *)

Definition phone_pattern : string :=
  "(\+?\d{1,3}[-.\s]?)?\(?\d{3}\)?[-.\s]?\d{3}[-.\s]?\d{4}".

Definition email_pattern : string :=
  "\b[A-Za-z0-9._%+-]+@[A-Za-z0-9.-]+\.[A-Z|a-z]{2,}\b".

Definition title_patterns : list string :=
  [ "(CEO|Chief Executive Officer|President|Founder|Co-Founder)\s*[:\-]?\s*([A-Z][a-z]+\s+[A-Z][a-z]+)";
    "(CTO|Chief Technology Officer|VP|Vice President|Director)\s*[:\-]?\s*([A-Z][a-z]+\s+[A-Z][a-z]+)";
    "(CMO|Chief Marketing Officer|Marketing Director)\s*[:\-]?\s*([A-Z][a-z]+\s+[A-Z][a-z]+)" ].

Definition lead_magnet_keywords : list string :=
  [ "free trial"; "free consultation"; "download"; "ebook"; "whitepaper";
    "case study"; "demo"; "webinar"; "newsletter"; "guide" ].

Definition extract_contact_intelligence (soup : Soup) : ContactIntel :=
  let page_text := get_text soup in
  let score := 0 in
  let phones := re_findall phone_pattern page_text in
  let score := if nonempty phones then score + 3 else score in
  let emails := re_findall email_pattern page_text in
  let score := if nonempty emails then score + 2 else score in
  let score :=
    fold_left (fun score pattern =>
                 fold_left (fun score _ => score + 5)
                   (re_findall_ignorecase pattern page_text) score)
      title_patterns score in
  let score :=
    if nonempty (forms soup) then
      let complexity_score :=
        fold_left (fun c inputs => c + Z.of_nat (List.length inputs)) (forms soup) 0 in
      score + Z.min complexity_score 10
    else score in
  let magnets :=
    List.filter (fun keyword => PyStr.contains keyword (PyStr.lower page_text))
      lead_magnet_keywords in
  let score :=
    if nonempty magnets then score + Z.of_nat (List.length magnets) * 2 else score in
  {| lead_magnets := magnets;
     sales_readiness_score := score |}.

End Detectors.

(** *** calculate_lead_scoring *)


(** Company profile scoring (25 points) *)
Definition profile_score (p : CompanyProfile) : Z :=
  let s := 0 in
  let s :=
    if match industry p with
       | Some i => PyStr.mem i ["saas"; "ecommerce"; "consulting"]
       | None => false
       end
    then s + 8
    else if PyStr.truthy_opt (industry p) then s + 5 else s in
  let s :=
    match employees p with
    | Some e =>
        if PyStr.truthy e then
          if existsb (fun indicator => PyStr.contains indicator e) ["100+"; "50-"]
          then s + 8 else s + 4
        else s
    | None => s
    end in
  let s := if PyStr.truthy_opt (location p) then s + 4 else s in
  s.

(** Social media intelligence scoring (20 points) *)
Definition social_score (si : SocialIntel) : Z :=
  let s := Z.min (social_engagement_score si / 3) 15 in
  if nonempty (social_budget_indicators si) then s + 5 else s.

(** Technology sophistication scoring (20 points) *)
Definition tech_score (t : TechAnalysis) : Z :=
  let s := Z.min (tech_sophistication_score t / 2) 15 in
  if nonempty (agency_opportunities t) then s + 5 else s.

(** Budget analysis scoring (25 points) *)
Definition budget_score (b : BudgetAnalysis) : Z :=
  let budget_level := default "low" (overall_budget_level b) in
  if String.eqb budget_level "high" then 25
  else if String.eqb budget_level "medium-high" then 20
  else if String.eqb budget_level "medium" then 15
  else 5.

(** Contact accessibility scoring (10 points) *)
Definition contact_score (c : ContactIntel) : Z :=
  Z.min (sales_readiness_score c / 2) 10.

(** [sum(d.values())] *)
Definition sum_values (d : gmap string Z) : Z :=
  map_fold (fun _ v acc => acc + v) 0 d.

(** The five assignments [lead_scoring['category_scores'][k] = ...], in
    source order. *)
Definition fill_category_scores
    (p : CompanyProfile) (si : SocialIntel) (t : TechAnalysis)
    (b : BudgetAnalysis) (c : ContactIntel) : gmap string Z :=
  let d : gmap string Z := ∅ in
  let d := <["company_profile" := Z.min (profile_score p) 25]> d in
  let d := <["social_intelligence" := Z.min (social_score si) 20]> d in
  let d := <["technology" := Z.min (tech_score t) 20]> d in
  let d := <["budget" := budget_score b]> d in
  let d := <["contact_accessibility" := contact_score c]> d in
  d.

(** The four-way branch on the overall score: it fills, in this order,
    lead_quality, sales_priority, conversion_probability,
    deal_size_estimate and sales_cycle_estimate. *)
Definition determine_lead_quality (overall : Z)
  : string * string * string * string * string :=
  if 80 <=? overall then
    ("premium", "immediate", "high", "$10,000-$100,000+", "1-3 months")
  else if 60 <=? overall then
    ("qualified", "high", "medium-high", "$5,000-$25,000", "2-6 months")
  else if 40 <=? overall then
    ("potential", "medium", "medium", "$2,000-$10,000", "3-12 months")
  else
    ("nurture", "low", "low", "$500-$5,000", "6-18+ months").

(** The tier label that the branch assigns to a score. *)
Definition tier_of_score (overall : Z) : string :=
  let '(quality, _, _, _, _) := determine_lead_quality overall in quality.

Definition calculate_lead_scoring
    (p : CompanyProfile) (si : SocialIntel) (t : TechAnalysis)
    (b : BudgetAnalysis) (c : ContactIntel) : LeadScore :=
  let cats := fill_category_scores p si t b c in
  let overall := sum_values cats in
  let '(quality, priority, conversion, deal, cycle) :=
    determine_lead_quality overall in
  {| overall_score := overall;
     category_scores := cats;
     lead_quality := quality;
     sales_priority := priority;
     conversion_probability := conversion;
     deal_size_estimate := deal;
     sales_cycle_estimate := cycle |}.

(** *** analyze_business_intelligence, up to the lead scoring *)

Section Pipeline.

Variable re_search : string -> string -> bool.
Variable re_findall : string -> string -> list (list string).
Variable re_findall_ignorecase : string -> string -> list (list string).

(** The [lead_scoring] of one analysis run.  [company_profile] and
    [budget_analysis] stand for the results of extract_company_profile and
    analyze_budget_indicators, whose values the scoring only reads as
    strings. *)
Definition analyze_business_intelligence_lead_scoring (soup : Soup)
    (company_profile : CompanyProfile) (budget_analysis : BudgetAnalysis)
    : LeadScore :=
  let social_intel := analyze_social_media_intelligence re_search soup in
  let tech_analysis := analyze_tech_stack re_search soup in
  let contact_intel :=
    extract_contact_intelligence re_findall re_findall_ignorecase soup in
  calculate_lead_scoring company_profile social_intel tech_analysis
    budget_analysis contact_intel.

End Pipeline.

End BIAnalyzer.


(** ** The website analyzer (website_analyzer.py) *)

Module WebsiteAnalyzer.

(** *** The SEO analysis dict *)

(** [seo_analysis['meta_tags']]: the title and description texts (or
    [None]), their lengths, and the canonical URL. *)
Record MetaTags := {
  title : option string;
  title_length : Z;
  description : option string;
  description_length : Z;
  canonical : option string
}.

(** [seo_analysis['header_structure']]: [header_counts] maps 'h1'..'h6'
    to the number of such tags. *)
Record HeaderStructure := {
  header_counts : gmap string Z
}.

(** [seo_analysis['images']]: the percentage is the quotient
    (images_with_alt / total_images) * 100, a number that is only compared
    with 80 and 50; [lazy_loading] counts the lazy-loaded images. *)
Record Images := {
  alt_text_percentage : Q;
  lazy_loading : Z
}.

(** One JSON-LD script as [json.loads] sees it: a text that does not
    parse, an object with or without an '@type' (which is a string or
    not), or another JSON value. *)
Inductive LdJson :=
| LdInvalid
| LdObject (at_type : option (option string))
| LdOther.

Record SchemaMarkup := {
  json_ld_schemas : list LdJson;
  microdata : list string
}.

Record LocalSeo := {
  nap_phone : bool;
  nap_address : bool;
  google_maps_embed : bool;
  local_schema : bool
}.

Record UrlStructure := {
  seo_friendly : bool;
  breadcrumbs : bool
}.

(** [minification_indicators] is a dict with the keys 'js' and 'css'
    when a minified asset of that kind was seen. *)
Record PageSpeed := {
  minification_indicators : gmap string bool;
  cdn_usage : bool
}.

Record SeoAnalysis := {
  meta_tags : MetaTags;
  header_structure : HeaderStructure;
  images : Images;
  schema_markup : SchemaMarkup;
  local_seo : LocalSeo;
  url_structure : UrlStructure;
  page_speed_indicators : PageSpeed
}.

(** *** analyze_schema_markup and analyze_local_seo *)

(** What the two analyzers read off the page. *)
Record LocalView := {
  page_text : string;                 (* soup.get_text() *)
  phones : list (list string);        (* re.findall(phone_pattern, soup.get_text()) *)
  iframe_srcs : list string;          (* iframe.get('src', '') over soup.find_all('iframe') *)
  ld_json_scripts : list LdJson;      (* json.loads(script.string) over the ld+json scripts *)
  itemtypes : list string             (* element.get('itemtype', '') over the itemtype elements *)
}.

(** Every script that parses is appended, whatever its '@type'. *)
Definition analyze_schema_markup (v : LocalView) : SchemaMarkup :=
  {| json_ld_schemas :=
       List.filter (fun ld => match ld with LdInvalid => false | _ => true end)
         (ld_json_scripts v);
     microdata := itemtypes v |}.

Definition address_indicators : list string :=
  ["street"; "avenue"; "road"; "suite"; "floor"; "building"].

Definition analyze_local_seo (v : LocalView) : LocalSeo :=
  let text := PyStr.lower (page_text v) in
  {| nap_phone := (0 <? Z.of_nat (List.length (phones v)));
     nap_address := existsb (fun indicator => PyStr.contains indicator text)
                      address_indicators;
     google_maps_embed :=
       existsb (fun src =>
                  let src := PyStr.lower src in
                  PyStr.contains "google.com/maps" src
                  || PyStr.contains "maps.google.com" src)
         (iframe_srcs v);
     local_schema :=
       existsb (fun ld =>
                  match ld with
                  | LdObject (Some (Some ty)) =>
                      PyStr.contains "localbusiness" (PyStr.lower ty)
                  | _ => false
                  end)
         (ld_json_scripts v) |}.

(** *** calculate_seo_score *)

(** [sum(d.values())] *)
Definition sum_counts (d : gmap string Z) : Z :=
  map_fold (fun _ v acc => acc + v) 0 d.

Definition nonempty {A} (l : list A) : bool :=
  match l with [] => false | _ => true end.

Definition calculate_seo_score (seo_analysis : SeoAnalysis) : Z :=
  let score := 0 in
  let max_score := 100 in
  (* Title and meta tags (25 points) *)
  let meta := meta_tags seo_analysis in
  let score :=
    if PyStr.truthy_opt (title meta) then
      let score := score + 10 in
      let title_len := title_length meta in
      if (30 <=? title_len) && (title_len <=? 60) then score + 5 else score
    else score in
  let score :=
    if PyStr.truthy_opt (description meta) then
      let score := score + 5 in
      let desc_len := description_length meta in
      if (120 <=? desc_len) && (desc_len <=? 160) then score + 5 else score
    else score in
  (* Header structure (15 points) *)
  let headers := header_structure seo_analysis in
  let score :=
    if default 0 (header_counts headers !! "h1") =? 1 then score + 10 else score in
  let score :=
    if 3 <=? sum_counts (header_counts headers) then score + 5 else score in
  (* Images (15 points) *)
  let imgs := images seo_analysis in
  let alt_percentage := alt_text_percentage imgs in
  let score :=
    if Qle_bool (inject_Z 80) alt_percentage then score + 10
    else if Qle_bool (inject_Z 50) alt_percentage then score + 5
    else score in
  let score := if 0 <? lazy_loading imgs then score + 5 else score in
  (* Schema markup (15 points) *)
  let schema := schema_markup seo_analysis in
  let score :=
    if nonempty (json_ld_schemas schema) || nonempty (microdata schema)
    then score + 15 else score in
  (* Local SEO (10 points) *)
  let lseo := local_seo seo_analysis in
  let score := if nap_phone lseo && nap_address lseo then score + 5 else score in
  let score := if local_schema lseo then score + 5 else score in
  (* URL structure (10 points) *)
  let url_struct := url_structure seo_analysis in
  let score := if seo_friendly url_struct then score + 5 else score in
  let score := if breadcrumbs url_struct then score + 5 else score in
  (* Page speed indicators (10 points) *)
  let speed := page_speed_indicators seo_analysis in
  let score :=
    if negb (bool_decide (minification_indicators speed = ∅))
    then score + 5 else score in
  let score := if cdn_usage speed then score + 5 else score in
  Z.min score max_score.

(** The points of one rule: [n] when its condition holds, else 0. *)
Definition pts (condition : bool) (n : Z) : Z :=
  if condition then n else 0.

(** The score before the final [min], rule by rule. *)
Definition rule_sum (s : SeoAnalysis) : Z :=
  let m := meta_tags s in
  let has_title := PyStr.truthy_opt (title m) in
  let has_description := PyStr.truthy_opt (description m) in
  let counts := header_counts (header_structure s) in
  let alt := alt_text_percentage (images s) in
  pts has_title 10 +
  pts (has_title && ((30 <=? title_length m) && (title_length m <=? 60))) 5 +
  pts has_description 5 +
  pts (has_description &&
         ((120 <=? description_length m) && (description_length m <=? 160))) 5 +
  pts (default 0 (counts !! "h1") =? 1) 10 +
  pts (3 <=? sum_counts counts) 5 +
  (if Qle_bool (inject_Z 80) alt then 10
   else if Qle_bool (inject_Z 50) alt then 5 else 0) +
  pts (0 <? lazy_loading (images s)) 5 +
  pts (nonempty (json_ld_schemas (schema_markup s))
       || nonempty (microdata (schema_markup s))) 15 +
  pts (nap_phone (local_seo s) && nap_address (local_seo s)) 5 +
  pts (local_schema (local_seo s)) 5 +
  pts (seo_friendly (url_structure s)) 5 +
  pts (breadcrumbs (url_structure s)) 5 +
  pts (negb (bool_decide (minification_indicators (page_speed_indicators s) = ∅))) 5 +
  pts (cdn_usage (page_speed_indicators s)) 5.

(** The document of the specification's SEO boundary scenario, as the
    analysis records it: a title of 45 characters, a meta description of
    140 characters, a single H1, every image with alt text, one JSON-LD
    block, a canonical link and a Google Maps iframe. *)
Definition boundary_document (s : SeoAnalysis) : Prop :=
  PyStr.truthy_opt (title (meta_tags s)) = true /\
  title_length (meta_tags s) = 45 /\
  PyStr.truthy_opt (description (meta_tags s)) = true /\
  description_length (meta_tags s) = 140 /\
  header_counts (header_structure s) !! "h1" = Some 1 /\
  Qeq (alt_text_percentage (images s)) (inject_Z 100) /\
  List.length (json_ld_schemas (schema_markup s)) = 1%nat /\
  PyStr.truthy_opt (canonical (meta_tags s)) = true /\
  google_maps_embed (local_seo s) = true.

(** Such a document, with nothing else on it: the page
    https://example.com/about_us whose head holds the title, the
    description, the canonical link and one JSON-LD block of type
    Organization, and whose body holds one H1, one image with alt text
    and a Google Maps iframe. *)
Definition bare_boundary_view : LocalView :=
  {| page_text := "Acme Widgets - Handmade Widgets Since 1999 AD Acme Widgets";
     phones := [];
     iframe_srcs := ["https://www.google.com/maps/embed?pb=1"];
     ld_json_scripts := [LdObject (Some (Some "Organization"))];
     itemtypes := [] |}.

Definition bare_boundary_analysis : SeoAnalysis :=
  {| meta_tags :=
       {| title := Some "Acme Widgets - Handmade Widgets Since 1999 AD";
          title_length := 45;
          description :=
            Some ("Acme Widgets builds handmade widgets for workshops and " +:+
                  "studios. Browse the catalogue, compare sizes and finishes, " +:+
                  "and order online today now");
          description_length := 140;
          canonical := Some "https://example.com/about_us" |};
     header_structure :=
       {| header_counts :=
            {[ "h1" := 1; "h2" := 0; "h3" := 0; "h4" := 0; "h5" := 0; "h6" := 0 ]} |};
     images := {| alt_text_percentage := inject_Z 100; lazy_loading := 0 |};
     schema_markup := analyze_schema_markup bare_boundary_view;
     local_seo := analyze_local_seo bare_boundary_view;
     url_structure := {| seo_friendly := false; breadcrumbs := false |};
     page_speed_indicators :=
       {| minification_indicators := ∅; cdn_usage := false |} |}.

(** *** generate_recommendations *)

(** An opportunity dict.  [category] is absent until the merge writes it. *)
Record Opportunity := {
  priority : string;
  recommendation : string;
  implementation : string;
  impact : string;
  category : option string
}.

Definition set_category (c : string) (o : Opportunity) : Opportunity :=
  {| priority := priority o;
     recommendation := recommendation o;
     implementation := implementation o;
     impact := impact o;
     category := Some c |}.

(** The opportunity dicts live in a store and the lists hold references
    to them (indices of the store): the merge writes the category into the
    dict itself, so every list that holds the dict sees it. *)
Definition Store : Type := list Opportunity.

(** A value of the [analysis] dict: a dict, with its 'opportunities' list
    when it has the key, or something else. *)
Inductive Value :=
| VDict (opportunities : option (list nat))
| VOther.

(** [priority_order] *)
Definition priority_order : gmap string Z :=
  {[ "high" := 0; "medium" := 1; "low" := 2 ]}.

(** [priority_order.get(p, 3)] *)
Definition priority_rank (p : string) : Z :=
  default 3 (priority_order !! p).

(** [l.sort(key=key)]: the sort is stable.  Written as insertion of each
    element, from the last to the first, before the first element of the
    sorted rest whose key is not smaller. *)
Fixpoint insert_by_key {A} (key : A -> Z) (x : A) (l : list A) : list A :=
  match l with
  | [] => [x]
  | y :: r => if key x <=? key y then x :: y :: r else y :: insert_by_key key x r
  end.

Fixpoint sort_by_key {A} (key : A -> Z) (l : list A) : list A :=
  match l with
  | [] => []
  | x :: r => insert_by_key key x (sort_by_key key r)
  end.

(** The sort key of a reference: the rank of the dict it points to. *)
Definition rank_of_ref (st : Store) (ref : nat) : Z :=
  match st !! ref with
  | Some o => priority_rank (priority o)
  | None => 3
  end.

(** The inner loop: tag the dict and append the reference. *)
Definition collect_opportunities (analysis_type : string)
    (acc : Store * list nat) (opps : list nat) : Store * list nat :=
  fold_left (fun acc ref =>
               (alter (set_category
                         (PyStr.replace_with_empty "_analysis" analysis_type))
                  ref (fst acc),
                snd acc ++ [ref]))
    opps acc.

Definition collect_step (acc : Store * list nat) (entry : string * Value)
    : Store * list nat :=
  let '(analysis_type, analysis_data) := entry in
  match analysis_data with
  | VDict (Some opps) => collect_opportunities analysis_type acc opps
  | _ => acc
  end.

(** The store after the call and the returned list of references. *)
Definition generate_recommendations (st : Store) (analysis : list (string * Value))
    : Store * list nat :=
  let '(st, all_recommendations) := fold_left collect_step analysis (st, []) in
  (st, sort_by_key (rank_of_ref st) all_recommendations).

(** The dicts a list of references points to. *)
Definition deref (st : Store) (refs : list nat) : option (list Opportunity) :=
  mapM (fun ref => st !! ref) refs.

(** The detectors of analyze_website each build their 'opportunities'
    list from dict literals, so every opportunity is a dict of its own:
    [store_analyses st outs] puts the opportunities of the detector
    results [outs] (name of the analysis, its opportunities) in the store,
    one new cell each, and gives the [analysis] dict that refers to
    them. *)
Fixpoint analysis_entries (next : nat) (outs : list (string * list Opportunity))
    : list (string * Value) :=
  match outs with
  | [] => []
  | (name, opps) :: rest =>
      (name, VDict (Some (seq next (List.length opps))))
        :: analysis_entries (next + List.length opps) rest
  end.

Definition store_analyses (st : Store) (outs : list (string * list Opportunity))
    : Store * list (string * Value) :=
  (st ++ List.flat_map snd outs, analysis_entries (List.length st) outs).

(** The opportunities of the detector results, each with the category
    of its analysis, in detector order. *)
Definition tagged (outs : list (string * list Opportunity)) : list Opportunity :=
  List.flat_map
    (fun out => List.map (set_category
                            (PyStr.replace_with_empty "_analysis" (fst out)))
                  (snd out))
    outs.

(** The rank of an opportunity, and the opportunities of one rank in
    their order in [l]. *)
Definition rank (o : Opportunity) : Z := priority_rank (priority o).

Definition of_rank (k : Z) (l : list Opportunity) : list Opportunity :=
  List.filter (fun o => rank o =? k) l.

End WebsiteAnalyzer.

(** ** The request gates (api_server.py, business_intelligence_api.py) *)

(** *** Requests, responses and the effects of a handler *)

Module Api.

(** What a handler can raise: the module's [APIError], or another Python
    exception ([text] is its [str]). *)
Inductive Exn :=
| APIError (message : string) (status_code : Z)
| PyException (text : string).

Inductive Result (A : Type) :=
| Return (a : A)
| Raise (e : Exn).

Arguments Return {A} a.
Arguments Raise {A} e.

(** A JSON value where a URL is expected: a string, a falsy value that is
    no string (null, false, 0, an empty list or object), or a truthy value
    that is no string. *)
Inductive JsonValue :=
| JStr (s : string)
| JFalsy
| JTruthy.

(** [data.get('urls', [])]: a list, or a value that is no list. *)
Inductive UrlsField :=
| UrlsList (urls : list JsonValue)
| UrlsNotList.

(** [request.get_json()]: a falsy body, a truthy body that is no object,
    or an object with its 'urls' (absent: the empty list) and its
    'analysis_type' (absent: 'full'). *)
Inductive Body :=
| BodyFalsy
| BodyNotDict
| BodyDict (urls : UrlsField) (analysis_type : string).

(** What one call of the analyzer does: it returns a result, returns
    [None] (the fetch failed), or raises. *)
Inductive Outcome (R : Type) :=
| Analyzed (r : R)
| NoResult
| Failed (text : string).

Arguments Analyzed {R} r.
Arguments NoResult {R}.
Arguments Failed {R} text.

(** One element of the 'results' list. *)
Record Entry (U D : Type) := {
  entry_url : U;
  status : string;
  data : option D;
  error : option string
}.

Arguments entry_url {U D} _.
Arguments status {U D} _.
Arguments data {U D} _.
Arguments error {U D} _.

(** The body of a successful batch response: the results and the three
    counts of its summary. *)
Record BatchData (U D : Type) := {
  results : list (Entry U D);
  total_urls : Z;
  successful : Z;
  failed : Z
}.

Arguments results {U D} _.
Arguments total_urls {U D} _.
Arguments successful {U D} _.
Arguments failed {U D} _.

(** What Flask sends back: [handle_api_error] turns an [APIError] into a
    response with its status code and message; another exception that
    leaves the handler is a 500. *)
Definition http_status {A} (r : Result A) : Z :=
  match r with
  | Return _ => 200
  | Raise (APIError _ code) => code
  | Raise (PyException _) => 500
  end.

Definition http_error {A} (r : Result A) : option string :=
  match r with
  | Return _ => None
  | Raise (APIError message _) => Some message
  | Raise (PyException _) => Some "Internal server error"
  end.

Section Monad.

(** The world the analyzer runs in (network, remote sites). *)
Variable W : Type.

(** The state of a request: the world, and the log of the URLs the
    analyzer has been called with. *)
Record St := {
  world : W;
  calls : list string
}.

Definition M (A : Type) : Type := St -> Result A * St.

Definition ret {A} (a : A) : M A := fun st => (Return a, st).

Definition raise {A} (e : Exn) : M A := fun st => (Raise e, st).

Definition bind {A B} (m : M A) (k : A -> M B) : M B :=
  fun st =>
    match m st with
    | (Return a, st') => k a st'
    | (Raise e, st') => (Raise e, st')
    end.

(** [try: m except APIError: raise except Exception: raise h] *)
Definition reraise_as_api_error {A} (m : M A) (h : Exn) : M A :=
  fun st =>
    match m st with
    | (Raise (PyException _), st') => (Raise h, st')
    | other => other
    end.

Definition lift {A} (r : Result A) : M A := fun st => (r, st).

(** One call of an analyzer: it changes the world and is logged. *)
Definition call {R} (analyzer : string -> W -> Outcome R * W) (url : string)
    : M (Outcome R) :=
  fun st =>
    let '(o, w) := analyzer url (world st) in
    (Return o, {| world := w; calls := calls st ++ [url] |}).

End Monad.

Arguments world {W} _.
Arguments calls {W} _.
Arguments ret {W A} a.
Arguments raise {W A} e.
Arguments bind {W A B} m k.
Arguments reraise_as_api_error {W A} m h.
Arguments lift {W A} r.
Arguments call {W R} analyzer url.

Notation "'let*' x ':=' m 'in' k" := (bind m (fun x => k))
  (at level 10, x name, m at level 100, k at level 200).

Definition success_entry {U D} (url : U) (d : D) : Entry U D :=
  {| entry_url := url; status := "success"; data := Some d; error := None |}.

Definition error_entry {U D} (url : U) (text : string) : Entry U D :=
  {| entry_url := url; status := "error"; data := None; error := Some text |}.

(** [len([r for r in results if r['status'] == 'success'])] *)
Definition count_success {U D} (results : list (Entry U D)) : Z :=
  Z.of_nat (List.length
              (List.filter (fun r => String.eqb (status r) "success") results)).

(** [if not url.startswith(('http://', 'https://')): url = 'https://' + url] *)
Definition add_protocol (url : string) : string :=
  if PyStr.startswith "http://" url || PyStr.startswith "https://" url
  then url else "https://" +:+ url.

End Api.

(** *** api_server.py *)

Module ApiServer.

Import Api.

Section Handlers.

(** The world, the analyzer's result and the processed payload of an
    entry. *)
Variables W R D : Type.

(** [urllib.parse.urlparse]: [None] when it raises, else the scheme and
    the netloc of the parse. *)
Variable urlparse : string -> option (string * string).

(** [analyzer.analyze_website(url)] *)
Variable analyze_website : string -> W -> Outcome R * W.

(** [extract_seo_data], [extract_automation_data] or [asdict], chosen by
    the analysis type; [inr] is an exception raised on the way. *)
Variable process : string -> R -> D + string.

Definition dangerous_hosts : list string :=
  ["localhost"; "127.0.0.1"; "0.0.0.0"].

Definition validate_url (url : JsonValue) : Result string :=
  match url with
  | JFalsy => Raise (APIError "URL is required" 400)
  | JTruthy => Raise (PyException "AttributeError")
  | JStr s =>
      if negb (PyStr.truthy s) then Raise (APIError "URL is required" 400)
      else
        let url := add_protocol s in
        match urlparse url with
        | None => Raise (APIError "Invalid URL format" 400)
        | Some (scheme, netloc) =>
            if negb (PyStr.truthy scheme && PyStr.truthy netloc)
            then Raise (APIError "Invalid URL format" 400)
            else if existsb (fun dangerous => PyStr.contains dangerous (PyStr.lower url))
                      dangerous_hosts
            then Raise (APIError "Invalid URL - localhost not allowed" 400)
            else Return url
        end
  end.

(** [for url in urls: validated_urls.append(validate_url(url))] *)
Fixpoint validate_all (urls : list JsonValue) : Result (list string) :=
  match urls with
  | [] => Return []
  | url :: rest =>
      match validate_url url with
      | Raise e => Raise e
      | Return v =>
          match validate_all rest with
          | Raise e => Raise e
          | Return vs => Return (v :: vs)
          end
      end
  end.

(** The body of the loop over the validated URLs, with its try/except. *)
Definition analyze_one (analysis_type : string) (url : string)
    : M W (Entry string D) :=
  let* o := call analyze_website url in
  ret match o with
      | Analyzed r =>
          match process analysis_type r with
          | inl d => success_entry url d
          | inr text => error_entry url text
          end
      | NoResult => error_entry url "Analysis failed"
      | Failed text => error_entry url text
      end.

Fixpoint analyze_each (analysis_type : string) (urls : list string)
    (results : list (Entry string D)) : M W (list (Entry string D)) :=
  match urls with
  | [] => ret results
  | url :: rest =>
      let* e := analyze_one analysis_type url in
      analyze_each analysis_type rest (results ++ [e])
  end.

Definition analyze_batch (body : Body) : M W (BatchData string D) :=
  reraise_as_api_error
    (match body with
     | BodyFalsy => raise (APIError "Request body is required" 400)
     | BodyNotDict => raise (PyException "AttributeError")
     | BodyDict urls_field analysis_type =>
         match urls_field with
         | UrlsNotList | UrlsList [] => raise (APIError "URLs array is required" 400)
         | UrlsList urls =>
             if 5 <? Z.of_nat (List.length urls)
             then raise (APIError "Maximum 5 URLs allowed per batch" 400)
             else
               let* validated_urls := lift (validate_all urls) in
               let* results := analyze_each analysis_type validated_urls [] in
               let successful_analyses := count_success results in
               ret {| results := results;
                      total_urls := Z.of_nat (List.length urls);
                      successful := successful_analyses;
                      failed := Z.of_nat (List.length urls) - successful_analyses |}
         end
     end)
    (APIError "Batch analysis failed due to technical error" 500).

(** A call of the analyzer fails when the fetch gives no result, when
    the analysis raises, or when the processing of its result raises. *)
Definition failure (analysis_type : string) (o : Outcome R) : Prop :=
  o = NoResult \/
  (exists text, o = Failed text) \/
  (exists r text, o = Analyzed r /\ process analysis_type r = inr text).

(** A batch in which every URL is analyzed once, in order, each from the
    world its predecessor left, and gets one entry: an 'error' entry
    exactly when its own call fails. *)
Inductive isolated_run (analysis_type : string)
    : W -> list string -> list (Entry string D) -> W -> Prop :=
| isolated_done (w : W) : isolated_run analysis_type w [] [] w
| isolated_next (w w' w'' : W) (url : string) (o : Outcome R)
    (e : Entry string D) (urls : list string) (entries : list (Entry string D)) :
    analyze_website url w = (o, w') ->
    entry_url e = url ->
    (status e = "error" <-> failure analysis_type o) ->
    (status e = "success" <-> ~ failure analysis_type o) ->
    isolated_run analysis_type w' urls entries w'' ->
    isolated_run analysis_type w (url :: urls) (e :: entries) w''.

End Handlers.

End ApiServer.

(** *** business_intelligence_api.py *)

Module BIApi.

Import Api.

Section Handlers.

Variables W R D : Type.

(** [analyzer.analyze_business_intelligence(url)] *)
Variable analyze_business_intelligence : string -> W -> Outcome R * W.

(** The lead summary built from a result; [inr] is an exception raised
    on the way. *)
Variable lead_summary : R -> D + string.

Definition validate_url (url : JsonValue) : Result string :=
  match url with
  | JFalsy => Raise (APIError "URL is required" 400)
  | JTruthy => Raise (PyException "AttributeError")
  | JStr s =>
      if negb (PyStr.truthy s) then Raise (APIError "URL is required" 400)
      else Return (add_protocol s)
  end.

(** The body of the loop over the requested URLs: the validation is
    inside the try, and [str] of an [APIError] is the empty string. *)
Definition score_one (url : JsonValue) : M W (Entry JsonValue D) :=
  match validate_url url with
  | Raise (APIError _ _) => ret (error_entry url "")
  | Raise (PyException text) => ret (error_entry url text)
  | Return validated_url =>
      let* o := call analyze_business_intelligence validated_url in
      ret match o with
          | Analyzed r =>
              match lead_summary r with
              | inl d => success_entry url d
              | inr text => error_entry url text
              end
          | NoResult => error_entry url "Analysis failed"
          | Failed text => error_entry url text
          end
  end.

Fixpoint score_each (urls : list JsonValue)
    (results : list (Entry JsonValue D)) : M W (list (Entry JsonValue D)) :=
  match urls with
  | [] => ret results
  | url :: rest =>
      let* e := score_one url in
      score_each rest (results ++ [e])
  end.

(** Of the response, the results and the counts of batch_metadata; the
    top prospects and the summary statistics are computed from the
    results. *)
Definition batch_lead_scoring (body : Body) : M W (BatchData JsonValue D) :=
  reraise_as_api_error
    (match body with
     | BodyFalsy => raise (APIError "Request body is required" 400)
     | BodyNotDict => raise (PyException "AttributeError")
     | BodyDict urls_field _ =>
         match urls_field with
         | UrlsNotList | UrlsList [] => raise (APIError "URLs array is required" 400)
         | UrlsList urls =>
             if 5 <? Z.of_nat (List.length urls)
             then raise (APIError "Maximum 5 URLs allowed per batch" 400)
             else
               let* results := score_each urls [] in
               let successful_analyses := count_success results in
               ret {| results := results;
                      total_urls := Z.of_nat (List.length urls);
                      successful := successful_analyses;
                      failed := Z.of_nat (List.length urls) - successful_analyses |}
         end
     end)
    (APIError "Batch lead scoring failed" 500).

End Handlers.

End BIApi.

(** ** Sample inputs *)

Module Samples.

(** A regular-expression engine for patterns without operators: the
    pattern is searched as it is written. *)
Definition literal_search (pattern text : string) : bool :=
  PyStr.contains pattern text.

Definition wordpress_config : BIAnalyzer.TechConfig :=
  {| BIAnalyzer.patterns := ["wp-content"; "wp-includes"; "/wordpress/"];
     BIAnalyzer.indicators := ["wp-json"; "xmlrpc.php"];
     BIAnalyzer.cfg_category := "cms";
     BIAnalyzer.cfg_cost_indicator := "low";
     BIAnalyzer.cfg_agency_opportunity := "high" |}.

(** A page with one script under /WP-content/, one stylesheet under
    /wp-content/ and a link to the wp-json endpoint. *)
Definition wordpress_page : BIAnalyzer.Soup :=
  {| BIAnalyzer.str_soup :=
       "<html><head><script src='/WP-content/x.js'></script>" +:+
       "<link href='/wp-content/style.css'><link rel='api' href='/wp-json/'>" +:+
       "</head><body>Hello</body></html>";
     BIAnalyzer.get_text := "Hello";
     BIAnalyzer.a_hrefs := [];
     BIAnalyzer.script_srcs := [Some "/WP-content/x.js"; None];
     BIAnalyzer.link_hrefs := [Some "/wp-content/style.css"; Some "/wp-json/"];
     BIAnalyzer.forms := [] |}.

(** A parse that splits after the scheme and before the first slash. *)
Fixpoint upto_slash (s : string) : string :=
  match s with
  | EmptyString => EmptyString
  | String c r => if Ascii.eqb c "/"%char then EmptyString else String c (upto_slash r)
  end.

Definition simple_urlparse (url : string) : option (string * string) :=
  if PyStr.startswith "https://" url
  then Some ("https", upto_slash (String.substring 8 (String.length url - 8) url))
  else if PyStr.startswith "http://" url
  then Some ("http", upto_slash (String.substring 7 (String.length url - 7) url))
  else Some ("", "").

(** An analyzer whose fetch fails on one host and which counts its calls
    in the world. *)
Definition flaky_analyzer (url : string) (w : nat) : Api.Outcome string * nat :=
  if PyStr.contains "down.example" url
  then (Api.NoResult, S w)
  else (Api.Analyzed url, S w).

Definition keep_payload (analysis_type : string) (r : string) : string + string :=
  inl r.

Definition six_urls : list Api.JsonValue :=
  [ Api.JStr "a.example"; Api.JStr "b.example"; Api.JStr "c.example";
    Api.JStr "d.example"; Api.JStr "e.example"; Api.JStr "f.example" ].

Definition three_urls : list Api.JsonValue :=
  [ Api.JStr "a.example"; Api.JStr "https://down.example/x"; Api.JStr "c.example" ].

Definition fresh_request : Api.St nat := {| Api.world := 0%nat; Api.calls := [] |}.

End Samples.

(** ** The company profile (business_intelligence_analyzer.py) *)

Module BIProfile.

(** The string-valued keys of the dict that extract_company_profile
    builds.  Every key is always in the dict; [None] is a stored [None]. *)
Record Profile := {
  company_name : option string;
  industry : option string;
  business_size : option string;
  description : option string;
  location : option string;
  employees : option string
}.

(** What extract_company_profile reads off the page. *)
Record ProfilePage := {
  title_text : option string;          (* title.get_text().strip(), when soup.find('title') *)
  description_content : option string; (* desc_tag.get('content', '').strip(), with the tag *)
  text : string                        (* soup.get_text() *)
}.

(** [self.industry_patterns]: industry and its keywords, in dict order. *)
Definition industry_patterns : list (string * list string) :=
  [ ("saas", ["software"; "saas"; "platform"; "api"; "cloud"; "subscription"]);
    ("ecommerce", ["shop"; "buy"; "cart"; "checkout"; "products"; "store"]);
    ("healthcare", ["medical"; "health"; "doctor"; "clinic"; "patient"]);
    ("finance", ["bank"; "finance"; "investment"; "loan"; "insurance"]);
    ("real_estate", ["real estate"; "property"; "homes"; "listings"]);
    ("legal", ["law"; "lawyer"; "attorney"; "legal"; "court"]);
    ("consulting", ["consulting"; "consultant"; "advisory"; "strategy"]) ].

(** [sum(1 for keyword in keywords if keyword in page_text)] *)
Definition keyword_score (page_text : string) (keywords : list string) : Z :=
  Z.of_nat (List.length
              (List.filter (fun keyword => PyStr.contains keyword page_text) keywords)).

(** [industry_scores]: the industries with a positive score, in dict
    order. *)
Definition industry_scores (page_text : string) : list (string * Z) :=
  List.flat_map
    (fun entry =>
       let score := keyword_score page_text (snd entry) in
       if 0 <? score then [(fst entry, score)] else [])
    industry_patterns.

(** [max(d, key=d.get)]: the first key, in dict order, with the greatest
    value. *)
Fixpoint max_by_score (best : string * Z) (rest : list (string * Z)) : string :=
  match rest with
  | [] => fst best
  | kv :: r => if snd best <? snd kv then max_by_score kv r else max_by_score best r
  end.

Definition detect_industry (page_text : string) : option string :=
  match industry_scores page_text with
  | [] => None
  | first :: rest => Some (max_by_score first rest)
  end.

Definition location_patterns : list string :=
  [ "\b([A-Z][a-z]+(?:\s+[A-Z][a-z]+)*),\s*([A-Z]{2})\b";
    "\b([A-Z][a-z]+(?:\s+[A-Z][a-z]+)*),\s*([A-Z][a-z]+(?:\s+[A-Z][a-z]+)*)\b" ].

Definition employee_patterns : list string :=
  [ "(\d+[\+]?)\s*employees?"; "team\s*of\s*(\d+)"; "(\d+)-(\d+)\s*people" ].

Section Extract.

(** [re.findall(p, s)] and [re.findall(p, s, re.IGNORECASE)]: the
    matches, each the list of its groups (one group: the string itself). *)
Variable re_findall : string -> string -> list (list string).
Variable re_findall_ignorecase : string -> string -> list (list string).

(** The first match of the first pattern that matches at all. *)
Fixpoint first_match (find : string -> string -> list (list string))
    (pats : list string) (page_text : string) : option (list string) :=
  match pats with
  | [] => None
  | pattern :: rest =>
      match find pattern page_text with
      | m :: _ => Some m
      | [] => first_match find rest page_text
      end
  end.

Definition extract_company_profile (page : ProfilePage) : Profile :=
  let page_text := PyStr.lower (text page) in
  {| company_name := title_text page;
     industry := detect_industry page_text;
     business_size := None;
     description := description_content page;
     location :=
       match first_match re_findall location_patterns page_text with
       | Some m => Some (nth 0 m "" +:+ ", " +:+ nth 1 m "")
       | None => None
       end;
     employees :=
       match first_match re_findall_ignorecase employee_patterns page_text with
       | Some [s] => Some s
       | Some m => Some (nth 0 m "" +:+ "-" +:+ nth 1 m "")
       | None => None
       end |}.

End Extract.

(** The three keys that the scoring reads. *)
Definition to_company_profile (p : Profile) : BIAnalyzer.CompanyProfile :=
  {| BIAnalyzer.industry := industry p;
     BIAnalyzer.employees := employees p;
     BIAnalyzer.location := location p |}.

End BIProfile.

(** ** The action plan and the rest of calculate_lead_scoring *)

Module BIPlan.

Import Api.

(** Results of calls that can raise, in sequence. *)
Definition and_then {A B} (r : Result A) (k : A -> Result B) : Result B :=
  match r with
  | Return a => k a
  | Raise e => Raise e
  end.

(** [None.name]: the AttributeError of a method call on [None]. *)
Definition attribute_error (name : string) : Exn :=
  PyException ("'NoneType' object has no attribute '" +:+ name +:+ "'").

(** One action dict of the plan. *)
Record Action := {
  action : string;
  priority : string;
  timeline : string;
  resources : list string;
  outcome : string
}.

Definition premium_actions : list Action :=
  [ {| action := "Executive-level outreach within 24 hours";
       priority := "critical"; timeline := "1 day";
       resources := ["Senior sales rep"; "Custom research"];
       outcome := "Meeting scheduled with decision maker" |};
    {| action := "Comprehensive company research and pain point analysis";
       priority := "high"; timeline := "2-3 days";
       resources := ["Research team"; "Industry reports"];
       outcome := "Detailed prospect profile completed" |};
    {| action := "Custom proposal framework development";
       priority := "high"; timeline := "3-5 days";
       resources := ["Proposal team"; "Case studies"];
       outcome := "Initial proposal ready for presentation" |} ].

Definition qualified_actions : list Action :=
  [ {| action := "Personalized multi-channel outreach campaign";
       priority := "high"; timeline := "2-3 days";
       resources := ["Sales rep"; "Marketing materials"];
       outcome := "Initial contact established" |};
    {| action := "Industry-specific pain point research";
       priority := "high"; timeline := "1 week";
       resources := ["Research team"];
       outcome := "Targeted value proposition developed" |} ].

Definition potential_actions : list Action :=
  [ {| action := "Add to nurture sequence with educational content";
       priority := "medium"; timeline := "3-5 days";
       resources := ["Marketing automation"];
       outcome := "Prospect engaged in educational journey" |};
    {| action := "Social media connection and engagement";
       priority := "medium"; timeline := "1 week";
       resources := ["Social media team"];
       outcome := "Relationship building initiated" |} ].

Definition nurture_actions : list Action :=
  [ {| action := "Long-term nurture sequence enrollment";
       priority := "low"; timeline := "1 week";
       resources := ["Marketing automation"];
       outcome := "Consistent touchpoint established" |} ].

Definition social_action : Action :=
  {| action := "Social media presence development consultation";
     priority := "high"; timeline := "2-3 weeks";
     resources := ["Social media specialist"];
     outcome := "Social strategy foundation established" |}.

Definition tech_action : Action :=
  {| action := "Technology assessment and modernization planning";
     priority := "high"; timeline := "3-4 weeks";
     resources := ["Technical consultant"];
     outcome := "Technology roadmap developed" |}.

Definition premium_service_action : Action :=
  {| action := "Premium service presentation and demonstration";
     priority := "high"; timeline := "2-3 weeks";
     resources := ["Senior team"; "Demo environment"];
     outcome := "High-value opportunity identified" |}.

Definition budget_education_action : Action :=
  {| action := "Budget development and ROI education series";
     priority := "medium"; timeline := "1-2 months";
     resources := ["Educational content"; "ROI calculators"];
     outcome := "Investment readiness improved" |}.

Definition decision_maker_action : Action :=
  {| action := "Decision maker identification and contact research";
     priority := "high"; timeline := "2-3 days";
     resources := ["Research tools"; "LinkedIn Sales Navigator"];
     outcome := "Key contacts identified and verified" |}.

Definition compliance_action : Action :=
  {| action := "Compliance and regulatory requirement assessment";
     priority := "high"; timeline := "1-2 months";
     resources := ["Industry specialist"];
     outcome := "Compliant solution framework developed" |}.

(** [lead_scoring['category_scores'].get(k, 0)] *)
Definition category_score (ls : BIAnalyzer.LeadScore) (k : string) : Z :=
  default 0 (BIAnalyzer.category_scores ls !! k).

(** *** _create_priority_matrix *)

Definition empty_matrix : gmap string (list Action) :=
  {[ "high_impact_low_effort" := [];
     "high_impact_high_effort" := [];
     "low_impact_low_effort" := [];
     "low_impact_high_effort" := [] ]}.

Definition effort_of (a : Action) : string :=
  if Z.of_nat (List.length (resources a)) <=? 1 then "low" else "high".

Definition impact_of (quality : string) (score : Z) (a : Action) : string :=
  if String.eqb (priority a) "critical"
     || (String.eqb quality "premium" && String.eqb (priority a) "high")
  then "high"
  else if String.eqb (priority a) "high" || (60 <=? score) then "high"
  else "low".

Definition matrix_step (quality : string) (score : Z)
    (matrix : gmap string (list Action)) (a : Action) : gmap string (list Action) :=
  let category := impact_of quality score a +:+ "_impact_" +:+ effort_of a +:+ "_effort" in
  match matrix !! category with
  | Some l => <[category := l ++ [a]]> matrix
  | None => matrix
  end.

Definition create_priority_matrix (immediate short_term medium_term : list Action)
    (quality : string) (score : Z) : gmap string (list Action) :=
  fold_left (matrix_step quality score)
    (immediate ++ short_term ++ medium_term) empty_matrix.

(** The actions of [l] with the given impact and effort, in order. *)
Definition quadrant (quality : string) (score : Z) (impact effort : string)
    (l : list Action) : list Action :=
  List.filter (fun a => String.eqb (impact_of quality score a) impact
                        && String.eqb (effort_of a) effort) l.

(** *** _define_success_metrics  (the timeline targets stay empty) *)

Record SuccessMetrics := {
  primary_kpis : list string;
  engagement_metrics : list string;
  conversion_milestones : list string
}.

Definition define_success_metrics (quality : string) (ls : BIAnalyzer.LeadScore)
    : SuccessMetrics :=
  {| primary_kpis :=
       if String.eqb quality "premium" then
         [ "Meeting scheduled within 7 days";
           "Proposal presented within 14 days";
           "Decision meeting within 30 days" ]
       else if String.eqb quality "qualified" then
         [ "Initial contact response within 7 days";
           "Needs assessment completed within 21 days";
           "Proposal requested within 45 days" ]
       else
         [ "Educational content engagement within 14 days";
           "Social media connection within 30 days";
           "Follow-up interest within 90 days" ];
     engagement_metrics :=
       [ "Email open rates > 25%";
         "Website visit duration > 2 minutes";
         "Social media profile views increase";
         "Content download or interaction" ];
     conversion_milestones :=
       let deal_size := BIAnalyzer.deal_size_estimate ls in
       if PyStr.contains "$10,000" deal_size then
         [ "Discovery call completed";
           "Stakeholder meeting arranged";
           "Technical requirements gathered";
           "Proposal presented to decision makers" ]
       else
         [ "Initial interest confirmed";
           "Budget discussion initiated";
           "Service demonstration completed";
           "Contract negotiation started" ] |}.

(** *** _identify_strengths and _identify_improvement_areas *)

Definition get0 (category_scores : gmap string Z) (k : string) : Z :=
  default 0 (category_scores !! k).

Definition append_if {A} (condition : bool) (x : A) (l : list A) : list A :=
  if condition then l ++ [x] else l.

Definition identify_strengths (category_scores : gmap string Z) : list string :=
  let strengths := [] in
  let strengths :=
    append_if (18 <=? get0 category_scores "company_profile")
      "Strong company profile and market positioning" strengths in
  let strengths :=
    append_if (15 <=? get0 category_scores "social_intelligence")
      "Excellent social media presence and engagement" strengths in
  let strengths :=
    append_if (15 <=? get0 category_scores "technology")
      "Advanced technology adoption and digital maturity" strengths in
  let strengths :=
    append_if (20 <=? get0 category_scores "budget")
      "High budget capacity and investment readiness" strengths in
  let strengths :=
    append_if (7 <=? get0 category_scores "contact_accessibility")
      "Clear contact paths and decision maker access" strengths in
  strengths.

Definition identify_improvement_areas (category_scores : gmap string Z) : list string :=
  let improvements := [] in
  let improvements :=
    append_if (get0 category_scores "company_profile" <? 12)
      "Company profile and positioning needs strengthening" improvements in
  let improvements :=
    append_if (get0 category_scores "social_intelligence" <? 10)
      "Social media presence requires significant development" improvements in
  let improvements :=
    append_if (get0 category_scores "technology" <? 10)
      "Technology modernization represents major opportunity" improvements in
  let improvements :=
    append_if (get0 category_scores "budget" <? 15)
      "Budget development and investment capacity building needed" improvements in
  let improvements :=
    append_if (get0 category_scores "contact_accessibility" <? 5)
      "Contact information and decision maker identification critical" improvements in
  improvements.

(** The plan dict ([long_term_actions] is never filled; the timeline
    targets of the metrics stay empty). *)
Record ActionPlan (RR : Type) := {
  immediate_actions : list Action;
  short_term_actions : list Action;
  medium_term_actions : list Action;
  long_term_actions : list Action;
  priority_matrix : gmap string (list Action);
  resource_requirements : RR;
  success_metrics : SuccessMetrics
}.

Arguments immediate_actions {RR} _.
Arguments short_term_actions {RR} _.
Arguments medium_term_actions {RR} _.
Arguments long_term_actions {RR} _.
Arguments priority_matrix {RR} _.
Arguments resource_requirements {RR} _.
Arguments success_metrics {RR} _.

Record ScoreExplanations := {
  overall_score_explanation : string;
  category_explanations : gmap string string;
  strengths : list string;
  improvement_areas : list string
}.

(** The dict that calculate_lead_scoring returns: the scores and the
    tier, and the five keys added after them. *)
Record FullLeadScoring (RR QW IB BI : Type) := {
  scores : BIAnalyzer.LeadScore;
  next_actions : ActionPlan RR;
  quick_wins : QW;
  score_explanations : ScoreExplanations;
  industry_benchmarks : IB;
  business_impact : BI
}.

Arguments scores {RR QW IB BI} _.
Arguments next_actions {RR QW IB BI} _.
Arguments quick_wins {RR QW IB BI} _.
Arguments score_explanations {RR QW IB BI} _.
Arguments industry_benchmarks {RR QW IB BI} _.
Arguments business_impact {RR QW IB BI} _.

Section LeadScoring.

(** The parts of calculate_lead_scoring that only build text or tables:
    the resource requirements of a plan, the quick wins, the texts of the
    explanations, the benchmarks and the business impact.  Those that call
    a method on a value read from a dict may raise. *)
Variables RR QW IB BI : Type.
Variable calculate_resource_requirements : list Action -> RR.
Variable identify_quick_wins :
  BIAnalyzer.LeadScore -> BIProfile.Profile -> BIAnalyzer.SocialIntel ->
  BIAnalyzer.TechAnalysis -> BIAnalyzer.ContactIntel -> Result QW.
Variable overall_explanation_text : Z -> string -> string.
Variable profile_explanation_text : Z -> BIProfile.Profile -> string.
Variable explain_social_score : Z -> BIAnalyzer.SocialIntel -> Result string.
Variable explain_tech_score : Z -> BIAnalyzer.TechAnalysis -> Result string.
Variable explain_budget_score : Z -> BIAnalyzer.BudgetAnalysis -> Result string.
Variable explain_contact_score : Z -> BIAnalyzer.ContactIntel -> Result string.
Variable get_industry_benchmarks : BIProfile.Profile -> Result IB.
Variable generate_business_impact_explanations :
  BIAnalyzer.LeadScore -> ActionPlan RR -> BIProfile.Profile -> Result BI.

(** *** _generate_detailed_action_plan *)

Definition generate_detailed_action_plan (ls : BIAnalyzer.LeadScore)
    (company_profile : BIProfile.Profile) : Result (ActionPlan RR) :=
  let quality := BIAnalyzer.lead_quality ls in
  let score := BIAnalyzer.overall_score ls in
  (* Quality-based immediate actions *)
  let immediate :=
    if String.eqb quality "premium" then premium_actions
    else if String.eqb quality "qualified" then qualified_actions
    else if String.eqb quality "potential" then potential_actions
    else nurture_actions in
  (* Social media specific actions *)
  let short_term := [] in
  let short_term :=
    append_if (category_score ls "social_intelligence" <? 10) social_action short_term in
  (* Technology stack specific actions *)
  let short_term :=
    append_if (category_score ls "technology" <? 10) tech_action short_term in
  (* Budget-based actions *)
  let medium_term := [] in
  let budget_score := category_score ls "budget" in
  let short_term :=
    append_if (20 <=? budget_score) premium_service_action short_term in
  let medium_term :=
    append_if (negb (20 <=? budget_score) && (budget_score <? 15))
      budget_education_action medium_term in
  (* Contact accessibility actions *)
  let immediate :=
    append_if (category_score ls "contact_accessibility" <? 5)
      decision_maker_action immediate in
  (* Industry-specific actions: company_profile.get('industry', '').lower() *)
  match BIProfile.industry company_profile with
  | None => Raise (attribute_error "lower")
  | Some stored =>
      let industry := PyStr.lower stored in
      let medium_term :=
        append_if (PyStr.mem industry ["healthcare"; "legal"; "finance"])
          compliance_action medium_term in
      Return
        {| immediate_actions := immediate;
           short_term_actions := short_term;
           medium_term_actions := medium_term;
           long_term_actions := [];
           priority_matrix :=
             create_priority_matrix immediate short_term medium_term quality score;
           resource_requirements :=
             calculate_resource_requirements (immediate ++ short_term ++ medium_term);
           success_metrics := define_success_metrics quality ls |}
  end.

(** *** _explain_company_profile_score: the text calls [title()] on the
    stored industry and on the stored business size. *)
Definition explain_company_profile_score (score : Z)
    (company_profile : BIProfile.Profile) : Result string :=
  match BIProfile.industry company_profile with
  | None => Raise (attribute_error "title")
  | Some _ =>
      match BIProfile.business_size company_profile with
      | None => Raise (attribute_error "title")
      | Some _ => Return (profile_explanation_text score company_profile)
      end
  end.

(** *** _generate_score_explanations *)

Definition generate_score_explanations (ls : BIAnalyzer.LeadScore)
    (company_profile : BIProfile.Profile) (social_intel : BIAnalyzer.SocialIntel)
    (tech_analysis : BIAnalyzer.TechAnalysis)
    (budget_analysis : BIAnalyzer.BudgetAnalysis)
    (contact_intel : BIAnalyzer.ContactIntel) : Result ScoreExplanations :=
  let overall :=
    overall_explanation_text (BIAnalyzer.overall_score ls) (BIAnalyzer.lead_quality ls) in
  let category_scores := BIAnalyzer.category_scores ls in
  and_then (explain_company_profile_score (get0 category_scores "company_profile")
              company_profile) (fun profile_text =>
  and_then (explain_social_score (get0 category_scores "social_intelligence")
              social_intel) (fun social_text =>
  and_then (explain_tech_score (get0 category_scores "technology")
              tech_analysis) (fun tech_text =>
  and_then (explain_budget_score (get0 category_scores "budget")
              budget_analysis) (fun budget_text =>
  and_then (explain_contact_score (get0 category_scores "contact_accessibility")
              contact_intel) (fun contact_text =>
  Return
    {| overall_score_explanation := overall;
       category_explanations :=
         {[ "company_profile" := profile_text;
            "social_intelligence" := social_text;
            "technology" := tech_text;
            "budget" := budget_text;
            "contact_accessibility" := contact_text ]};
       strengths := identify_strengths category_scores;
       improvement_areas := identify_improvement_areas category_scores |}))))).

(** *** calculate_lead_scoring, to its return *)

Definition calculate_lead_scoring (company_profile : BIProfile.Profile)
    (social_intel : BIAnalyzer.SocialIntel) (tech_analysis : BIAnalyzer.TechAnalysis)
    (budget_analysis : BIAnalyzer.BudgetAnalysis)
    (contact_intel : BIAnalyzer.ContactIntel)
    : Result (FullLeadScoring RR QW IB BI) :=
  let ls :=
    BIAnalyzer.calculate_lead_scoring (BIProfile.to_company_profile company_profile)
      social_intel tech_analysis budget_analysis contact_intel in
  and_then (generate_detailed_action_plan ls company_profile) (fun plan =>
  and_then (identify_quick_wins ls company_profile social_intel tech_analysis
              contact_intel) (fun wins =>
  and_then (generate_score_explanations ls company_profile social_intel
              tech_analysis budget_analysis contact_intel) (fun explanations =>
  and_then (get_industry_benchmarks company_profile) (fun benchmarks =>
  and_then (generate_business_impact_explanations ls plan company_profile)
    (fun impact =>
  Return
    {| scores := ls;
       next_actions := plan;
       quick_wins := wins;
       score_explanations := explanations;
       industry_benchmarks := benchmarks;
       business_impact := impact |}))))).

End LeadScoring.

End BIPlan.

(** ** Budget indicators (business_intelligence_analyzer.py) *)

Module BIBudget.

(** [str(n)] for a number that is not negative. *)
Definition str_of_Z (n : Z) : string :=
  DecimalString.NilZero.string_of_uint (N.to_uint (Z.to_N n)).

(** [ad_indicators] *)
Definition ad_indicators : gmap string Z :=
  {[ "google_ads" := 3; "facebook_ads" := 3; "linkedin_ads" := 5;
     "microsoft_ads" := 2; "programmatic" := 4 ]}.

Definition team_indicators : list string :=
  [ "hiring"; "we're growing"; "join our team"; "careers";
    "remote work"; "full-time"; "part-time" ].

Definition revenue_indicators : list string :=
  [ "million in revenue"; "billion in sales"; "profitable";
    "funding"; "investment"; "series a"; "series b"; "ipo" ].

(** The loop over the social budget indicators: the advertising score
    and the spending indicators. *)
Definition advertising_step (acc : Z * list string) (platform : string)
    : Z * list string :=
  match ad_indicators !! PyStr.replace_with_empty "_ads" platform with
  | Some points => (fst acc + points, snd acc ++ ["advertising_" +:+ platform])
  | None => acc
  end.

Definition advertising (social_intel : BIAnalyzer.SocialIntel) : Z * list string :=
  fold_left advertising_step (BIAnalyzer.social_budget_indicators social_intel) (0, []).

(** The loop over the detected technologies. *)
Definition tech_spend_score (tech_analysis : BIAnalyzer.TechAnalysis) : Z :=
  map_fold (fun _ detected acc =>
              if String.eqb (BIAnalyzer.cost_indicator detected) "high" then acc + 5
              else if String.eqb (BIAnalyzer.cost_indicator detected) "medium" then acc + 3
              else acc + 1)
    0 (BIAnalyzer.detected_technologies tech_analysis).

Definition count_in (page_text : string) (indicators : list string) : Z :=
  Z.of_nat (List.length
              (List.filter (fun indicator => PyStr.contains indicator page_text)
                 indicators)).

Definition hiring_score (page_text : string) : Z := count_in page_text team_indicators.

Definition revenue_score (page_text : string) : Z :=
  2 * count_in page_text revenue_indicators.

Definition total_score (page_text : string) (tech_analysis : BIAnalyzer.TechAnalysis)
    (social_intel : BIAnalyzer.SocialIntel) : Z :=
  fst (advertising social_intel) + tech_spend_score tech_analysis
  + hiring_score page_text + revenue_score page_text.

(** The dict that analyze_budget_indicators returns.  The values of
    [budget_allocation] are the texts '<n>%'. *)
Record BudgetReport := {
  overall_budget_level : string;
  monthly_spend_estimate : string;
  budget_allocation : gmap string string;
  spending_indicators : list string;
  budget_optimization_opportunities : list string;
  financial_health_score : Z;
  investment_capacity : string
}.

Definition percent (n : Z) : string := str_of_Z n +:+ "%".

Definition analyze_budget_indicators (soup : BIAnalyzer.Soup)
    (tech_analysis : BIAnalyzer.TechAnalysis) (social_intel : BIAnalyzer.SocialIntel)
    : BudgetReport :=
  let page_text := PyStr.lower (BIAnalyzer.get_text soup) in
  let '(advertising_score, spending) := advertising social_intel in
  let tech_spend := tech_spend_score tech_analysis in
  let hiring := hiring_score page_text in
  let revenue := revenue_score page_text in
  let total := advertising_score + tech_spend + hiring + revenue in
  let '(level, estimate, capacity) :=
    if 20 <=? total then ("high", "$10,000-$100,000+", "high")
    else if 10 <=? total then ("medium-high", "$5,000-$25,000", "medium-high")
    else if 5 <=? total then ("medium", "$1,000-$10,000", "medium")
    else ("low", "$100-$2,000", "low") in
  let allocation : gmap string string := ∅ in
  let allocation :=
    if 0 <? advertising_score
    then <["advertising" := percent (Z.min (advertising_score * 10) 60)]> allocation
    else allocation in
  let allocation :=
    if 0 <? tech_spend
    then <["technology" := percent (Z.min (tech_spend * 8) 40)]> allocation
    else allocation in
  let allocation :=
    if 0 <? hiring
    then <["personnel" := percent (Z.min (hiring * 15) 70)]> allocation
    else allocation in
  let optimization := [] in
  let optimization :=
    if 8 <? advertising_score then optimization ++ ["advertising_consolidation"]
    else optimization in
  let optimization :=
    if 10 <? tech_spend then optimization ++ ["tech_stack_optimization"]
    else optimization in
  let optimization :=
    if (advertising_score =? 0) && PyStr.mem level ["medium"; "medium-high"; "high"]
    then optimization ++ ["marketing_channel_expansion"]
    else optimization in
  {| overall_budget_level := level;
     monthly_spend_estimate := estimate;
     budget_allocation := allocation;
     spending_indicators := spending;
     budget_optimization_opportunities := optimization;
     financial_health_score := Z.min (total * 5) 100;
     investment_capacity := capacity |}.

(** The key that the lead scoring reads. *)
Definition to_budget_analysis (report : BudgetReport) : BIAnalyzer.BudgetAnalysis :=
  {| BIAnalyzer.overall_budget_level := Some (overall_budget_level report) |}.

(** Contact accessibility, the last step of extract_contact_intelligence. *)
Definition contact_accessibility (contact_intel : BIAnalyzer.ContactIntel) : string :=
  if 15 <=? BIAnalyzer.sales_readiness_score contact_intel then "high"
  else if 8 <=? BIAnalyzer.sales_readiness_score contact_intel then "medium"
  else "low".

End BIBudget.

(** ** The unified report and analyze_business_intelligence *)

Module BIPipeline.

Import Api.

(** A dict key: a string or an int. *)
Inductive Key :=
| KStr (s : string)
| KInt (n : Z).

Definition key_eqb (a b : Key) : bool :=
  match a, b with
  | KStr s, KStr t => String.eqb s t
  | KInt n, KInt m => Z.eqb n m
  | _, _ => false
  end.

(** [repr(k)], the text of the KeyError for [k] (ints that are not
    negative). *)
Definition key_repr (k : Key) : string :=
  match k with
  | KStr s => "'" +:+ s +:+ "'"
  | KInt n => BIBudget.str_of_Z n
  end.

(** [d[k]] on a dict given by its items: the KeyError when [k] is none of
    its keys. *)
Definition subscript {V} (d : list (Key * V)) (k : Key) : Api.Result V :=
  match List.find (fun kv => key_eqb (fst kv) k) d with
  | Some kv => Api.Return (snd kv)
  | None => Api.Raise (Api.PyException (key_repr k))
  end.

(** The values of the plan dict stored under 'next_actions'. *)
Inductive PlanValue (RR : Type) :=
| VActions (l : list BIPlan.Action)
| VMatrix (m : gmap string (list BIPlan.Action))
| VResources (r : RR)
| VMetrics (m : BIPlan.SuccessMetrics).

Arguments VActions {RR} l.
Arguments VMatrix {RR} m.
Arguments VResources {RR} r.
Arguments VMetrics {RR} m.

(** The items of the plan dict, in the order of its keys. *)
Definition plan_items {RR} (plan : BIPlan.ActionPlan RR) : list (Key * PlanValue RR) :=
  [ (KStr "immediate_actions", VActions (BIPlan.immediate_actions plan));
    (KStr "short_term_actions", VActions (BIPlan.short_term_actions plan));
    (KStr "medium_term_actions", VActions (BIPlan.medium_term_actions plan));
    (KStr "long_term_actions", VActions (BIPlan.long_term_actions plan));
    (KStr "priority_matrix", VMatrix (BIPlan.priority_matrix plan));
    (KStr "resource_requirements", VResources (BIPlan.resource_requirements plan));
    (KStr "success_metrics", VMetrics (BIPlan.success_metrics plan)) ].

(** The executive summary of generate_unified_report. *)
Record ExecutiveSummary (RR : Type) := {
  lead_quality : string;
  overall_score : Z;
  deal_potential : string;
  sales_priority : string;
  recommended_next_action : PlanValue RR + string
}.

(** The result record of analyze_business_intelligence. *)
Record BIResult (Social Tech Competitor Budget Traffic Contact Lead Sales Report : Type) := {
  url : string;
  company_profile : BIProfile.Profile;
  social_media_intelligence : Social;
  tech_stack_analysis : Tech;
  competitor_analysis : Competitor;
  budget_indicators : Budget;
  traffic_analysis : Traffic;
  contact_intelligence : Contact;
  lead_scoring : Lead;
  sales_opportunities : Sales;
  unified_report : Report
}.

Section Pipeline.

Variables RR QW IB BI : Type.

(** The parts of calculate_lead_scoring that are taken as given (see
    BIPlan). *)
Variable calculate_resource_requirements : list BIPlan.Action -> RR.
Variable identify_quick_wins :
  BIAnalyzer.LeadScore -> BIProfile.Profile -> BIAnalyzer.SocialIntel ->
  BIAnalyzer.TechAnalysis -> BIAnalyzer.ContactIntel -> Result QW.
Variable overall_explanation_text : Z -> string -> string.
Variable profile_explanation_text : Z -> BIProfile.Profile -> string.
Variable explain_social_score : Z -> BIAnalyzer.SocialIntel -> Result string.
Variable explain_tech_score : Z -> BIAnalyzer.TechAnalysis -> Result string.
Variable explain_budget_score : Z -> BIAnalyzer.BudgetAnalysis -> Result string.
Variable explain_contact_score : Z -> BIAnalyzer.ContactIntel -> Result string.
Variable get_industry_benchmarks : BIProfile.Profile -> Result IB.
Variable generate_business_impact_explanations :
  BIAnalyzer.LeadScore -> BIPlan.ActionPlan RR -> BIProfile.Profile -> Result BI.

Definition Lead : Type := BIPlan.FullLeadScoring RR QW IB BI.

(** The world, the fetched page, and the analyses that are taken as
    given: each may raise. *)
Variables W Page Competitor Traffic Sales Rest : Type.
Variable re_findall : string -> string -> list (list string).
Variable re_findall_ignorecase : string -> string -> list (list string).
Variable fetch_website : string -> W -> option Page * W.
Variable profile_page : Page -> BIProfile.ProfilePage.
Variable analyze_social_media_intelligence : Page -> Result BIAnalyzer.SocialIntel.
Variable analyze_tech_stack : Page -> Result BIAnalyzer.TechAnalysis.
Variable analyze_competitors : Page -> Result Competitor.
Variable analyze_budget_indicators :
  Page -> BIAnalyzer.TechAnalysis -> BIAnalyzer.SocialIntel ->
  Result BIAnalyzer.BudgetAnalysis.
Variable analyze_traffic_and_marketing : Page -> Result Traffic.
Variable extract_contact_intelligence : Page -> Result BIAnalyzer.ContactIntel.
Variable identify_sales_opportunities :
  BIAnalyzer.SocialIntel -> BIAnalyzer.TechAnalysis -> BIAnalyzer.BudgetAnalysis ->
  Lead -> Result Sales.
Variable report_rest : Lead -> Sales -> Rest.
Variable auto_save_report : string -> W -> Result unit * W.

(** *** generate_unified_report: the executive summary is built first,
    and its last item reads the first of the next actions. *)
Definition generate_unified_report (lead : Lead) (sales : Sales)
    : Result (ExecutiveSummary RR * Rest) :=
  let ls := BIPlan.scores lead in
  let next_actions := plan_items (BIPlan.next_actions lead) in
  BIPlan.and_then
    (* lead_scoring.get('next_actions', ['research'])[0]
       if lead_scoring.get('next_actions') else 'research' *)
    (if BIAnalyzer.nonempty next_actions
     then BIPlan.and_then (subscript next_actions (KInt 0)) (fun v => Return (inl v))
     else Return (inr "research"))
    (fun next_action =>
       Return ({| lead_quality := BIAnalyzer.lead_quality ls;
                  overall_score := BIAnalyzer.overall_score ls;
                  deal_potential := BIAnalyzer.deal_size_estimate ls;
                  sales_priority := BIAnalyzer.sales_priority ls;
                  recommended_next_action := next_action |},
               report_rest lead sales)).

Definition Analysis : Type :=
  BIResult BIAnalyzer.SocialIntel BIAnalyzer.TechAnalysis Competitor
    BIAnalyzer.BudgetAnalysis Traffic BIAnalyzer.ContactIntel Lead Sales
    (ExecutiveSummary RR * Rest).

(** The analyses of a fetched page, in source order; none of the calls is
    inside a try. *)
Definition analyze_page (url : string) (page : Page) : Result Analysis :=
  let company_profile :=
    BIProfile.extract_company_profile re_findall re_findall_ignorecase
      (profile_page page) in
  BIPlan.and_then (analyze_social_media_intelligence page) (fun social_intel =>
  BIPlan.and_then (analyze_tech_stack page) (fun tech_analysis =>
  BIPlan.and_then (analyze_competitors page) (fun competitor_analysis =>
  BIPlan.and_then (analyze_budget_indicators page tech_analysis social_intel)
    (fun budget_analysis =>
  BIPlan.and_then (analyze_traffic_and_marketing page) (fun traffic_analysis =>
  BIPlan.and_then (extract_contact_intelligence page) (fun contact_intel =>
  BIPlan.and_then
    (BIPlan.calculate_lead_scoring RR QW IB BI calculate_resource_requirements
       identify_quick_wins overall_explanation_text profile_explanation_text
       explain_social_score explain_tech_score explain_budget_score
       explain_contact_score get_industry_benchmarks
       generate_business_impact_explanations
       company_profile social_intel tech_analysis budget_analysis contact_intel)
    (fun lead =>
  BIPlan.and_then
    (identify_sales_opportunities social_intel tech_analysis budget_analysis lead)
    (fun sales =>
  BIPlan.and_then (generate_unified_report lead sales) (fun report =>
  Return
    {| url := url;
       company_profile := company_profile;
       social_media_intelligence := social_intel;
       tech_stack_analysis := tech_analysis;
       competitor_analysis := competitor_analysis;
       budget_indicators := budget_analysis;
       traffic_analysis := traffic_analysis;
       contact_intelligence := contact_intel;
       lead_scoring := lead;
       sales_opportunities := sales;
       unified_report := report |}))))))))).

(** analyze_business_intelligence: [None] when the fetch fails, else the
    result, saved to disk before it is returned. *)
Definition analyze_business_intelligence (url : string) (w : W)
    : Outcome Analysis * W :=
  let '(fetched, w) := fetch_website url w in
  match fetched with
  | None => (NoResult, w)
  | Some page =>
      match analyze_page url page with
      | Raise (APIError text _) => (Failed text, w)
      | Raise (PyException text) => (Failed text, w)
      | Return result =>
          match auto_save_report url w with
          | (Return _, w') => (Analyzed result, w')
          | (Raise (APIError text _), w') => (Failed text, w')
          | (Raise (PyException text), w') => (Failed text, w')
          end
      end
  end.

End Pipeline.

End BIPipeline.

(** ** The single-URL endpoints (api_server.py, business_intelligence_api.py) *)

Module Endpoints.

Import Api.

(** [request.get_json()] of a single-URL request: a falsy body, a truthy
    body that is no object, or an object with what it holds under 'url'
    ([JFalsy] when the key is absent). *)
Inductive SingleBody :=
| SingleFalsy
| SingleNotDict
| SingleDict (url : JsonValue).

Section Handlers.

Variables W R D : Type.
Variable urlparse : string -> option (string * string).
Variable analyze_website : string -> W -> Outcome R * W.
Variable analyze_business_intelligence : string -> W -> Outcome R * W.

(** [asdict(result)] and the building of the response; [inr] is an
    exception. *)
Variable process : R -> D + string.

(** The shape shared by the single-URL handlers: validate, analyze once,
    turn a missing result into the 422 error; an APIError passes through
    and any other exception becomes the handler's 500 error. *)
Definition handle (validate : JsonValue -> Result string)
    (analyzer : string -> W -> Outcome R * W)
    (no_result technical_error : string) (url : JsonValue) : M W D :=
  match validate url with
  | Raise (APIError message code) => raise (APIError message code)
  | Raise (PyException _) => raise (APIError technical_error 500)
  | Return validated =>
      let* o := call analyzer validated in
      match o with
      | Analyzed r =>
          match process r with
          | inl d => ret d
          | inr _ => raise (APIError technical_error 500)
          end
      | NoResult => raise (APIError no_result 422)
      | Failed _ => raise (APIError technical_error 500)
      end
  end.

(** POST /api/analyze of api_server.py.  A truthy body that is no object
    makes [data.get] raise, in the try and again in the log line of the
    except clause, so the exception leaves the handler. *)
Definition analyze_website_endpoint (body : SingleBody) : M W D :=
  match body with
  | SingleFalsy => raise (APIError "Request body is required" 400)
  | SingleNotDict => raise (PyException "AttributeError")
  | SingleDict url =>
      handle (ApiServer.validate_url urlparse) analyze_website
        "Failed to analyze website. Please check the URL and try again."
        "Analysis failed due to technical error" url
  end.

(** POST /api/analyze/seo and POST /api/analyze/automation of
    api_server.py: the same handler with extract_seo_data and
    extract_automation_data as [process]. *)
Definition analyze_seo_only_endpoint (body : SingleBody) : M W D :=
  match body with
  | SingleFalsy => raise (APIError "Request body is required" 400)
  | SingleNotDict => raise (PyException "AttributeError")
  | SingleDict url =>
      handle (ApiServer.validate_url urlparse) analyze_website
        "Failed to analyze website. Please check the URL and try again."
        "SEO analysis failed due to technical error" url
  end.

Definition analyze_automation_only_endpoint (body : SingleBody) : M W D :=
  match body with
  | SingleFalsy => raise (APIError "Request body is required" 400)
  | SingleNotDict => raise (PyException "AttributeError")
  | SingleDict url =>
      handle (ApiServer.validate_url urlparse) analyze_website
        "Failed to analyze website. Please check the URL and try again."
        "Automation analysis failed due to technical error" url
  end.

(** POST /api/analyze/business-intelligence of
    business_intelligence_api.py. *)
Definition analyze_business_intelligence_endpoint (body : SingleBody) : M W D :=
  match body with
  | SingleFalsy => raise (APIError "Request body is required" 400)
  | SingleNotDict => raise (PyException "AttributeError")
  | SingleDict url =>
      handle BIApi.validate_url analyze_business_intelligence
        "Failed to analyze website. Please check the URL and try again."
        "Business intelligence analysis failed" url
  end.

(** POST /api/analyze/lead-scoring of business_intelligence_api.py: its
    except clause does not read the body again. *)
Definition analyze_lead_scoring_endpoint (body : SingleBody) : M W D :=
  match body with
  | SingleFalsy => raise (APIError "Request body is required" 400)
  | SingleNotDict => raise (APIError "Lead scoring analysis failed" 500)
  | SingleDict url =>
      handle BIApi.validate_url analyze_business_intelligence
        "Failed to analyze website" "Lead scoring analysis failed" url
  end.

End Handlers.

(** A URL that the validator of api_server.py lets through as it is: it
    starts with a protocol, holds none of the local host names, and is
    returned unchanged. *)
Definition safe_url (urlparse : string -> option (string * string))
    (url : string) : Prop :=
  (PyStr.startswith "http://" url || PyStr.startswith "https://" url) = true /\
  Forall (fun dangerous => PyStr.contains dangerous (PyStr.lower url) = false)
    ApiServer.dangerous_hosts /\
  ApiServer.validate_url urlparse (JStr url) = Return url.

(** *** fetch_website and the extracts of api_server.py *)

(** The URL that fetch_website requests. *)
Definition fetch_url (url : string) : string := add_protocol url.

(** [rec.get('category') == 'seo'] *)
Definition is_seo (o : WebsiteAnalyzer.Opportunity) : bool :=
  match WebsiteAnalyzer.category o with
  | Some c => String.eqb c "seo"
  | None => false
  end.

(** The 'seo_recommendations' of extract_seo_data and the
    'automation_recommendations' of extract_automation_data. *)
Definition seo_recommendations (recommendations : list WebsiteAnalyzer.Opportunity)
    : list WebsiteAnalyzer.Opportunity :=
  List.filter is_seo recommendations.

Definition automation_recommendations
    (recommendations : list WebsiteAnalyzer.Opportunity)
    : list WebsiteAnalyzer.Opportunity :=
  List.filter (fun o => negb (is_seo o)) recommendations.

(** The keys of [analysis_data] in analyze_website, in order. *)
Definition analysis_names : list string :=
  [ "chatbot_analysis"; "lead_capture_analysis"; "email_signup_analysis";
    "social_media_analysis"; "review_analysis"; "booking_analysis";
    "mobile_analysis"; "contact_analysis"; "seo_analysis" ].

End Endpoints.

(** ** The rounds of analyze_social_media_intelligence *)

Module BISocial.

Section Found.

Variable re_search : string -> string -> bool.

(** [pixel_detected] of the round of one platform. *)
Definition pixel_detected (soup : BIAnalyzer.Soup) (platform : string) : bool :=
  match List.find (fun kv => String.eqb (fst kv) platform) BIAnalyzer.pixel_patterns with
  | Some (_, pixels) =>
      existsb (fun pattern => re_search pattern (BIAnalyzer.str_soup soup)) pixels
  | None => false
  end.

(** [platform_data['url'] or pixel_detected] of the round of one entry
    of the platform table. *)
Definition platform_found (soup : BIAnalyzer.Soup)
    (entry : string * (list string * Z)) : bool :=
  PyStr.truthy_opt
    (BIAnalyzer.scan_links re_search (fst (snd entry)) (BIAnalyzer.a_hrefs soup) None)
  || pixel_detected soup (fst entry).

End Found.

(** [config['weight']] and the sum of the weights of some entries. *)
Definition weight (entry : string * (list string * Z)) : Z := snd (snd entry).

Definition sum_weights (entries : list (string * (list string * Z))) : Z :=
  fold_right (fun entry total => weight entry + total) 0 entries.

End BISocial.

(** ** Python floats *)

Module PyFloat.

(** [float(n)] for an int below 2^63 in absolute value. *)
Definition of_int (n : Z) : PrimFloat.float :=
  if n <? 0 then PrimFloat.opp (PrimFloat.of_uint63 (Uint63.of_Z (- n)))
  else PrimFloat.of_uint63 (Uint63.of_Z n).

(** [int(x)]: the truncation toward zero; [None] for an infinity or a
    NaN, where Python raises. *)
Definition int (x : PrimFloat.float) : option Z :=
  match FloatOps.Prim2SF x with
  | SpecFloat.S754_zero _ => Some 0
  | SpecFloat.S754_finite negative m e =>
      let magnitude :=
        if 0 <=? e then Z.pos m * 2 ^ e else Z.pos m / 2 ^ (- e) in
      Some (if negative then - magnitude else magnitude)
  | _ => None
  end.

(** [a / b] on ints (true division) and [x * n] with an int. *)
Definition true_div (a b : Z) : PrimFloat.float :=
  PrimFloat.div (of_int a) (of_int b).

Definition mul_int (x : PrimFloat.float) (n : Z) : PrimFloat.float :=
  PrimFloat.mul x (of_int n).

End PyFloat.

(** ** calculate_automation_score (website_analyzer.py) *)

Module Automation.

(** The values of the [analysis] dict that the score reads. *)
Record Analysis := {
  has_chatbot : bool;
  has_lead_capture : bool;
  has_email_signup : bool;
  social_links : gmap string string;
  has_reviews : bool;
  has_booking : bool;
  has_viewport_meta : bool;
  responsive_design : bool;
  mobile_menu : bool;
  contact_methods : list string;
  seo_score : Z
}.

Definition mobile_score (a : Analysis) : Z :=
  let mobile_score := 0 in
  let mobile_score := if has_viewport_meta a then mobile_score + 3 else mobile_score in
  let mobile_score := if responsive_design a then mobile_score + 4 else mobile_score in
  let mobile_score := if mobile_menu a then mobile_score + 3 else mobile_score in
  mobile_score.

(** [int((seo_score / 100) * weights['seo'])] *)
Definition seo_points (seo_score : Z) : option Z :=
  PyFloat.int (PyFloat.mul_int (PyFloat.true_div seo_score 100) 20).

(** The score before the SEO part. *)
Definition detector_points (a : Analysis) : Z :=
  let score := 0 in
  let score := if has_chatbot a then score + 12 else score in
  let score := if has_lead_capture a then score + 12 else score in
  let score := if has_email_signup a then score + 8 else score in
  let score := if 3 <=? Z.of_nat (size (social_links a)) then score + 8 else score in
  let score := if has_reviews a then score + 12 else score in
  let score := if has_booking a then score + 15 else score in
  let score := score + Z.min (mobile_score a) 8 in
  let score :=
    if 3 <=? Z.of_nat (List.length (contact_methods a)) then score + 5 else score in
  score.

(** [None] when [int] raises. *)
Definition calculate_automation_score (a : Analysis) : option Z :=
  let max_score := 100 in
  let score := detector_points a in
  match seo_points (seo_score a) with
  | Some points => Some (Z.min (score + points) max_score)
  | None => None
  end.

End Automation.

(** ** _identify_quick_wins (business_intelligence_analyzer.py) *)

Module BIQuickWins.

Import Api.

Record QuickWin := {
  opportunity : string;
  platforms : list string;
  effort : string;
  impact : string;
  timeline : string;
  roi_potential : string
}.

(** [business_account platform] is [platform_data['business_account']] of
    a platform found.  The technology and contact analyses are passed but
    not read. *)
Definition identify_quick_wins (lead_scoring : BIAnalyzer.LeadScore)
    (company_profile : BIProfile.Profile) (social_intel : BIAnalyzer.SocialIntel)
    (business_account : string -> bool)
    (tech_analysis : BIAnalyzer.TechAnalysis) (contact_intel : BIAnalyzer.ContactIntel)
    : Result (list QuickWin) :=
  let quick_wins := [] in
  (* Social media quick wins *)
  let found := BIAnalyzer.platforms_found social_intel in
  let quick_wins :=
    if 0 <? Z.of_nat (List.length found) then
      let incomplete_profiles :=
        List.filter (fun p => negb (business_account p)) found in
      if BIAnalyzer.nonempty incomplete_profiles then
        quick_wins ++
        [ {| opportunity := "Complete business profile setup";
             platforms := incomplete_profiles;
             effort := "Low (1-2 hours)";
             impact := "Medium";
             timeline := "1-2 days";
             roi_potential := "15-25% improvement in social credibility" |} ]
      else quick_wins
    else quick_wins in
  let quick_wins :=
    if negb (BIAnalyzer.nonempty (BIAnalyzer.social_budget_indicators social_intel))
    then
      quick_wins ++
      [ {| opportunity := "Install social media tracking pixels";
           platforms := found;
           effort := "Low (30 minutes)";
           impact := "High";
           timeline := "1 day";
           roi_potential := "Foundation for future advertising campaigns" |} ]
    else quick_wins in
  (* Website optimization quick wins *)
  let quick_wins :=
    if BIPlan.category_score lead_scoring "technology" <? 15 then
      quick_wins ++
      [ {| opportunity := "Basic website optimization assessment";
           platforms := ["website"];
           effort := "Medium (2-4 hours)";
           impact := "High";
           timeline := "3-5 days";
           roi_potential := "20-40% improvement in user experience" |} ]
    else quick_wins in
  (* Contact optimization quick wins *)
  let quick_wins :=
    if BIPlan.category_score lead_scoring "contact_accessibility" <? 7 then
      quick_wins ++
      [ {| opportunity := "Contact information optimization";
           platforms := ["website"; "social"];
           effort := "Low (1 hour)";
           impact := "High";
           timeline := "1-2 days";
           roi_potential := "30-50% improvement in contact conversion" |} ]
    else quick_wins in
  (* Industry-specific quick wins: company_profile.get('industry', '').lower() *)
  match BIProfile.industry company_profile with
  | None => Raise (BIPlan.attribute_error "lower")
  | Some stored =>
      let industry := PyStr.lower stored in
      Return
        (if PyStr.mem industry ["retail"; "restaurants"; "services"] then
           quick_wins ++
           [ {| opportunity := "Local business listing optimization";
                platforms := ["google_business"; "local_directories"];
                effort := "Medium (2-3 hours)";
                impact := "High";
                timeline := "1 week";
                roi_potential := "25-45% improvement in local visibility" |} ]
         else quick_wins)
  end.

End BIQuickWins.

(** ** analyze_meta_tags, analyze_header_structure and analyze_seo
    (website_analyzer.py) *)

Module SeoAnalyzers.

Import WebsiteAnalyzer.

(** An opportunity as a detector writes it, without a category. *)
Definition opportunity (priority recommendation implementation impact : string)
    : Opportunity :=
  {| WebsiteAnalyzer.priority := priority;
     WebsiteAnalyzer.recommendation := recommendation;
     WebsiteAnalyzer.implementation := implementation;
     WebsiteAnalyzer.impact := impact;
     WebsiteAnalyzer.category := None |}.

(** What analyze_meta_tags reads off the page: the stripped text of the
    title tag, the stripped content of the description tag and the
    stripped href of the canonical link (each [None] without the tag), and
    the Open Graph properties. *)
Record MetaView := {
  title_tag : option string;
  description_tag : option string;
  canonical_tag : option string;
  og_tags : list (string * string)
}.

(** The meta tags and the opportunities of analyze_meta_tags. *)
Definition analyze_meta_tags (v : MetaView) : MetaTags * list Opportunity :=
  let opportunities := [] in
  (* Title tag *)
  let '(title, title_length, opportunities) :=
    match title_tag v with
    | Some text =>
        let length := Z.of_nat (String.length text) in
        (Some text, length,
         if length <? 30 then
           opportunities ++
           [opportunity "high" "Increase title tag length"
              "Expand title to 30-60 characters"
              "Improve search engine visibility and click-through rates"]
         else if 60 <? length then
           opportunities ++
           [opportunity "medium" "Shorten title tag"
              "Reduce title to under 60 characters"
              "Prevent title truncation in search results"]
         else opportunities)
    | None =>
        (None, 0,
         opportunities ++
         [opportunity "high" "Add title tag"
            "Add descriptive title tag to page head"
            "Critical for search engine ranking and user experience"])
    end in
  (* Meta description *)
  let '(description, description_length, opportunities) :=
    match description_tag v with
    | Some text =>
        let length := Z.of_nat (String.length text) in
        (Some text, length,
         if length <? 120 then
           opportunities ++
           [opportunity "medium" "Expand meta description"
              "Increase description to 120-160 characters"
              "Improve search result snippets and click-through rates"]
         else if 160 <? length then
           opportunities ++
           [opportunity "low" "Shorten meta description"
              "Reduce description to under 160 characters"
              "Prevent description truncation in search results"]
         else opportunities)
    | None =>
        (None, 0,
         opportunities ++
         [opportunity "high" "Add meta description"
            "Add compelling meta description summarizing page content"
            "Improve search result appearance and click-through rates"])
    end in
  (* Canonical URL *)
  let opportunities :=
    match canonical_tag v with
    | Some _ => opportunities
    | None =>
        opportunities ++
        [opportunity "medium" "Add canonical URL"
           "Add canonical link tag to prevent duplicate content issues"
           "Improve SEO by consolidating page authority"]
    end in
  (* Open Graph tags *)
  let opportunities :=
    if negb (nonempty (og_tags v)) then
      opportunities ++
      [opportunity "medium" "Add Open Graph meta tags"
         "Add og:title, og:description, og:image, og:url tags"
         "Improve social media sharing appearance"]
    else opportunities in
  ({| title := title;
      title_length := title_length;
      description := description;
      description_length := description_length;
      canonical := canonical_tag v |},
   opportunities).

(** The stripped texts of the header tags of each level. *)
Record HeaderView := {
  h1 : list string;
  h2 : list string;
  h3 : list string;
  h4 : list string;
  h5 : list string;
  h6 : list string
}.

Definition levels (v : HeaderView) : list (string * list string) :=
  [ ("h1", h1 v); ("h2", h2 v); ("h3", h3 v);
    ("h4", h4 v); ("h5", h5 v); ("h6", h6 v) ].

Record HeaderReport := {
  structure : HeaderStructure;
  missing_h1 : bool;
  multiple_h1 : bool;
  empty_headers : Z;
  header_opportunities : list Opportunity
}.

Definition count_headers (v : HeaderView) : gmap string Z :=
  fold_left (fun counts level =>
               <[fst level := Z.of_nat (List.length (snd level))]> counts)
    (levels v)
    {[ "h1" := 0; "h2" := 0; "h3" := 0; "h4" := 0; "h5" := 0; "h6" := 0 ]}.

Definition analyze_header_structure (v : HeaderView) : HeaderReport :=
  let counts := count_headers v in
  let empty :=
    fold_left (fun empty level =>
                 fold_left (fun empty text =>
                              if negb (PyStr.truthy text) then empty + 1 else empty)
                   (snd level) empty)
      (levels v) 0 in
  let count_h1 := default 0 (counts !! "h1") in
  let missing := count_h1 =? 0 in
  let multiple := negb (count_h1 =? 0) && (1 <? count_h1) in
  let opportunities := [] in
  let opportunities :=
    if missing then
      opportunities ++
      [opportunity "high" "Add H1 heading"
         "Add single, descriptive H1 tag to page"
         "Improve page structure and SEO ranking"]
    else opportunities in
  let opportunities :=
    if multiple then
      opportunities ++
      [opportunity "medium" "Use only one H1 per page"
         "Convert additional H1 tags to H2 or appropriate level"
         "Improve semantic structure and SEO"]
    else opportunities in
  let opportunities :=
    if 0 <? empty then
      opportunities ++
      [opportunity "medium" "Remove or populate empty header tags"
         ("Add content to " +:+ BIBudget.str_of_Z empty +:+ " empty header tags")
         "Clean up HTML structure and improve accessibility"]
    else opportunities in
  let opportunities :=
    if sum_counts counts <? 3 then
      opportunities ++
      [opportunity "low" "Add more header tags for content structure"
         "Use H2-H6 tags to create clear content hierarchy"
         "Improve content organization and user experience"]
    else opportunities in
  {| structure := {| header_counts := counts |};
     missing_h1 := missing;
     multiple_h1 := multiple;
     empty_headers := empty;
     header_opportunities := opportunities |}.

(** The two parts of calculate_seo_score that read these analyses:
    'Title and meta tags (25 points)' and 'Header structure (15 points)'. *)
Definition meta_points (meta : MetaTags) : Z :=
  let score := 0 in
  let score :=
    if PyStr.truthy_opt (title meta) then
      let score := score + 10 in
      let title_len := title_length meta in
      if (30 <=? title_len) && (title_len <=? 60) then score + 5 else score
    else score in
  let score :=
    if PyStr.truthy_opt (description meta) then
      let score := score + 5 in
      let desc_len := description_length meta in
      if (120 <=? desc_len) && (desc_len <=? 160) then score + 5 else score
    else score in
  score.

Definition header_points (headers : HeaderStructure) : Z :=
  let score := 0 in
  let score :=
    if default 0 (header_counts headers !! "h1") =? 1 then score + 10 else score in
  let score :=
    if 3 <=? sum_counts (header_counts headers) then score + 5 else score in
  score.

(** The results of the analyses of analyze_seo that are taken as given,
    each with its opportunities, in the order of the result dict. *)
Record OtherAnalyses := {
  page_speed : PageSpeed * list Opportunity;
  image_analysis : Images * list Opportunity;
  schema : SchemaMarkup * list Opportunity;
  local : LocalSeo * list Opportunity;
  page_titles_opportunities : list Opportunity;
  url_analysis : UrlStructure * list Opportunity;
  internal_links_opportunities : list Opportunity
}.

Record SeoReport := {
  analysis : SeoAnalysis;
  seo_score : Z;
  opportunities : list Opportunity
}.

Definition analyze_seo (meta_view : MetaView) (header_view : HeaderView)
    (others : OtherAnalyses) : SeoReport :=
  let meta := analyze_meta_tags meta_view in
  let headers := analyze_header_structure header_view in
  let result :=
    {| meta_tags := fst meta;
       header_structure := structure headers;
       images := fst (image_analysis others);
       schema_markup := fst (schema others);
       local_seo := fst (local others);
       url_structure := fst (url_analysis others);
       page_speed_indicators := fst (page_speed others) |} in
  {| analysis := result;
     seo_score := calculate_seo_score result;
     opportunities :=
       snd meta ++ snd (page_speed others) ++ snd (image_analysis others) ++
       snd (schema others) ++ snd (local others) ++
       page_titles_opportunities others ++ header_opportunities headers ++
       snd (url_analysis others) ++ internal_links_opportunities others |}.

(** The recommendation texts of an opportunity list. *)
Definition recommendations (l : list Opportunity) : list string :=
  List.map recommendation l.

End SeoAnalyzers.

(** ** Sample inputs of the pipeline *)

Module PipelineSamples.

Import Api.

(** The page of a small shop: a Facebook link and pixel, a Shopify
    script, and a text with shop keywords. *)
Definition shop_soup : BIAnalyzer.Soup :=
  {| BIAnalyzer.str_soup :=
       "<html><head><script src='https://cdn.shopify.com/s/a.js'></script>" +:+
       "<script src='https://connect.facebook.net/en_US/fbevents.js'></script>" +:+
       "</head><body><a href='https://www.facebook.com/acme'>Facebook</a>" +:+
       "Shop our store and buy products. We are hiring.</body></html>";
     BIAnalyzer.get_text := "Facebook Shop our store and buy products. We are hiring.";
     BIAnalyzer.a_hrefs := ["https://www.facebook.com/acme"];
     BIAnalyzer.script_srcs :=
       [Some "https://cdn.shopify.com/s/a.js";
        Some "https://connect.facebook.net/en_US/fbevents.js"];
     BIAnalyzer.link_hrefs := [];
     BIAnalyzer.forms := [] |}.

Definition shop_profile_page : BIProfile.ProfilePage :=
  {| BIProfile.title_text := Some "Acme Shop";
     BIProfile.description_content := None;
     BIProfile.text := BIAnalyzer.get_text shop_soup |}.

Definition Page : Type := BIAnalyzer.Soup * BIProfile.ProfilePage.

(** A fetch that fails for one host and counts the requests. *)
Definition fetch_website (url : string) (w : nat) : option Page * nat :=
  if PyStr.contains "down.example" url then (None, S w)
  else (Some (shop_soup, shop_profile_page), S w).

Definition no_matches (pattern text : string) : list (list string) := [].

(** The analyzer over this fetch: the modelled analyses run on the page,
    the others return at once. *)
Definition analyze_business_intelligence
    : string -> nat ->
      Outcome (BIPipeline.Analysis unit (list BIQuickWins.QuickWin) unit unit
                 unit unit unit unit) * nat :=
  BIPipeline.analyze_business_intelligence unit (list BIQuickWins.QuickWin) unit unit
    (fun _ => tt)
    (fun ls profile social tech contact =>
       BIQuickWins.identify_quick_wins ls profile social (fun _ => false) tech contact)
    (fun _ _ => "") (fun _ _ => "")
    (fun _ _ => Return "") (fun _ _ => Return "")
    (fun _ _ => Return "") (fun _ _ => Return "")
    (fun _ => Return tt) (fun _ _ _ => Return tt)
    nat Page unit unit unit unit no_matches no_matches
    fetch_website snd
    (fun page =>
       Return (BIAnalyzer.analyze_social_media_intelligence
                 Samples.literal_search (fst page)))
    (fun page =>
       Return (BIAnalyzer.analyze_tech_stack Samples.literal_search (fst page)))
    (fun _ => Return tt)
    (fun page tech social =>
       Return (BIBudget.to_budget_analysis
                 (BIBudget.analyze_budget_indicators (fst page) tech social)))
    (fun _ => Return tt)
    (fun page =>
       Return (BIAnalyzer.extract_contact_intelligence no_matches no_matches
                 (fst page)))
    (fun _ _ _ _ => Return tt)
    (fun _ _ => tt)
    (fun _ w => (Return tt, S w)).

Definition two_urls : list JsonValue :=
  [ JStr "shop.example"; JStr "https://down.example/" ].

Definition mixed_urls : list JsonValue :=
  [ JStr "a.example"; JFalsy; JStr "localhost:8080"; JStr "" ].

Definition invalid_batch : list JsonValue :=
  [ JStr "a.example"; JStr "localhost:8080" ].

(** A page with no detector hit and the SEO analysis of the boundary
    page. *)
Definition bare_automation : Automation.Analysis :=
  {| Automation.has_chatbot := false;
     Automation.has_lead_capture := false;
     Automation.has_email_signup := false;
     Automation.social_links := ∅;
     Automation.has_reviews := false;
     Automation.has_booking := false;
     Automation.has_viewport_meta := true;
     Automation.responsive_design := true;
     Automation.mobile_menu := true;
     Automation.contact_methods := ["phone"; "email"];
     Automation.seo_score :=
       WebsiteAnalyzer.calculate_seo_score WebsiteAnalyzer.bare_boundary_analysis |}.

(** A page whose only hit is one HubSpot indicator, and a page on which
    every pattern matches. *)
Definition hubspot_only_soup : BIAnalyzer.Soup :=
  {| BIAnalyzer.str_soup := "<html><body><script>var hsjs = 1;</script></body></html>";
     BIAnalyzer.get_text := "";
     BIAnalyzer.a_hrefs := [];
     BIAnalyzer.script_srcs := [None];
     BIAnalyzer.link_hrefs := [];
     BIAnalyzer.forms := [] |}.

Definition busy_soup : BIAnalyzer.Soup :=
  {| BIAnalyzer.str_soup := "<html><body><a href='https://x.example/'>x</a></body></html>";
     BIAnalyzer.get_text := "x";
     BIAnalyzer.a_hrefs := ["https://x.example/"];
     BIAnalyzer.script_srcs := [];
     BIAnalyzer.link_hrefs := [];
     BIAnalyzer.forms := [] |}.

Definition large_saas_profile : BIAnalyzer.CompanyProfile :=
  {| BIAnalyzer.industry := Some "saas";
     BIAnalyzer.employees := Some "100+";
     BIAnalyzer.location := Some "austin, tx" |}.

End PipelineSamples.

(** * Properties *)

(** ** Sanity checks of the string operations *)

Example lower_mixed : PyStr.lower "LocalHost:80" = "localhost:80".
Proof. reflexivity. Qed.

Example contains_inner : PyStr.contains "50-" "about 50-100" = true.
Proof. reflexivity. Qed.

Example replace_suffix : PyStr.replace_with_empty "_analysis" "seo_analysis" = "seo".
Proof. reflexivity. Qed.

Example replace_twice :
  PyStr.replace_with_empty "_analysis" "a_analysis_analysisb" = "ab".
Proof. reflexivity. Qed.

(** ** Generic facts *)

Lemma fold_left_invariant {A B} (P : A -> Prop) (f : A -> B -> A)
    (l : list B) (a : A) :
  P a -> (forall a b, In b l -> P a -> P (f a b)) -> P (fold_left f l a).
Proof.
  revert a. induction l as [|b l IH]; intros a Ha Hstep; simpl; [exact Ha|].
  apply IH.
  - apply Hstep; [now left | exact Ha].
  - intros a' b' Hin. apply Hstep. now right.
Qed.

(** ** Lead scoring *)

Section LeadScoringFacts.

Import BIAnalyzer.

Lemma sum_values_insert (m : gmap string Z) (k : string) (v : Z) :
  m !! k = None -> sum_values (<[k := v]> m) = sum_values m + v.
Proof.
  intros Hk. unfold sum_values.
  rewrite map_fold_insert_L; [reflexivity | | exact Hk].
  intros. lia.
Qed.

Lemma sum_values_empty : sum_values ∅ = 0.
Proof. unfold sum_values. apply map_fold_empty. Qed.

Lemma profile_score_range (p : CompanyProfile) : 0 <= profile_score p <= 20.
Proof.
  unfold profile_score.
  repeat match goal with
         | |- context [if ?c then _ else _] => destruct c
         | |- context [match ?o with Some _ => _ | None => _ end] => destruct o
         end; lia.
Qed.

Lemma budget_score_cases (b : BudgetAnalysis) :
  budget_score b = 25 \/ budget_score b = 20 \/ budget_score b = 15 \/ budget_score b = 5.
Proof.
  unfold budget_score.
  repeat match goal with
         | |- context [if ?c then _ else _] => destruct c
         end; auto.
Qed.

Lemma social_score_range (si : SocialIntel) :
  0 <= social_engagement_score si -> 0 <= social_score si <= 20.
Proof.
  intros H. unfold social_score.
  pose proof (Z.div_pos (social_engagement_score si) 3 H ltac:(lia)).
  destruct (nonempty _); lia.
Qed.

Lemma tech_score_range (t : TechAnalysis) :
  0 <= tech_sophistication_score t -> 0 <= tech_score t <= 20.
Proof.
  intros H. unfold tech_score.
  pose proof (Z.div_pos (tech_sophistication_score t) 2 H ltac:(lia)).
  destruct (nonempty _); lia.
Qed.

Lemma contact_score_range (c : ContactIntel) :
  0 <= sales_readiness_score c -> 0 <= contact_score c <= 10.
Proof.
  intros H. unfold contact_score.
  pose proof (Z.div_pos (sales_readiness_score c) 2 H ltac:(lia)).
  lia.
Qed.

(** The three accumulated scores start at 0 and only grow. *)

Lemma social_engagement_nonneg re_search (soup : Soup) :
  0 <= social_engagement_score (analyze_social_media_intelligence re_search soup).
Proof.
  unfold analyze_social_media_intelligence.
  apply fold_left_invariant with (P := fun acc => 0 <= social_engagement_score acc).
  - simpl. lia.
  - intros acc [platform [pats weight]] Hin Hacc.
    assert (0 <= weight) as Hw.
    { unfold social_platforms in Hin. simpl in Hin.
      repeat (destruct Hin as [Hin|Hin]; [inversion Hin; lia|]). contradiction. }
    unfold social_step.
    destruct (_ || _); simpl; lia.
Qed.

Lemma bump_nonneg pts tag item hit (d : Detection) :
  0 <= pts -> 0 <= fst d -> 0 <= fst (bump pts tag item hit d).
Proof. intros. unfold bump. destruct hit; simpl; lia. Qed.

Lemma check_attrs_nonneg re_search pts tag cfg attrs (d : Detection) :
  0 <= pts -> 0 <= fst d -> 0 <= fst (check_attrs re_search pts tag cfg attrs d).
Proof.
  intros Hp Hd. unfold check_attrs.
  apply fold_left_invariant with (P := fun d => 0 <= fst d); [exact Hd|].
  intros d' attr _ Hd'. destruct (PyStr.truthy_opt attr); [|exact Hd'].
  apply fold_left_invariant with (P := fun d => 0 <= fst d); [exact Hd'|].
  intros. now apply bump_nonneg.
Qed.

Lemma detect_nonneg re_search (soup : Soup) (cfg : TechConfig) :
  0 <= fst (detect re_search soup cfg).
Proof.
  unfold detect.
  do 2 (apply check_attrs_nonneg; [lia|]).
  unfold check_indicators.
  apply fold_left_invariant with (P := fun d => 0 <= fst d).
  - unfold check_html_patterns.
    apply fold_left_invariant with (P := fun d => 0 <= fst d); [simpl; lia|].
    intros. apply bump_nonneg; [lia|assumption].
  - intros. apply bump_nonneg; [lia|assumption].
Qed.

Lemma tech_fold_nonneg re_search (soup : Soup) (l : list (string * TechConfig))
    (acc : gmap string Detected * Z) :
  0 <= snd acc -> 0 <= snd (fold_left (tech_step re_search soup) l acc).
Proof.
  intros Hacc.
  apply fold_left_invariant with (P := fun acc => 0 <= snd acc); [exact Hacc|].
  intros acc' [tech cfg] _ Hacc'. unfold tech_step.
  pose proof (detect_nonneg re_search soup cfg) as Hd.
  destruct (detect re_search soup cfg) as [sc ev]. simpl in Hd.
  destruct (0 <? sc); simpl; lia.
Qed.

Lemma tech_sophistication_nonneg re_search (soup : Soup) :
  0 <= tech_sophistication_score (analyze_tech_stack re_search soup).
Proof.
  unfold analyze_tech_stack.
  pose proof (tech_fold_nonneg re_search soup tech_patterns (∅, 0)) as H.
  destruct (fold_left _ _ _) as [detected score]. simpl in *. lia.
Qed.

Lemma sales_readiness_nonneg re_findall re_findall_i (soup : Soup) :
  0 <= sales_readiness_score
         (extract_contact_intelligence re_findall re_findall_i soup).
Proof.
  unfold extract_contact_intelligence. cbn [sales_readiness_score].
  set (s2 := fold_left _ title_patterns _).
  assert (0 <= s2) as H2.
  { subst s2.
    apply fold_left_invariant with (P := fun s => 0 <= s).
    - destruct (nonempty _), (nonempty _); lia.
    - intros s pattern _ Hs.
      apply fold_left_invariant with (P := fun s => 0 <= s); [exact Hs|].
      intros; lia. }
  set (cx := fold_left _ (forms soup) 0).
  assert (0 <= cx) as Hcx.
  { subst cx. apply fold_left_invariant with (P := fun c => 0 <= c); [lia|].
    intros; lia. }
  destruct (nonempty (forms soup)), (nonempty (List.filter _ _)); lia.
Qed.

(** The five entries of [category_scores] and their sum. *)
Lemma category_scores_lookup p si t b c :
  let d := fill_category_scores p si t b c in
  d !! "company_profile" = Some (Z.min (profile_score p) 25) /\
  d !! "social_intelligence" = Some (Z.min (social_score si) 20) /\
  d !! "technology" = Some (Z.min (tech_score t) 20) /\
  d !! "budget" = Some (budget_score b) /\
  d !! "contact_accessibility" = Some (contact_score c) /\
  size d = 5%nat.
Proof.
  unfold fill_category_scores. cbv zeta.
  repeat split; by simplify_map_eq.
Qed.

Lemma overall_is_sum p si t b c :
  sum_values (fill_category_scores p si t b c) =
  Z.min (profile_score p) 25 + Z.min (social_score si) 20 +
  Z.min (tech_score t) 20 + budget_score b + contact_score c.
Proof.
  unfold fill_category_scores. cbv zeta.
  repeat (rewrite sum_values_insert; [|by simplify_map_eq]).
  rewrite sum_values_empty. lia.
Qed.

Lemma calculate_lead_scoring_overall p si t b c :
  overall_score (calculate_lead_scoring p si t b c) =
  sum_values (fill_category_scores p si t b c).
Proof.
  unfold calculate_lead_scoring. cbv zeta.
  destruct (determine_lead_quality _) as [[[[? ?] ?] ?] ?]. reflexivity.
Qed.

Lemma calculate_lead_scoring_categories p si t b c :
  category_scores (calculate_lead_scoring p si t b c) =
  fill_category_scores p si t b c.
Proof.
  unfold calculate_lead_scoring. cbv zeta.
  destruct (determine_lead_quality _) as [[[[? ?] ?] ?] ?]. reflexivity.
Qed.

Lemma determine_lead_quality_cases (s : Z) :
  (80 <= s /\ determine_lead_quality s =
     ("premium", "immediate", "high", "$10,000-$100,000+", "1-3 months")) \/
  (60 <= s < 80 /\ determine_lead_quality s =
     ("qualified", "high", "medium-high", "$5,000-$25,000", "2-6 months")) \/
  (40 <= s < 60 /\ determine_lead_quality s =
     ("potential", "medium", "medium", "$2,000-$10,000", "3-12 months")) \/
  (s < 40 /\ determine_lead_quality s =
     ("nurture", "low", "low", "$500-$5,000", "6-18+ months")).
Proof.
  unfold determine_lead_quality.
  destruct (Z.leb_spec 80 s); [left; split; [lia|reflexivity]|].
  destruct (Z.leb_spec 60 s); [right; left; split; [lia|reflexivity]|].
  destruct (Z.leb_spec 40 s); [right; right; left; split; [lia|reflexivity]|].
  right; right; right; split; [lia|reflexivity].
Qed.

(** C1.  The branch on the overall score is a partition by the thresholds
    80, 60 and 40: a run's lead quality is 'premium' exactly when the
    overall score is at least 80, 'qualified' exactly on [60,80),
    'potential' exactly on [40,60) and 'nurture' exactly below 40; every
    integer score of [0,100] gets exactly one of the four tiers; and the
    tier of a run fixes its conversion probability, deal-size estimate and
    sales-cycle estimate (one row of a four-row table). *)
Theorem lead_quality_tier_partition :
  (forall p si t b c,
     let r := calculate_lead_scoring p si t b c in
     (80 <= overall_score r <-> lead_quality r = "premium") /\
     (60 <= overall_score r < 80 <-> lead_quality r = "qualified") /\
     (40 <= overall_score r < 60 <-> lead_quality r = "potential") /\
     (overall_score r < 40 <-> lead_quality r = "nurture")) /\
  (forall s, 0 <= s <= 100 ->
     exists q, tier_of_score s = q /\
       In q ["premium"; "qualified"; "potential"; "nurture"] /\
       (q = "premium" <-> 80 <= s) /\
       (q = "qualified" <-> 60 <= s < 80) /\
       (q = "potential" <-> 40 <= s < 60) /\
       (q = "nurture" <-> s < 40)) /\
  (forall p si t b c,
     let r := calculate_lead_scoring p si t b c in
     (conversion_probability r, deal_size_estimate r, sales_cycle_estimate r) =
     if String.eqb (lead_quality r) "premium"
     then ("high", "$10,000-$100,000+", "1-3 months")
     else if String.eqb (lead_quality r) "qualified"
     then ("medium-high", "$5,000-$25,000", "2-6 months")
     else if String.eqb (lead_quality r) "potential"
     then ("medium", "$2,000-$10,000", "3-12 months")
     else ("low", "$500-$5,000", "6-18+ months")).
Proof.
  split; [|split].
  - intros p si t b c r. subst r.
    unfold calculate_lead_scoring. cbv zeta.
    generalize (sum_values (fill_category_scores p si t b c)) as s.
    generalize (fill_category_scores p si t b c) as d.
    intros d s.
    destruct (determine_lead_quality_cases s) as [[H E]|[[H E]|[[H E]|[H E]]]];
      rewrite E; clear E; cbn [overall_score lead_quality];
      repeat split; intros; try lia; try discriminate; try reflexivity.
  - intros s Hs. exists (tier_of_score s). unfold tier_of_score.
    destruct (determine_lead_quality_cases s) as [[H E]|[[H E]|[[H E]|[H E]]]];
      rewrite E; clear E; (split; [reflexivity|]);
      (split; [simpl; tauto|]);
      repeat split; intros; try lia; try discriminate; try reflexivity.
  - intros p si t b c r. subst r.
    unfold calculate_lead_scoring. cbv zeta.
    generalize (sum_values (fill_category_scores p si t b c)) as s.
    generalize (fill_category_scores p si t b c) as d.
    intros d s.
    destruct (determine_lead_quality_cases s) as [[H E]|[[H E]|[[H E]|[H E]]]];
      rewrite E; reflexivity.
Qed.

(** The category scores of a run, entry by entry. *)
Lemma run_category_scores :
  forall re_search re_findall re_findall_i soup company_profile budget_analysis,
    let r := analyze_business_intelligence_lead_scoring
               re_search re_findall re_findall_i soup
               company_profile budget_analysis in
    exists cp so te bu co,
      category_scores r !! "company_profile" = Some cp /\
      category_scores r !! "social_intelligence" = Some so /\
      category_scores r !! "technology" = Some te /\
      category_scores r !! "budget" = Some bu /\
      category_scores r !! "contact_accessibility" = Some co /\
      size (category_scores r) = 5%nat /\
      0 <= cp <= 25 /\ 0 <= so <= 20 /\ 0 <= te <= 20 /\
      (bu = 25 \/ bu = 20 \/ bu = 15 \/ bu = 5) /\ 0 <= co <= 10 /\
      overall_score r = sum_values (category_scores r) /\
      overall_score r = cp + so + te + bu + co.
Proof.
  intros re_search re_findall re_findall_i soup p b r. subst r.
  unfold analyze_business_intelligence_lead_scoring.
  set (si := analyze_social_media_intelligence re_search soup).
  set (t := analyze_tech_stack re_search soup).
  set (c := extract_contact_intelligence re_findall re_findall_i soup).
  rewrite calculate_lead_scoring_categories, calculate_lead_scoring_overall.
  destruct (category_scores_lookup p si t b c) as (H1 & H2 & H3 & H4 & H5 & H6).
  pose proof (profile_score_range p) as Rp.
  pose proof (social_score_range si (social_engagement_nonneg re_search soup)) as Rs.
  pose proof (tech_score_range t (tech_sophistication_nonneg re_search soup)) as Rt.
  pose proof (contact_score_range c (sales_readiness_nonneg re_findall re_findall_i soup)) as Rc.
  pose proof (budget_score_cases b) as Rb.
  pose proof (overall_is_sum p si t b c) as Hsum.
  eexists _, _, _, _, _.
  repeat (split; [eassumption|]).
  rewrite Hsum. repeat split; try lia.
Qed.

(** C2.  In every analysis run each of the five category scores lies
    between 0 and its cap (company profile 25, social intelligence 20,
    technology 20, budget 25, contact accessibility 10), the dict holds
    exactly these five entries, the overall score is their sum, and it is
    at most 100. *)
Theorem category_scores_within_caps :
  forall re_search re_findall re_findall_i soup company_profile budget_analysis,
    let r := analyze_business_intelligence_lead_scoring
               re_search re_findall re_findall_i soup
               company_profile budget_analysis in
    exists cp so te bu co,
      category_scores r !! "company_profile" = Some cp /\
      category_scores r !! "social_intelligence" = Some so /\
      category_scores r !! "technology" = Some te /\
      category_scores r !! "budget" = Some bu /\
      category_scores r !! "contact_accessibility" = Some co /\
      size (category_scores r) = 5%nat /\
      0 <= cp <= 25 /\ 0 <= so <= 20 /\ 0 <= te <= 20 /\
      0 <= bu <= 25 /\ 0 <= co <= 10 /\
      overall_score r = sum_values (category_scores r) /\
      overall_score r = cp + so + te + bu + co /\
      overall_score r <= 100.
Proof.
  intros re_search re_findall re_findall_i soup p b r.
  destruct (run_category_scores re_search re_findall re_findall_i soup p b)
    as (cp & so & te & bu & co & H1 & H2 & H3 & H4 & H5 & H6 & R1 & R2 & R3 & R4 & R5 & S1 & S2).
  exists cp, so, te, bu, co. subst r.
  repeat (split; [assumption|]).
  repeat split; try assumption; lia.
Qed.

(** C10.  In every analysis run the budget category score is at least 5
    (the final branch of the budget level chain still awards 5), so the
    overall score is at least 5 and is never 0. *)
Theorem budget_floor_keeps_overall_positive :
  forall re_search re_findall re_findall_i soup company_profile budget_analysis,
    let r := analyze_business_intelligence_lead_scoring
               re_search re_findall re_findall_i soup
               company_profile budget_analysis in
    (exists bu, category_scores r !! "budget" = Some bu /\ 5 <= bu) /\
    5 <= overall_score r /\
    overall_score r <> 0.
Proof.
  intros re_search re_findall re_findall_i soup p b r.
  destruct (run_category_scores re_search re_findall re_findall_i soup p b)
    as (cp & so & te & bu & co & H1 & H2 & H3 & H4 & H5 & H6 & R1 & R2 & R3 & R4 & R5 & S1 & S2).
  subst r. split; [exists bu; split; [assumption|lia]|]. lia.
Qed.

End LeadScoringFacts.

(** ** Technology detection *)

Section TechStackFacts.

Import BIAnalyzer.

Variable re_search : string -> string -> bool.

Lemma bump_fold_score {A} (pts : Z) (tag : string) (name : A -> string)
    (hit : A -> bool) (l : list A) (d : Detection) :
  fst (fold_left (fun d x => bump pts tag (name x) (hit x) d) l d) =
  fst d + pts * Z.of_nat (List.length (List.filter hit l)).
Proof.
  revert d. induction l as [|x l IH]; intros d; simpl.
  - lia.
  - rewrite IH. unfold bump. destruct (hit x); simpl; lia.
Qed.

Lemma check_html_patterns_score cfg page_html d :
  fst (check_html_patterns re_search cfg page_html d) =
  fst d + 2 * Z.of_nat (html_pattern_hits re_search cfg page_html).
Proof.
  unfold check_html_patterns, html_pattern_hits.
  apply (bump_fold_score 2 "pattern_" (fun p => p)
           (fun p => re_search p page_html)).
Qed.

Lemma check_indicators_score cfg page_html d :
  fst (check_indicators cfg page_html d) =
  fst d + 3 * Z.of_nat (indicator_hits cfg page_html).
Proof.
  unfold check_indicators, indicator_hits.
  apply (bump_fold_score 3 "indicator_" (fun i => i)
           (fun i => PyStr.contains (PyStr.lower i) page_html)).
Qed.

Lemma check_attrs_score pts tag cfg attrs d :
  fst (check_attrs re_search pts tag cfg attrs d) =
  fst d + pts * Z.of_nat (attr_pattern_hits re_search cfg attrs).
Proof.
  unfold check_attrs, attr_pattern_hits.
  revert d. induction attrs as [|attr attrs IH]; intros d; simpl.
  - lia.
  - rewrite IH. rewrite List.length_app.
    destruct attr as [v|]; simpl; [|lia].
    destruct (PyStr.truthy v); simpl; [|lia].
    rewrite (bump_fold_score pts tag (fun p => p)
               (fun p => re_search p (PyStr.lower v))).
    rewrite List.length_map. lia.
Qed.

(** The detection score of one technology, by match source. *)
Lemma detect_score (soup : Soup) (cfg : TechConfig) :
  fst (detect re_search soup cfg) =
  2 * Z.of_nat (html_pattern_hits re_search cfg (PyStr.lower (str_soup soup))) +
  3 * Z.of_nat (indicator_hits cfg (PyStr.lower (str_soup soup))) +
  3 * Z.of_nat (attr_pattern_hits re_search cfg (script_srcs soup)) +
  2 * Z.of_nat (attr_pattern_hits re_search cfg (link_hrefs soup)).
Proof.
  unfold detect. cbv zeta.
  rewrite !check_attrs_score, check_indicators_score, check_html_patterns_score.
  simpl. lia.
Qed.

(** What the loop over the table leaves under one key. *)
Lemma tech_fold_lookup (soup : Soup) (l : list (string * TechConfig))
    (acc : gmap string Detected * Z) (tech : string) (cfg : TechConfig) :
  NoDup (List.map fst l) -> In (tech, cfg) l ->
  fst (fold_left (tech_step re_search soup) l acc) !! tech =
  let '(score, ev) := detect re_search soup cfg in
  if 0 <? score then
    Some {| confidence := Z.min (score * 10) 100;
            evidence := ev;
            category := cfg_category cfg;
            cost_indicator := cfg_cost_indicator cfg;
            agency_opportunity := cfg_agency_opportunity cfg |}
  else fst acc !! tech.
Proof.
  assert (Hskip : forall l acc,
             ~ In tech (List.map fst l) ->
             fst (fold_left (tech_step re_search soup) l acc) !! tech = fst acc !! tech).
  { clear. induction l as [|[k c] l IH]; intros acc Hn; simpl; [reflexivity|].
    rewrite IH by (intros H; apply Hn; now right).
    unfold tech_step. destruct (detect re_search soup c) as [sc ev].
    destruct (0 <? sc); simpl; [|reflexivity].
    apply lookup_insert_ne. intros ->. apply Hn. now left. }
  revert acc. induction l as [|[k c] l IH]; intros acc Hnd Hin; [contradiction|].
  simpl in Hnd. apply NoDup_cons in Hnd as [Hk Hnd].
  simpl. destruct Hin as [Heq|Hin].
  - inversion Heq; subst k c. rewrite Hskip.
    + unfold tech_step. destruct (detect re_search soup cfg) as [sc ev].
      destruct (0 <? sc); simpl; [|reflexivity]. apply lookup_insert_eq.
    + rewrite <- list_elem_of_In. exact Hk.
  - rewrite (IH _ Hnd Hin).
    destruct (detect re_search soup cfg) as [sc ev].
    destruct (0 <? sc); [reflexivity|].
    unfold tech_step. destruct (detect re_search soup c) as [sc' ev'].
    destruct (0 <? sc'); simpl; [|reflexivity].
    apply lookup_insert_ne. intros ->. apply Hk.
    rewrite list_elem_of_In. apply (in_map fst _ _ Hin).
Qed.

Lemma tech_patterns_keys_distinct : NoDup (List.map fst tech_patterns).
Proof.
  apply (bool_decide_unpack (NoDup (List.map fst tech_patterns))).
  vm_compute. exact I.
Qed.

(** C6.  For every technology of the table, the detection score is 2 per
    pattern found in the (lower-cased) page HTML, plus 3 per indicator
    found in it, plus 3 per pattern found in a script's src, plus 2 per
    pattern found in a link's href; the technology is recorded exactly
    when this score is positive, and its confidence is then
    min(10 * score, 100). *)
Theorem detection_score_weights :
  forall (soup : Soup) (tech : string) (cfg : TechConfig),
    In (tech, cfg) tech_patterns ->
    let page_html := PyStr.lower (str_soup soup) in
    let score :=
      2 * Z.of_nat (html_pattern_hits re_search cfg page_html) +
      3 * Z.of_nat (indicator_hits cfg page_html) +
      3 * Z.of_nat (attr_pattern_hits re_search cfg (script_srcs soup)) +
      2 * Z.of_nat (attr_pattern_hits re_search cfg (link_hrefs soup)) in
    let detected := detected_technologies (analyze_tech_stack re_search soup) in
    fst (detect re_search soup cfg) = score /\
    (score = 0 -> detected !! tech = None) /\
    (0 < score ->
       exists d, detected !! tech = Some d /\
                 confidence d = Z.min (10 * score) 100 /\
                 evidence d = snd (detect re_search soup cfg)).
Proof.
  intros soup tech cfg Hin page_html score detected.
  pose proof (detect_score soup cfg) as Hscore. fold page_html in Hscore.
  fold score in Hscore.
  assert (detected !! tech =
          if 0 <? score then
            Some {| confidence := Z.min (score * 10) 100;
                    evidence := snd (detect re_search soup cfg);
                    category := cfg_category cfg;
                    cost_indicator := cfg_cost_indicator cfg;
                    agency_opportunity := cfg_agency_opportunity cfg |}
          else None) as Hlook.
  { subst detected. unfold analyze_tech_stack.
    pose proof (tech_fold_lookup soup tech_patterns (∅, 0) tech cfg
                  tech_patterns_keys_distinct Hin) as H.
    destruct (fold_left _ _ _) as [det sc]. cbn [detected_technologies].
    simpl in H. rewrite H.
    destruct (detect re_search soup cfg) as [sc' ev']. simpl in Hscore. subst sc'.
    simpl. destruct (0 <? score); [reflexivity|apply lookup_empty]. }
  split; [exact Hscore|]. split.
  - intros H0. rewrite Hlook, H0. reflexivity.
  - intros Hpos. rewrite Hlook.
    destruct (Z.ltb_spec 0 score); [|lia].
    eexists; split; [reflexivity|]. simpl. split; [f_equal; lia|reflexivity].
Qed.

End TechStackFacts.

(** ** The SEO score *)

Section SeoScoreFacts.

Import WebsiteAnalyzer.

(** Bring the outermost [let] of the left-hand side into the context. *)
Ltac name_let n :=
  lazymatch goal with
  | |- (let x := ?v in @?b x) = ?rhs =>
      pose (n := v); change (b n = rhs); cbv beta
  end.

Lemma pts_range (c : bool) (n : Z) : 0 <= n -> 0 <= pts c n <= n.
Proof. intros. unfold pts. destruct c; lia. Qed.

Lemma pts_true (c : bool) (n : Z) : c = true -> pts c n = n.
Proof. intros ->. reflexivity. Qed.

Lemma pts_full (c : bool) (n : Z) : 0 < n -> pts c n = n -> c = true.
Proof. unfold pts. destruct c; [reflexivity|lia]. Qed.

Lemma rule_sum_range (s : SeoAnalysis) : 0 <= rule_sum s <= 100.
Proof.
  unfold rule_sum. cbv zeta.
  repeat match goal with
         | |- context [pts ?c ?n] =>
             let H := fresh in
             pose proof (pts_range c n ltac:(lia)) as H;
             generalize dependent (pts c n); intros
         end.
  destruct (Qle_bool _ _); [lia|]. destruct (Qle_bool _ _); lia.
Qed.

Lemma calculate_seo_score_unclamped (s : SeoAnalysis) :
  calculate_seo_score s = Z.min (rule_sum s) 100.
Proof.
  cbv beta delta [calculate_seo_score].
  name_let score; name_let max_score; name_let meta; name_let score1;
  name_let score2; name_let headers; name_let score3; name_let score4;
  name_let imgs; name_let alt; name_let score5; name_let score6;
  name_let schema; name_let score7; name_let lseo; name_let score8;
  name_let score9; name_let url_struct; name_let score10; name_let score11;
  name_let speed; name_let score12; name_let score13.
  cbv zeta.
  assert (score1 =
          pts (PyStr.truthy_opt (title meta)) 10 +
          pts (PyStr.truthy_opt (title meta) &&
               ((30 <=? title_length meta) && (title_length meta <=? 60))) 5) as E1.
  { subst score1 score. unfold pts.
    destruct (PyStr.truthy_opt (title meta)); [|reflexivity].
    cbv zeta. cbn [andb].
    destruct ((30 <=? title_length meta) && (title_length meta <=? 60)); lia. }
  clearbody score1.
  assert (score2 = score1 +
          pts (PyStr.truthy_opt (description meta)) 5 +
          pts (PyStr.truthy_opt (description meta) &&
               ((120 <=? description_length meta) &&
                (description_length meta <=? 160))) 5) as E2.
  { subst score2. unfold pts.
    destruct (PyStr.truthy_opt (description meta)); [|simpl; lia].
    cbv zeta. cbn [andb].
    destruct ((120 <=? description_length meta) &&
              (description_length meta <=? 160)); lia. }
  clearbody score2.
  assert (score3 = score2 +
          pts (default 0 (header_counts headers !! "h1") =? 1) 10) as E3.
  { subst score3. unfold pts. destruct (_ =? _); lia. }
  clearbody score3.
  assert (score4 = score3 + pts (3 <=? sum_counts (header_counts headers)) 5) as E4.
  { subst score4. unfold pts. destruct (_ <=? _); lia. }
  clearbody score4.
  assert (score5 = score4 +
          (if Qle_bool (inject_Z 80) alt then 10
           else if Qle_bool (inject_Z 50) alt then 5 else 0)) as E5.
  { subst score5. destruct (Qle_bool _ _); [lia|]. destruct (Qle_bool _ _); lia. }
  clearbody score5.
  assert (score6 = score5 + pts (0 <? lazy_loading imgs) 5) as E6.
  { subst score6. unfold pts. destruct (_ <? _); lia. }
  clearbody score6.
  assert (score7 = score6 +
          pts (nonempty (json_ld_schemas schema) || nonempty (microdata schema)) 15) as E7.
  { subst score7. unfold pts. destruct (_ || _); lia. }
  clearbody score7.
  assert (score8 = score7 + pts (nap_phone lseo && nap_address lseo) 5) as E8.
  { subst score8. unfold pts. destruct (_ && _); lia. }
  clearbody score8.
  assert (score9 = score8 + pts (local_schema lseo) 5) as E9.
  { subst score9. unfold pts. destruct (local_schema _); lia. }
  clearbody score9.
  assert (score10 = score9 + pts (seo_friendly url_struct) 5) as E10.
  { subst score10. unfold pts. destruct (seo_friendly _); lia. }
  clearbody score10.
  assert (score11 = score10 + pts (breadcrumbs url_struct) 5) as E11.
  { subst score11. unfold pts. destruct (breadcrumbs _); lia. }
  clearbody score11.
  assert (score12 = score11 +
          pts (negb (bool_decide (minification_indicators speed = ∅))) 5) as E12.
  { subst score12. unfold pts. destruct (negb _); lia. }
  clearbody score12.
  assert (score13 = score12 + pts (cdn_usage speed) 5) as E13.
  { subst score13. unfold pts. destruct (cdn_usage _); lia. }
  clearbody score13.
  subst max_score meta headers imgs alt schema lseo url_struct speed.
  unfold rule_sum. cbv zeta. f_equal. lia.
Qed.

(** C4.  The SEO score is the sum of the fixed weights of the rules that
    hold: title 10 (+5 when its length is in [30,60]), description 5 (+5
    when its length is in [120,160]), exactly one H1 10, at least three
    headers 5, alt coverage >= 80 gives 10 (>= 50 gives 5), a lazy-loaded
    image 5, JSON-LD or microdata 15, NAP phone and address 5,
    LocalBusiness schema 5, SEO-friendly URL 5, breadcrumbs 5, minified
    assets 5, CDN 5; the weights total 100, the score is at most 100, and
    it is 100 when every rule holds. *)
Theorem seo_score_weights (s : SeoAnalysis) :
  let m := meta_tags s in
  let has_title := PyStr.truthy_opt (title m) in
  let title_in_band := (30 <=? title_length m) && (title_length m <=? 60) in
  let has_description := PyStr.truthy_opt (description m) in
  let description_in_band :=
    (120 <=? description_length m) && (description_length m <=? 160) in
  let counts := header_counts (header_structure s) in
  let one_h1 := default 0 (counts !! "h1") =? 1 in
  let three_headers := 3 <=? sum_counts counts in
  let alt := alt_text_percentage (images s) in
  let lazy := 0 <? lazy_loading (images s) in
  let structured :=
    nonempty (json_ld_schemas (schema_markup s))
    || nonempty (microdata (schema_markup s)) in
  let nap := nap_phone (local_seo s) && nap_address (local_seo s) in
  let local_business := local_schema (local_seo s) in
  let friendly := seo_friendly (url_structure s) in
  let crumbs := breadcrumbs (url_structure s) in
  let minified :=
    negb (bool_decide (minification_indicators (page_speed_indicators s) = ∅)) in
  let cdn := cdn_usage (page_speed_indicators s) in
  calculate_seo_score s =
    pts has_title 10 + pts (has_title && title_in_band) 5 +
    pts has_description 5 + pts (has_description && description_in_band) 5 +
    pts one_h1 10 + pts three_headers 5 +
    (if Qle_bool (inject_Z 80) alt then 10
     else if Qle_bool (inject_Z 50) alt then 5 else 0) +
    pts lazy 5 +
    pts structured 15 +
    pts nap 5 + pts local_business 5 +
    pts friendly 5 + pts crumbs 5 +
    pts minified 5 + pts cdn 5 /\
  10 + 5 + 5 + 5 + 10 + 5 + 10 + 5 + 15 + 5 + 5 + 5 + 5 + 5 + 5 = 100 /\
  0 <= calculate_seo_score s <= 100 /\
  (has_title && title_in_band && has_description && description_in_band &&
   one_h1 && three_headers && Qle_bool (inject_Z 80) alt && lazy &&
   structured && nap && local_business && friendly && crumbs &&
   minified && cdn = true ->
   calculate_seo_score s = 100).
Proof.
  cbv zeta.
  pose proof (calculate_seo_score_unclamped s) as E.
  pose proof (rule_sum_range s) as R.
  rewrite Z.min_l in E by lia.
  split; [rewrite E; reflexivity|].
  split; [reflexivity|].
  split; [lia|].
  intros H. rewrite E. unfold rule_sum. cbv zeta.
  repeat (apply andb_prop in H; destruct H as [H ?]).
  repeat match goal with
         | Hc : ?c = true |- _ => rewrite Hc; clear Hc
         end.
  reflexivity.
Qed.

Lemma bare_boundary_analysis_is_boundary :
  boundary_document bare_boundary_analysis.
Proof.
  unfold boundary_document.
  repeat split; try (vm_compute; reflexivity).
Qed.

(** C5, as stated, fails: the bare boundary document has every feature
    the scenario lists (title of 45 characters, description of 140, a single
    H1, full alt coverage, one JSON-LD block, a canonical link, a Google Maps
    iframe) and scores 60 of 100; the canonical link and the map earn
    nothing, and eight rules the scenario does not mention are not met. *)
Lemma bare_boundary_document_scores_60 :
  boundary_document bare_boundary_analysis /\
  google_maps_embed (analyze_local_seo bare_boundary_view) = true /\
  calculate_seo_score bare_boundary_analysis = 60 /\
  ~ (forall s, boundary_document s -> calculate_seo_score s = 100).
Proof.
  split; [exact bare_boundary_analysis_is_boundary|].
  split; [vm_compute; reflexivity|].
  split; [vm_compute; reflexivity|].
  intros H. specialize (H _ bare_boundary_analysis_is_boundary).
  vm_compute in H. discriminate H.
Qed.

(** C5, amended.  A document with the listed features scores 60 for them
    (title 15, description 10, single H1 10, alt coverage 10, structured
    data 15) plus 5 for each further rule that holds: at least three
    headers, a lazy-loaded image, NAP phone and address, LocalBusiness
    schema, SEO-friendly URL, breadcrumbs, minified assets, CDN.  The score
    is between 60 and 100 and is 100 exactly when the eight further rules
    all hold; the canonical link and the Google Maps iframe do not enter
    the score. *)
Theorem boundary_document_score (s : SeoAnalysis) :
  boundary_document s ->
  let three_headers := 3 <=? sum_counts (header_counts (header_structure s)) in
  let lazy := 0 <? lazy_loading (images s) in
  let nap := nap_phone (local_seo s) && nap_address (local_seo s) in
  let local_business := local_schema (local_seo s) in
  let friendly := seo_friendly (url_structure s) in
  let crumbs := breadcrumbs (url_structure s) in
  let minified :=
    negb (bool_decide (minification_indicators (page_speed_indicators s) = ∅)) in
  let cdn := cdn_usage (page_speed_indicators s) in
  calculate_seo_score s =
    60 + pts three_headers 5 + pts lazy 5 + pts nap 5 + pts local_business 5 +
    pts friendly 5 + pts crumbs 5 + pts minified 5 + pts cdn 5 /\
  60 <= calculate_seo_score s <= 100 /\
  (calculate_seo_score s = 100 <->
   three_headers && lazy && nap && local_business && friendly && crumbs &&
   minified && cdn = true).
Proof.
  intros (Ht & Htl & Hd & Hdl & Hh1 & Halt & Hld & _ & _).
  cbv zeta.
  pose proof (calculate_seo_score_unclamped s) as E.
  pose proof (rule_sum_range s) as R.
  rewrite Z.min_l in E by lia.
  assert (rule_sum s =
          60 + pts (3 <=? sum_counts (header_counts (header_structure s))) 5 +
          pts (0 <? lazy_loading (images s)) 5 +
          pts (nap_phone (local_seo s) && nap_address (local_seo s)) 5 +
          pts (local_schema (local_seo s)) 5 +
          pts (seo_friendly (url_structure s)) 5 +
          pts (breadcrumbs (url_structure s)) 5 +
          pts (negb (bool_decide
                       (minification_indicators (page_speed_indicators s) = ∅))) 5 +
          pts (cdn_usage (page_speed_indicators s)) 5) as F.
  { unfold rule_sum. cbv zeta.
    rewrite Ht, Htl, Hd, Hdl, Hh1.
    assert (Qle_bool (inject_Z 80) (alt_text_percentage (images s)) = true) as ->.
    { apply Qle_bool_iff. rewrite Halt. vm_compute. discriminate. }
    assert (nonempty (json_ld_schemas (schema_markup s)) = true) as ->.
    { destruct (json_ld_schemas (schema_markup s)); [discriminate Hld|reflexivity]. }
    simpl. lia. }
  rewrite E, F. clear E F R.
  set (a := 3 <=? _). set (b := 0 <? _). set (c := _ && _).
  set (d := local_schema _). set (e := seo_friendly _). set (f := breadcrumbs _).
  set (g := negb _). set (h := cdn_usage _).
  split; [reflexivity|].
  destruct a, b, c, d, e, f, g, h; simpl; (split; [lia|]); split;
    intros; try lia; try discriminate; try reflexivity.
Qed.

(** The amended statement at the bare boundary document. *)
Lemma boundary_document_score_witness :
  60 <= calculate_seo_score bare_boundary_analysis <= 100.
Proof.
  refine (proj1 (proj2 (boundary_document_score bare_boundary_analysis _))).
  unfold boundary_document.
  repeat split; try (vm_compute; reflexivity).
Defined.

End SeoScoreFacts.

(** ** The merge of the recommendations *)

Section StableSort.

Import WebsiteAnalyzer.

Context {A : Type} (key : A -> Z).

Lemma insert_by_key_app (x : A) (l r : list A) :
  Forall (fun y => key y < key x) l ->
  Forall (fun y => key x <= key y) r ->
  insert_by_key key x (l ++ r) = l ++ x :: r.
Proof.
  intros Hl Hr. induction Hl as [|y l Hy Hl IH]; simpl.
  - destruct Hr as [|z r Hz Hr]; simpl; [reflexivity|].
    destruct (Z.leb_spec (key x) (key z)); [reflexivity|lia].
  - destruct (Z.leb_spec (key x) (key y)); [lia|]. now rewrite IH.
Qed.

Lemma insert_by_key_perm (x : A) (l : list A) :
  Permutation (insert_by_key key x l) (x :: l).
Proof.
  induction l as [|y l IH]; simpl; [reflexivity|].
  destruct (key x <=? key y); [reflexivity|].
  rewrite IH. apply perm_swap.
Qed.

Lemma sort_by_key_perm (l : list A) : Permutation (sort_by_key key l) l.
Proof.
  induction l as [|x l IH]; simpl; [reflexivity|].
  rewrite insert_by_key_perm. now rewrite IH.
Qed.

Lemma insert_by_key_sorted (x : A) (l : list A) :
  StronglySorted (fun a b => key a <= key b) l ->
  StronglySorted (fun a b => key a <= key b) (insert_by_key key x l).
Proof.
  induction 1 as [|y l Hs IH Hy]; simpl.
  - repeat constructor.
  - destruct (Z.leb_spec (key x) (key y)) as [Hle|Hgt].
    + constructor; [now constructor|].
      constructor; [exact Hle|].
      rewrite List.Forall_forall in Hy |- *. intros z Hz.
      specialize (Hy z Hz). simpl in Hy. lia.
    + constructor; [exact IH|].
      rewrite List.Forall_forall in Hy |- *. intros z Hz.
      apply (Permutation_in _ (insert_by_key_perm x l)) in Hz.
      destruct Hz as [<-|Hz]; [lia|now apply Hy].
Qed.

Lemma sort_by_key_sorted (l : list A) :
  StronglySorted (fun a b => key a <= key b) (sort_by_key key l).
Proof.
  induction l as [|x l IH]; simpl; [constructor|].
  now apply insert_by_key_sorted.
Qed.

(** The sort keeps the elements of each key in their order. *)
Lemma insert_by_key_filter (k : Z) (x : A) (l : list A) :
  List.filter (fun y => key y =? k) (insert_by_key key x l) =
  List.filter (fun y => key y =? k) (x :: l).
Proof.
  induction l as [|y l IH]; [reflexivity|].
  cbn [insert_by_key].
  destruct (Z.leb_spec (key x) (key y)) as [Hle|Hgt]; [reflexivity|].
  cbn [List.filter] in *. rewrite IH.
  destruct (Z.eqb_spec (key x) k), (Z.eqb_spec (key y) k); try reflexivity. lia.
Qed.

Lemma sort_by_key_stable (k : Z) (l : list A) :
  List.filter (fun y => key y =? k) (sort_by_key key l) =
  List.filter (fun y => key y =? k) l.
Proof.
  induction l as [|x l IH]; [reflexivity|].
  cbn [sort_by_key]. rewrite insert_by_key_filter.
  cbn [List.filter]. now rewrite IH.
Qed.

Lemma strongly_sorted_adjacent (l : list A) :
  StronglySorted (fun a b => key a <= key b) l ->
  forall (i : nat) (a b : A),
    l !! i = Some a -> l !! S i = Some b -> key a <= key b.
Proof.
  induction 1 as [|y l Hs IH Hy]; intros i a b Ha Hb; [discriminate Ha|].
  destruct i as [|i]; simpl in *.
  - inversion Ha; subst y.
    rewrite List.Forall_forall in Hy. apply Hy.
    apply list_elem_of_In. eapply list_elem_of_lookup_2. exact Hb.
  - eapply IH; eassumption.
Qed.

End StableSort.

Section RecommendationFacts.

Import WebsiteAnalyzer.

Lemma priority_rank_known :
  priority_rank "high" = 0 /\ priority_rank "medium" = 1 /\
  priority_rank "low" = 2.
Proof. repeat split; vm_compute; reflexivity. Qed.

Lemma priority_rank_cases (p : string) :
  (p = "high" /\ priority_rank p = 0) \/
  (p = "medium" /\ priority_rank p = 1) \/
  (p = "low" /\ priority_rank p = 2) \/
  (p <> "high" /\ p <> "medium" /\ p <> "low" /\ priority_rank p = 3).
Proof.
  destruct (decide (p = "high")) as [->|H1]; [left; split; reflexivity|].
  destruct (decide (p = "medium")) as [->|H2];
    [right; left; split; reflexivity|].
  destruct (decide (p = "low")) as [->|H3];
    [right; right; left; split; reflexivity|].
  right; right; right. repeat (split; [assumption|]).
  unfold priority_rank, priority_order.
  rewrite !lookup_insert_ne by congruence.
  rewrite lookup_singleton_ne by congruence. reflexivity.
Qed.

Lemma rank_range (o : Opportunity) : 0 <= rank o <= 3.
Proof.
  unfold rank.
  destruct (priority_rank_cases (priority o))
    as [[_ H]|[[_ H]|[[_ H]|(_ & _ & _ & H)]]]; lia.
Qed.

Lemma of_rank_Forall (k : Z) (l : list Opportunity) :
  Forall (fun o => rank o = k) (of_rank k l).
Proof.
  apply List.Forall_forall. intros o Ho.
  apply List.filter_In in Ho as [_ Ho]. now apply Z.eqb_eq in Ho.
Qed.

Lemma of_rank_cons (k : Z) (o : Opportunity) (l : list Opportunity) :
  of_rank k (o :: l) = if rank o =? k then o :: of_rank k l else of_rank k l.
Proof. reflexivity. Qed.

(** A stable sort by rank lists the ranks 0, 1, 2, 3 one after the other,
    each in the original order. *)
Lemma sort_by_rank_closed_form (l : list Opportunity) :
  sort_by_key rank l =
  of_rank 0 l ++ of_rank 1 l ++ of_rank 2 l ++ of_rank 3 l.
Proof.
  induction l as [|o l IH]; [reflexivity|].
  cbn [sort_by_key]. rewrite IH, !of_rank_cons.
  pose proof (of_rank_Forall 0 l) as F0.
  pose proof (of_rank_Forall 1 l) as F1.
  pose proof (of_rank_Forall 2 l) as F2.
  pose proof (of_rank_Forall 3 l) as F3.
  set (l0 := of_rank 0 l) in *. set (l1 := of_rank 1 l) in *.
  set (l2 := of_rank 2 l) in *. set (l3 := of_rank 3 l) in *.
  pose proof (rank_range o) as Ro.
  assert (rank o = 0 \/ rank o = 1 \/ rank o = 2 \/ rank o = 3)
    as [E|[E|[E|E]]] by lia; rewrite E; cbn [Z.eqb Pos.eqb].
  - change (insert_by_key rank o ([] ++ (l0 ++ l1 ++ l2 ++ l3)) =
            [] ++ o :: (l0 ++ l1 ++ l2 ++ l3)).
    apply insert_by_key_app; [constructor|].
    rewrite !List.Forall_app. repeat split;
      eapply List.Forall_impl; try eassumption; simpl; intros; lia.
  - change (insert_by_key rank o (l0 ++ (l1 ++ l2 ++ l3)) =
            l0 ++ o :: (l1 ++ l2 ++ l3)).
    apply insert_by_key_app.
    + eapply List.Forall_impl; [|exact F0]. simpl; intros; lia.
    + rewrite !List.Forall_app. repeat split;
        eapply List.Forall_impl; try eassumption; simpl; intros; lia.
  - replace (l0 ++ l1 ++ l2 ++ l3) with ((l0 ++ l1) ++ (l2 ++ l3))
      by (now rewrite <- List.app_assoc).
    replace (l0 ++ l1 ++ (o :: l2) ++ l3) with ((l0 ++ l1) ++ o :: (l2 ++ l3))
      by (now rewrite <- List.app_assoc).
    apply insert_by_key_app.
    + rewrite List.Forall_app. split;
        eapply List.Forall_impl; try eassumption; simpl; intros; lia.
    + rewrite List.Forall_app. split;
        eapply List.Forall_impl; try eassumption; simpl; intros; lia.
  - replace (l0 ++ l1 ++ l2 ++ l3) with ((l0 ++ l1 ++ l2) ++ l3)
      by (now rewrite <- !List.app_assoc).
    replace (l0 ++ l1 ++ l2 ++ o :: l3) with ((l0 ++ l1 ++ l2) ++ o :: l3)
      by (now rewrite <- !List.app_assoc).
    apply insert_by_key_app.
    + rewrite !List.Forall_app. repeat split;
        eapply List.Forall_impl; try eassumption; simpl; intros; lia.
    + eapply List.Forall_impl; [|exact F3]. simpl; intros; lia.
Qed.

(** Sorting references by the rank of what they point to sorts what they
    point to. *)
Lemma sort_refs_Forall2 (st : Store) (refs : list nat) (vals : list Opportunity) :
  Forall2 (fun ref o => st !! ref = Some o) refs vals ->
  Forall2 (fun ref o => st !! ref = Some o)
    (sort_by_key (rank_of_ref st) refs) (sort_by_key rank vals).
Proof.
  induction 1 as [|ref o refs vals Hro _ IH]; [constructor|].
  cbn [sort_by_key].
  assert (rank_of_ref st ref = rank o) as Hk.
  { unfold rank_of_ref. now rewrite Hro. }
  induction IH as [|ref' o' refs' vals' Hro' Hrest IH']; simpl.
  - repeat constructor. exact Hro.
  - assert (rank_of_ref st ref' = rank o') as Hk'.
    { unfold rank_of_ref. now rewrite Hro'. }
    rewrite Hk, Hk'. destruct (rank o <=? rank o').
    + repeat constructor; assumption.
    + constructor; assumption.
Qed.

(** The inner loop on the cells [length a ..] of a store [a ++ os ++ b]. *)
Lemma collect_opportunities_fresh (name : string) (a os b : Store)
    (recs : list nat) :
  collect_opportunities name (a ++ os ++ b, recs)
    (seq (List.length a) (List.length os)) =
  (a ++ List.map (set_category (PyStr.replace_with_empty "_analysis" name)) os ++ b,
   recs ++ seq (List.length a) (List.length os)).
Proof.
  unfold collect_opportunities.
  revert a recs. induction os as [|o os IH]; intros a recs; simpl.
  - now rewrite List.app_nil_r.
  - replace (alter _ (List.length a) (a ++ o :: os ++ b))
      with ((a ++ [set_category (PyStr.replace_with_empty "_analysis" name) o])
              ++ os ++ b).
    + replace (S (List.length a))
        with (List.length
                (a ++ [set_category (PyStr.replace_with_empty "_analysis" name) o]))
        by (rewrite List.length_app; simpl; lia).
      rewrite IH. rewrite <- !List.app_assoc. reflexivity.
    + rewrite <- List.app_assoc. simpl.
      pose proof (alter_app_r
                    (set_category (PyStr.replace_with_empty "_analysis" name))
                    a (o :: os ++ b) 0) as H.
      rewrite Nat.add_0_r in H. rewrite H. reflexivity.
Qed.

Lemma collect_all_fresh (outs : list (string * list Opportunity))
    (a : Store) (recs : list nat) :
  fold_left collect_step (analysis_entries (List.length a) outs)
    (a ++ List.flat_map snd outs, recs) =
  (a ++ tagged outs,
   recs ++ seq (List.length a) (List.length (List.flat_map snd outs))).
Proof.
  revert a recs. induction outs as [|[name os] outs IH]; intros a recs.
  - simpl. now rewrite !List.app_nil_r.
  - cbn [analysis_entries fold_left collect_step List.flat_map snd fst].
    unfold tagged. cbn [List.flat_map snd fst]. fold (tagged outs).
    rewrite collect_opportunities_fresh.
    rewrite !List.app_assoc.
    replace (List.length a + List.length os)%nat
      with (List.length
              (a ++ List.map
                      (set_category (PyStr.replace_with_empty "_analysis" name)) os))
      by (rewrite List.length_app, List.length_map; reflexivity).
    rewrite IH.
    rewrite List.length_app, List.length_map.
    rewrite (List.length_app os), List.seq_app, <- !List.app_assoc.
    reflexivity.
Qed.

Lemma length_tagged (outs : list (string * list Opportunity)) :
  List.length (tagged outs) = List.length (List.flat_map snd outs).
Proof.
  unfold tagged. induction outs as [|[name os] outs IH]; [reflexivity|].
  simpl. rewrite !List.length_app, List.length_map, IH. reflexivity.
Qed.

Lemma seq_points_to (a l : Store) :
  Forall2 (fun ref o => (a ++ l) !! ref = Some o)
    (seq (List.length a) (List.length l)) l.
Proof.
  revert a. induction l as [|o l IH]; intros a; simpl; [constructor|].
  constructor.
  - rewrite lookup_app_r by lia. now rewrite Nat.sub_diag.
  - specialize (IH (a ++ [o])).
    rewrite List.length_app, <- List.app_assoc in IH. simpl in IH.
    now rewrite Nat.add_1_r in IH.
Qed.

(** What the merge returns for the results of the detectors. *)
Lemma generate_recommendations_sorts (st0 : Store)
    (outs : list (string * list Opportunity)) :
  let sa := store_analyses st0 outs in
  let gr := generate_recommendations (fst sa) (snd sa) in
  fst gr = st0 ++ tagged outs /\
  deref (fst gr) (snd gr) = Some (sort_by_key rank (tagged outs)).
Proof.
  cbv zeta. unfold store_analyses, generate_recommendations. cbn [fst snd].
  pose proof (collect_all_fresh outs st0 []) as Hc.
  unfold Store in *. rewrite Hc. cbn [fst snd List.app].
  split; [reflexivity|].
  unfold deref. apply mapM_Some. apply sort_refs_Forall2.
  rewrite <- length_tagged. apply seq_points_to.
Qed.

(** The opportunities of the merge are those of the detectors with the
    category written: the other fields are the detector's. *)
Lemma In_tagged (outs : list (string * list Opportunity)) (m : Opportunity) :
  In m (tagged outs) <->
  exists name opps o,
    In (name, opps) outs /\ In o opps /\
    priority m = priority o /\ recommendation m = recommendation o /\
    implementation m = implementation o /\ impact m = impact o /\
    category m = Some (PyStr.replace_with_empty "_analysis" name).
Proof.
  unfold tagged. rewrite List.in_flat_map. split.
  - intros [[name opps] [Hout Hm]]. cbn [fst snd] in Hm.
    apply List.in_map_iff in Hm as [o [<- Ho]].
    exists name, opps, o. repeat split; assumption.
  - intros (name & opps & o & Hout & Ho & Hp & Hr & Him & Hi & Hc).
    exists (name, opps). split; [exact Hout|]. cbn [fst snd].
    apply List.in_map_iff. exists o. split; [|exact Ho].
    destruct m as [p r im i c]. cbn in Hp, Hr, Him, Hi, Hc. subst.
    reflexivity.
Qed.

(** C3.  The merged list is the concatenation of the detectors'
    opportunity lists, each opportunity with the category of its analysis
    (the analysis name without '_analysis'), sorted stably by the rank
    high = 0 < medium = 1 < low = 2 (anything else 3): it lists the
    opportunities of rank 0, then 1, then 2, then 3, each group in detector
    order; ranks never decrease along the list; and nothing is dropped or
    merged (the list is a permutation of the concatenation).  The tag is
    stated field by field: the concatenation is, detector by detector,
    each opportunity with its four fields kept and its category set to the
    name of the analysis without '_analysis'; an opportunity is in the
    merged list exactly when it is such a copy of a detector's opportunity;
    and the dicts of the store carry the tag too. *)
Theorem recommendations_stably_sorted :
  forall (st0 : Store) (outs : list (string * list Opportunity)),
    let sa := store_analyses st0 outs in
    let gr := generate_recommendations (fst sa) (snd sa) in
    let all := tagged outs in
    exists merged,
      deref (fst gr) (snd gr) = Some merged /\
      merged = of_rank 0 all ++ of_rank 1 all ++ of_rank 2 all ++ of_rank 3 all /\
      (priority_rank "high" = 0 /\ priority_rank "medium" = 1 /\
       priority_rank "low" = 2) /\
      (forall (i : nat) a b,
         merged !! i = Some a -> merged !! S i = Some b ->
         priority_rank (priority a) <= priority_rank (priority b)) /\
      (forall k, of_rank k merged = of_rank k all) /\
      Permutation merged all /\
      List.length merged = List.length (List.flat_map snd outs) /\
      all =
        List.flat_map
          (fun out =>
             List.map
               (fun o =>
                  {| priority := priority o;
                     recommendation := recommendation o;
                     implementation := implementation o;
                     impact := impact o;
                     category :=
                       Some (PyStr.replace_with_empty "_analysis" (fst out)) |})
               (snd out))
          outs /\
      (forall m,
         In m merged <->
         exists name opps o,
           In (name, opps) outs /\ In o opps /\
           priority m = priority o /\ recommendation m = recommendation o /\
           implementation m = implementation o /\ impact m = impact o /\
           category m = Some (PyStr.replace_with_empty "_analysis" name)) /\
      fst gr = st0 ++ all.
Proof.
  intros st0 outs sa gr all.
  destruct (generate_recommendations_sorts st0 outs) as [Hst Hd].
  fold sa gr all in Hd, Hst.
  exists (sort_by_key rank all).
  split; [exact Hd|].
  split; [apply sort_by_rank_closed_form|].
  split; [exact priority_rank_known|].
  split.
  { intros i a b. apply (strongly_sorted_adjacent rank), sort_by_key_sorted. }
  split; [intros k; apply (sort_by_key_stable rank)|].
  split; [apply sort_by_key_perm|].
  split.
  { rewrite (Permutation_length (sort_by_key_perm rank all)).
    apply length_tagged. }
  split; [reflexivity|].
  split; [|exact Hst].
  intros m. rewrite <- (In_tagged outs m). fold all. split.
  - apply Permutation_in, sort_by_key_perm.
  - apply Permutation_in. symmetry. apply sort_by_key_perm.
Qed.

End RecommendationFacts.

(** ** The request gates *)

Section GateFacts.

Import Api.

Variables W R D : Type.
Variable urlparse : string -> option (string * string).
Variable analyze_website : string -> W -> Outcome R * W.
Variable analyze_business_intelligence : string -> W -> Outcome R * W.
Variable process : string -> R -> D + string.
Variable lead_summary : R -> D + string.

Local Abbreviation analyze_batch :=
  (ApiServer.analyze_batch W R D urlparse analyze_website process).
Local Abbreviation batch_lead_scoring :=
  (BIApi.batch_lead_scoring W R D analyze_business_intelligence lead_summary).

(** C7.  A batch request with more than 5 URLs is rejected as a whole by
    both batch endpoints with the 400 error 'Maximum 5 URLs allowed per
    batch'; the state of the request is untouched, so no URL has been
    validated against the network or analyzed, and nothing is cut down to
    five. *)
Theorem batch_over_five_urls_rejected :
  forall (urls : list JsonValue) (analysis_type : string) (st : St W),
    (5 < List.length urls)%nat ->
    let body := BodyDict (UrlsList urls) analysis_type in
    let rejected : Exn := APIError "Maximum 5 URLs allowed per batch" 400 in
    analyze_batch body st = (Raise rejected, st) /\
    batch_lead_scoring body st = (Raise rejected, st) /\
    http_status (fst (analyze_batch body st)) = 400 /\
    http_status (fst (batch_lead_scoring body st)) = 400 /\
    calls (snd (analyze_batch body st)) = calls st /\
    calls (snd (batch_lead_scoring body st)) = calls st.
Proof.
  intros urls analysis_type st Hlen body rejected.
  assert (analyze_batch body st = (Raise rejected, st)) as E1.
  { unfold ApiServer.analyze_batch, body, reraise_as_api_error.
    destruct urls as [|u urls]; [simpl in Hlen; lia|].
    destruct (Z.ltb_spec 5 (Z.of_nat (List.length (u :: urls)))); [reflexivity|lia]. }
  assert (batch_lead_scoring body st = (Raise rejected, st)) as E2.
  { unfold BIApi.batch_lead_scoring, body, reraise_as_api_error.
    destruct urls as [|u urls]; [simpl in Hlen; lia|].
    destruct (Z.ltb_spec 5 (Z.of_nat (List.length (u :: urls)))); [reflexivity|lia]. }
  rewrite E1, E2. repeat split.
Qed.

(** The loop over the validated URLs: one call and one entry per URL. *)
Lemma analyze_each_isolated (analysis_type : string) (urls : list string)
    (results : list (Entry string D)) (st : St W) :
  exists entries w',
    ApiServer.analyze_each W R D analyze_website process analysis_type urls results st =
      (Return (results ++ entries),
       {| world := w'; calls := calls st ++ urls |}) /\
    ApiServer.isolated_run W R D analyze_website process analysis_type
      (world st) urls entries w'.
Proof.
  revert results st. induction urls as [|url urls IH]; intros results st.
  - exists [], (world st). simpl. unfold ret. rewrite !List.app_nil_r.
    split; [destruct st; reflexivity|constructor].
  - cbn [ApiServer.analyze_each]. unfold bind at 1.
    unfold ApiServer.analyze_one, bind, call, ret.
    destruct (analyze_website url (world st)) as [o w1] eqn:Ho.
    set (e := match o with
              | Analyzed r =>
                  match process analysis_type r with
                  | inl d => success_entry url d
                  | inr text => error_entry url text
                  end
              | NoResult => error_entry url "Analysis failed"
              | Failed text => error_entry url text
              end).
    destruct (IH (results ++ [e]) {| world := w1; calls := calls st ++ [url] |})
      as (entries & w' & Hrun & Hiso).
    exists (e :: entries), w'. split.
    + rewrite Hrun. cbn [calls]. rewrite <- !List.app_assoc. reflexivity.
    + cbn [world] in Hiso.
      apply (ApiServer.isolated_next W R D analyze_website process analysis_type
               (world st) w1 w' url o e urls entries Ho); [| | |exact Hiso].
      * subst e. destruct o as [r| |text]; [destruct (process analysis_type r)|..];
          reflexivity.
      * subst e. unfold ApiServer.failure.
        destruct o as [r| |text]; [destruct (process analysis_type r) eqn:Hp|..];
          simpl; split; intros H; try reflexivity; try discriminate.
        -- destruct H as [H|[[t H]|(r' & t & H & Hp')]]; try discriminate.
           inversion H; subst r'. congruence.
        -- right; right. eauto.
        -- now left.
        -- right; left. eauto.
      * subst e. unfold ApiServer.failure.
        destruct o as [r| |text]; [destruct (process analysis_type r) eqn:Hp|..];
          simpl; split; intros H; try reflexivity; try discriminate.
        -- intros [H'|[[t H']|(r' & t & H' & Hp')]]; try discriminate.
           inversion H'; subst r'. congruence.
        -- exfalso. apply H. right; right. eauto.
        -- exfalso. apply H. now left.
        -- exfalso. apply H. right; left. eauto.
Qed.

(** C8.  In a batch of at most 5 URLs that pass the validation, every URL
    is analyzed exactly once, in order (the call log grows by exactly the
    validated URLs: no retry, no URL skipped), and the response holds one
    entry per URL, an 'error' entry exactly for the URLs whose own call
    failed. *)
Theorem batch_failures_are_isolated :
  forall (urls : list JsonValue) (validated : list string)
         (analysis_type : string) (st : St W),
    (0 < List.length urls <= 5)%nat ->
    ApiServer.validate_all urlparse urls = Return validated ->
    exists entries w',
      analyze_batch (BodyDict (UrlsList urls) analysis_type) st =
        (Return {| results := entries;
                   total_urls := Z.of_nat (List.length urls);
                   successful := count_success entries;
                   failed := Z.of_nat (List.length urls) - count_success entries |},
         {| world := w'; calls := calls st ++ validated |}) /\
      ApiServer.isolated_run W R D analyze_website process analysis_type
        (world st) validated entries w' /\
      List.length entries = List.length urls /\
      List.map entry_url entries = validated.
Proof.
  intros urls validated analysis_type st Hlen Hval.
  destruct (analyze_each_isolated analysis_type validated [] st)
    as (entries & w' & Hrun & Hiso).
  exists entries, w'.
  assert (List.length validated = List.length urls) as Hlv.
  { clear -Hval. revert validated Hval.
    induction urls as [|u urls IH]; intros validated Hval; simpl in Hval.
    - inversion Hval. reflexivity.
    - destruct (ApiServer.validate_url urlparse u); [|discriminate].
      destruct (ApiServer.validate_all urlparse urls); [|discriminate].
      inversion Hval. simpl. f_equal. now apply IH. }
  assert (List.map entry_url entries = validated) as Hmap.
  { clear -Hiso. induction Hiso; simpl; [reflexivity|]. now f_equal. }
  split; [|split; [exact Hiso|split; [|exact Hmap]]].
  - unfold ApiServer.analyze_batch, reraise_as_api_error.
    destruct urls as [|u urls]; [simpl in Hlen; lia|].
    destruct (Z.ltb_spec 5 (Z.of_nat (List.length (u :: urls)))); [lia|].
    unfold bind at 1. unfold lift. rewrite Hval.
    unfold bind. rewrite Hrun. reflexivity.
  - rewrite <- Hlv, <- Hmap. now rewrite List.length_map.
Qed.

(** What the validator of api_server.py rejects. *)
Lemma validate_url_rejects_empty :
  ApiServer.validate_url urlparse JFalsy = Raise (APIError "URL is required" 400) /\
  ApiServer.validate_url urlparse (JStr "") = Raise (APIError "URL is required" 400).
Proof. split; reflexivity. Qed.

Lemma validate_url_rejects_malformed (s : string) :
  PyStr.truthy s = true ->
  (urlparse (add_protocol s) = None \/
   exists scheme netloc,
     urlparse (add_protocol s) = Some (scheme, netloc) /\
     (scheme = "" \/ netloc = "")) ->
  ApiServer.validate_url urlparse (JStr s) =
  Raise (APIError "Invalid URL format" 400).
Proof.
  intros Hs H. unfold ApiServer.validate_url. rewrite Hs. simpl.
  destruct H as [->|(scheme & netloc & -> & [->| ->])]; [reflexivity..|].
  destruct (PyStr.truthy scheme); reflexivity.
Qed.

Lemma validate_url_rejects_dangerous (s dangerous : string) :
  In dangerous ApiServer.dangerous_hosts ->
  PyStr.truthy s = true ->
  PyStr.contains dangerous (PyStr.lower (add_protocol s)) = true ->
  exists message,
    ApiServer.validate_url urlparse (JStr s) = Raise (APIError message 400).
Proof.
  intros Hin Hs Hc. unfold ApiServer.validate_url. rewrite Hs. cbn [negb].
  cbv zeta.
  destruct (urlparse (add_protocol s)) as [[scheme netloc]|]; [|eauto].
  destruct (negb (PyStr.truthy scheme && PyStr.truthy netloc)); [eauto|].
  assert (existsb (fun d => PyStr.contains d (PyStr.lower (add_protocol s)))
            ApiServer.dangerous_hosts = true) as ->.
  { apply existsb_exists. exists dangerous. split; assumption. }
  eauto.
Qed.

(** C9, at the failing input.  The validator of api_server.py rejects the
    loopback URL http://localhost:8080/admin with a 400 error whatever the
    parse gives, but the validator of business_intelligence_api.py returns
    it unchanged, and the batch endpoint then calls the analyzer with
    it. *)
Theorem bi_validator_accepts_loopback :
  let url := "http://localhost:8080/admin" in
  (exists message,
     ApiServer.validate_url urlparse (JStr url) = Raise (APIError message 400)) /\
  BIApi.validate_url (JStr url) = Return url /\
  BIApi.validate_url (JStr "127.0.0.1") = Return "https://127.0.0.1" /\
  BIApi.validate_url (JStr "http://0.0.0.0/") = Return "http://0.0.0.0/" /\
  forall st : St W,
    calls (snd (batch_lead_scoring (BodyDict (UrlsList [JStr url]) "full") st)) =
    calls st ++ [url].
Proof.
  cbv zeta. split; [|split; [reflexivity|split; [reflexivity|split; [reflexivity|]]]].
  - apply (validate_url_rejects_dangerous _ "localhost");
      [now left|reflexivity|vm_compute; reflexivity].
  - intros st. unfold BIApi.batch_lead_scoring, reraise_as_api_error.
    change (5 <? Z.of_nat (List.length [JStr "http://localhost:8080/admin"]))
      with false.
    cbn [BIApi.score_each]. unfold BIApi.score_one.
    change (BIApi.validate_url (JStr "http://localhost:8080/admin"))
      with (@Return string "http://localhost:8080/admin").
    unfold bind, call, ret.
    destruct (analyze_business_intelligence "http://localhost:8080/admin" (world st))
      as [o w1].
    reflexivity.
Qed.

End GateFacts.

(** ** The statements at sample inputs *)

(** The detection of WordPress on the sample page: one pattern in the
    HTML (2), one indicator (3), one script (3), one stylesheet (2). *)
Lemma detection_score_weights_witness :
  exists d,
    BIAnalyzer.detected_technologies
      (BIAnalyzer.analyze_tech_stack Samples.literal_search Samples.wordpress_page)
      !! "wordpress" = Some d /\
    BIAnalyzer.confidence d = 100.
Proof.
  destruct (detection_score_weights Samples.literal_search Samples.wordpress_page
              "wordpress" Samples.wordpress_config)
    as (_ & _ & Hpos).
  - left. reflexivity.
  - destruct Hpos as (d & Hd & Hc & _).
    + vm_compute. reflexivity.
    + exists d. split; [exact Hd|]. rewrite Hc. vm_compute. reflexivity.
Defined.

(** Six URLs are turned away by the batch endpoint of api_server.py. *)
Lemma batch_over_five_urls_rejected_witness :
  fst (ApiServer.analyze_batch nat string string Samples.simple_urlparse
         Samples.flaky_analyzer Samples.keep_payload
         (Api.BodyDict (Api.UrlsList Samples.six_urls) "full")
         Samples.fresh_request) =
  Api.Raise (Api.APIError "Maximum 5 URLs allowed per batch" 400).
Proof.
  destruct (batch_over_five_urls_rejected nat string string
              Samples.simple_urlparse Samples.flaky_analyzer
              Samples.flaky_analyzer Samples.keep_payload (fun r => inl r)
              Samples.six_urls "full" Samples.fresh_request)
    as (E & _).
  - simpl. lia.
  - rewrite E. reflexivity.
Defined.

(** A batch of three URLs whose second host is down. *)
Lemma batch_failures_are_isolated_witness :
  exists entries w',
    snd (ApiServer.analyze_batch nat string string Samples.simple_urlparse
           Samples.flaky_analyzer Samples.keep_payload
           (Api.BodyDict (Api.UrlsList Samples.three_urls) "full")
           Samples.fresh_request) =
      {| Api.world := w';
         Api.calls := ["https://a.example"; "https://down.example/x";
                       "https://c.example"] |} /\
    ApiServer.isolated_run nat string string Samples.flaky_analyzer
      Samples.keep_payload "full" 0%nat
      ["https://a.example"; "https://down.example/x"; "https://c.example"]
      entries w' /\
    List.length entries = 3%nat.
Proof.
  destruct (batch_failures_are_isolated nat string string
              Samples.simple_urlparse Samples.flaky_analyzer Samples.keep_payload
              Samples.three_urls
              ["https://a.example"; "https://down.example/x"; "https://c.example"]
              "full" Samples.fresh_request)
    as (entries & w' & Hrun & Hiso & Hlen & _).
  - simpl. lia.
  - vm_compute. reflexivity.
  - exists entries, w'. rewrite Hrun. repeat split; assumption.
Defined.

(** The same batch, evaluated: the failed fetch gives one 'error' entry,
    its neighbours succeed, and the analyzer ran three times. *)
Example batch_with_one_host_down :
  let '(r, st) :=
    ApiServer.analyze_batch nat string string Samples.simple_urlparse
      Samples.flaky_analyzer Samples.keep_payload
      (Api.BodyDict (Api.UrlsList Samples.three_urls) "full")
      Samples.fresh_request in
  match r with
  | Api.Return d =>
      List.map Api.status (Api.results d) = ["success"; "error"; "success"] /\
      Api.successful d = 2 /\ Api.failed d = 1
  | Api.Raise _ => False
  end /\
  Api.world st = 3%nat.
Proof. vm_compute. repeat split. Qed.

(** An invalid URL in the list stops the batch of api_server.py before
    any analysis. *)
Example batch_with_loopback_url_rejected :
  ApiServer.analyze_batch nat string string Samples.simple_urlparse
    Samples.flaky_analyzer Samples.keep_payload
    (Api.BodyDict (Api.UrlsList [Api.JStr "a.example"; Api.JStr "localhost:8080"]) "full")
    Samples.fresh_request =
  (Api.Raise (Api.APIError "Invalid URL - localhost not allowed" 400),
   Samples.fresh_request).
Proof. vm_compute. reflexivity. Qed.

(** A run on an empty page: only the budget floor and the bonus for a
    missing marketing tool score. *)
Example empty_page_lead_score :
  let r := BIAnalyzer.analyze_business_intelligence_lead_scoring
             (fun _ _ => false) (fun _ _ => []) (fun _ _ => [])
             {| BIAnalyzer.str_soup := ""; BIAnalyzer.get_text := "";
                BIAnalyzer.a_hrefs := []; BIAnalyzer.script_srcs := [];
                BIAnalyzer.link_hrefs := []; BIAnalyzer.forms := [] |}
             {| BIAnalyzer.industry := None; BIAnalyzer.employees := None;
                BIAnalyzer.location := None |}
             {| BIAnalyzer.overall_budget_level := Some "low" |} in
  BIAnalyzer.overall_score r = 10 /\ BIAnalyzer.lead_quality r = "nurture".
Proof. vm_compute. split; reflexivity. Qed.

(** A dict that two analyses share is tagged twice: the list shows it
    with the category written last. *)
Example shared_opportunity_takes_last_category :
  let o := {| WebsiteAnalyzer.priority := "high";
              WebsiteAnalyzer.recommendation := "Add live chat";
              WebsiteAnalyzer.implementation := "";
              WebsiteAnalyzer.impact := "";
              WebsiteAnalyzer.category := None |} in
  let '(st, recs) :=
    WebsiteAnalyzer.generate_recommendations [o]
      [("chatbot_analysis", WebsiteAnalyzer.VDict (Some [0%nat]));
       ("seo_analysis", WebsiteAnalyzer.VDict (Some [0%nat]))] in
  WebsiteAnalyzer.deref st recs =
  Some [WebsiteAnalyzer.set_category "seo" o; WebsiteAnalyzer.set_category "seo" o].
Proof. vm_compute. reflexivity. Qed.

(** Two detectors that emit the same text both keep their entry. *)
Example duplicate_recommendations_kept :
  let o := {| WebsiteAnalyzer.priority := "medium";
              WebsiteAnalyzer.recommendation := "Add LocalBusiness schema markup";
              WebsiteAnalyzer.implementation := "";
              WebsiteAnalyzer.impact := "";
              WebsiteAnalyzer.category := None |} in
  let h := {| WebsiteAnalyzer.priority := "high";
              WebsiteAnalyzer.recommendation := "Add title tag";
              WebsiteAnalyzer.implementation := "";
              WebsiteAnalyzer.impact := "";
              WebsiteAnalyzer.category := None |} in
  let sa := WebsiteAnalyzer.store_analyses []
              [("contact_analysis", [o]); ("seo_analysis", [o; h])] in
  let gr := WebsiteAnalyzer.generate_recommendations (fst sa) (snd sa) in
  WebsiteAnalyzer.deref (fst gr) (snd gr) =
  Some [WebsiteAnalyzer.set_category "seo" h;
        WebsiteAnalyzer.set_category "contact" o;
        WebsiteAnalyzer.set_category "seo" o].
Proof. vm_compute. reflexivity. Qed.

(** * Further properties of the code *)

(** ** The lead scoring after the scores, and the unified report *)

Section LeadScoringFailure.

Import Api.

Variables RR QW IB BI : Type.
Variable calculate_resource_requirements : list BIPlan.Action -> RR.
Variable identify_quick_wins :
  BIAnalyzer.LeadScore -> BIProfile.Profile -> BIAnalyzer.SocialIntel ->
  BIAnalyzer.TechAnalysis -> BIAnalyzer.ContactIntel -> Result QW.
Variable overall_explanation_text : Z -> string -> string.
Variable profile_explanation_text : Z -> BIProfile.Profile -> string.
Variable explain_social_score : Z -> BIAnalyzer.SocialIntel -> Result string.
Variable explain_tech_score : Z -> BIAnalyzer.TechAnalysis -> Result string.
Variable explain_budget_score : Z -> BIAnalyzer.BudgetAnalysis -> Result string.
Variable explain_contact_score : Z -> BIAnalyzer.ContactIntel -> Result string.
Variable get_industry_benchmarks : BIProfile.Profile -> Result IB.
Variable generate_business_impact_explanations :
  BIAnalyzer.LeadScore -> BIPlan.ActionPlan RR -> BIProfile.Profile -> Result BI.

Local Abbreviation calculate_lead_scoring :=
  (BIPlan.calculate_lead_scoring RR QW IB BI calculate_resource_requirements
     identify_quick_wins overall_explanation_text profile_explanation_text
     explain_social_score explain_tech_score explain_budget_score
     explain_contact_score get_industry_benchmarks
     generate_business_impact_explanations).

(** A profile whose business size is a stored [None] stops the scoring:
    at the industry of the action plan when that is [None] too, else in
    the quick wins or at the explanation of the profile score. *)
Lemma calculate_lead_scoring_raises (company_profile : BIProfile.Profile)
    social_intel tech_analysis budget_analysis contact_intel :
  BIProfile.business_size company_profile = None ->
  match BIProfile.industry company_profile with
  | None =>
      calculate_lead_scoring company_profile social_intel tech_analysis
        budget_analysis contact_intel = Raise (BIPlan.attribute_error "lower")
  | Some _ =>
      exists e,
        calculate_lead_scoring company_profile social_intel tech_analysis
          budget_analysis contact_intel = Raise e
  end.
Proof.
  intros Hsize. unfold BIPlan.calculate_lead_scoring. cbv zeta.
  unfold BIPlan.generate_detailed_action_plan. cbv zeta.
  destruct (BIProfile.industry company_profile) as [stored|] eqn:Hind;
    [|reflexivity].
  cbn [BIPlan.and_then].
  destruct (identify_quick_wins _ _ _ _ _) as [wins|e]; [|eauto].
  cbn [BIPlan.and_then].
  unfold BIPlan.generate_score_explanations, BIPlan.explain_company_profile_score.
  cbv zeta. rewrite Hind, Hsize. cbn [BIPlan.and_then]. eauto.
Qed.

(** X1.  calculate_lead_scoring, with the quick wins of
    _identify_quick_wins, never returns for a profile built by
    extract_company_profile, and raises one of two AttributeErrors.  The
    profile stores [None] as its business size, which is never filled in.
    When no industry was detected the action plan raises, at [lower] of
    the stored industry, and so does the scoring.  When one was detected
    the action plan and the quick wins return, the explanation of the
    profile score raises, at [title] of the stored size, and the scoring
    raises that. *)
Theorem lead_scoring_raises_on_extracted_profile :
  forall re_findall re_findall_i (page : BIProfile.ProfilePage)
         (business_account : string -> bool)
         social_intel tech_analysis budget_analysis contact_intel,
    let company_profile :=
      BIProfile.extract_company_profile re_findall re_findall_i page in
    let lead_scoring :=
      BIAnalyzer.calculate_lead_scoring
        (BIProfile.to_company_profile company_profile)
        social_intel tech_analysis budget_analysis contact_intel in
    let action_plan :=
      BIPlan.generate_detailed_action_plan RR calculate_resource_requirements
        lead_scoring company_profile in
    let quick_wins :=
      BIQuickWins.identify_quick_wins lead_scoring company_profile social_intel
        business_account tech_analysis contact_intel in
    let profile_explanation :=
      BIPlan.explain_company_profile_score profile_explanation_text
        (BIPlan.get0 (BIAnalyzer.category_scores lead_scoring) "company_profile")
        company_profile in
    let result :=
      BIPlan.calculate_lead_scoring RR (list BIQuickWins.QuickWin) IB BI
        calculate_resource_requirements
        (fun ls profile social tech contact =>
           BIQuickWins.identify_quick_wins ls profile social business_account
             tech contact)
        overall_explanation_text profile_explanation_text
        explain_social_score explain_tech_score explain_budget_score
        explain_contact_score get_industry_benchmarks
        generate_business_impact_explanations
        company_profile social_intel tech_analysis budget_analysis
        contact_intel in
    BIProfile.business_size company_profile = None /\
    BIProfile.industry company_profile =
      BIProfile.detect_industry (PyStr.lower (BIProfile.text page)) /\
    match BIProfile.detect_industry (PyStr.lower (BIProfile.text page)) with
    | None =>
        action_plan = Raise (BIPlan.attribute_error "lower") /\
        result = Raise (BIPlan.attribute_error "lower")
    | Some _ =>
        (exists plan, action_plan = Return plan) /\
        (exists wins, quick_wins = Return wins) /\
        profile_explanation = Raise (BIPlan.attribute_error "title") /\
        result = Raise (BIPlan.attribute_error "title")
    end /\
    BIPlan.attribute_error "lower" =
      PyException "'NoneType' object has no attribute 'lower'" /\
    BIPlan.attribute_error "title" =
      PyException "'NoneType' object has no attribute 'title'".
Proof.
  intros re_findall re_findall_i page business_account si t b c
    company_profile lead_scoring action_plan quick_wins profile_explanation
    result.
  split; [reflexivity|]. split; [reflexivity|].
  split; [|split; reflexivity].
  assert (BIProfile.industry company_profile =
          BIProfile.detect_industry (PyStr.lower (BIProfile.text page)))
    as Hind by reflexivity.
  assert (BIProfile.business_size company_profile = None)
    as Hsize by reflexivity.
  subst result action_plan quick_wins profile_explanation.
  unfold BIPlan.calculate_lead_scoring. cbv zeta.
  fold company_profile. fold lead_scoring.
  unfold BIPlan.generate_score_explanations. cbv zeta.
  unfold BIPlan.generate_detailed_action_plan, BIQuickWins.identify_quick_wins,
    BIPlan.explain_company_profile_score.
  cbv zeta.
  generalize dependent lead_scoring. intros lead_scoring.
  rewrite Hsize, Hind.
  destruct (BIProfile.detect_industry (PyStr.lower (BIProfile.text page)))
    as [detected|].
  - cbn [BIPlan.and_then]. repeat split; eauto.
  - cbn [BIPlan.and_then]. split; reflexivity.
Qed.

Variables W Page Competitor Traffic Sales Rest : Type.
Variable re_findall : string -> string -> list (list string).
Variable re_findall_ignorecase : string -> string -> list (list string).
Variable fetch_website : string -> W -> option Page * W.
Variable profile_page : Page -> BIProfile.ProfilePage.
Variable analyze_social_media_intelligence : Page -> Result BIAnalyzer.SocialIntel.
Variable analyze_tech_stack : Page -> Result BIAnalyzer.TechAnalysis.
Variable analyze_competitors : Page -> Result Competitor.
Variable analyze_budget_indicators :
  Page -> BIAnalyzer.TechAnalysis -> BIAnalyzer.SocialIntel ->
  Result BIAnalyzer.BudgetAnalysis.
Variable analyze_traffic_and_marketing : Page -> Result Traffic.
Variable extract_contact_intelligence : Page -> Result BIAnalyzer.ContactIntel.
Variable identify_sales_opportunities :
  BIAnalyzer.SocialIntel -> BIAnalyzer.TechAnalysis -> BIAnalyzer.BudgetAnalysis ->
  BIPipeline.Lead RR QW IB BI -> Result Sales.
Variable report_rest : BIPipeline.Lead RR QW IB BI -> Sales -> Rest.
Variable auto_save_report : string -> W -> Result unit * W.

Local Abbreviation Analysis :=
  (BIPipeline.Analysis RR QW IB BI Competitor Traffic Sales Rest).

Local Abbreviation analyze_page :=
  (BIPipeline.analyze_page RR QW IB BI calculate_resource_requirements
     identify_quick_wins overall_explanation_text profile_explanation_text
     explain_social_score explain_tech_score explain_budget_score
     explain_contact_score get_industry_benchmarks
     generate_business_impact_explanations
     Page Competitor Traffic Sales Rest re_findall re_findall_ignorecase
     profile_page analyze_social_media_intelligence analyze_tech_stack
     analyze_competitors analyze_budget_indicators analyze_traffic_and_marketing
     extract_contact_intelligence identify_sales_opportunities report_rest).

Local Abbreviation analyze_business_intelligence :=
  (BIPipeline.analyze_business_intelligence RR QW IB BI
     calculate_resource_requirements
     identify_quick_wins overall_explanation_text profile_explanation_text
     explain_social_score explain_tech_score explain_budget_score
     explain_contact_score get_industry_benchmarks
     generate_business_impact_explanations
     W Page Competitor Traffic Sales Rest re_findall re_findall_ignorecase
     fetch_website profile_page analyze_social_media_intelligence
     analyze_tech_stack analyze_competitors analyze_budget_indicators
     analyze_traffic_and_marketing extract_contact_intelligence
     identify_sales_opportunities report_rest auto_save_report).

(** X2.  generate_unified_report raises KeyError(0) for every lead
    scoring: 'next_actions' holds the plan dict, which is not empty and
    whose keys are seven strings, and the summary subscripts it with 0. *)
Theorem unified_report_raises_key_error :
  forall (lead : BIPipeline.Lead RR QW IB BI) (sales : Sales),
    BIPipeline.generate_unified_report RR QW IB BI Sales Rest report_rest lead sales =
    Raise (PyException "0") /\
    BIPipeline.subscript (BIPipeline.plan_items (BIPlan.next_actions lead))
      (BIPipeline.KStr "immediate_actions") =
    Return (BIPipeline.VActions (BIPlan.immediate_actions (BIPlan.next_actions lead))) /\
    List.length (BIPipeline.plan_items (BIPlan.next_actions lead)) = 7%nat.
Proof.
  intros lead sales. repeat split.
Qed.

(** The analyses of a fetched page never all return. *)
Lemma analyze_page_raises (url : string) (page : Page) :
  exists e, analyze_page url page = Raise e.
Proof.
  assert (forall si t b c,
            exists e,
              calculate_lead_scoring
                (BIProfile.extract_company_profile re_findall re_findall_ignorecase
                   (profile_page page)) si t b c = Raise e) as Hlead.
  { intros si t b c.
    pose proof (calculate_lead_scoring_raises
                  (BIProfile.extract_company_profile re_findall re_findall_ignorecase
                     (profile_page page)) si t b c eq_refl) as H.
    destruct (BIProfile.industry _) in H; eauto. }
  unfold BIPipeline.analyze_page. cbv zeta.
  destruct (analyze_social_media_intelligence page) as [si|e];
    cbn [BIPlan.and_then]; [|eauto].
  destruct (analyze_tech_stack page) as [t|e]; cbn [BIPlan.and_then]; [|eauto].
  destruct (analyze_competitors page) as [co|e]; cbn [BIPlan.and_then]; [|eauto].
  destruct (analyze_budget_indicators page t si) as [b|e];
    cbn [BIPlan.and_then]; [|eauto].
  destruct (analyze_traffic_and_marketing page) as [tr|e];
    cbn [BIPlan.and_then]; [|eauto].
  destruct (extract_contact_intelligence page) as [c|e];
    cbn [BIPlan.and_then]; [|eauto].
  destruct (Hlead si t b c) as [e He].
  exists e. rewrite He. reflexivity.
Qed.

(** What analyze_business_intelligence gives, by the result of the
    fetch. *)
Lemma analyze_business_intelligence_outcome (url : string) (w : W) :
  snd (analyze_business_intelligence url w) = snd (fetch_website url w) /\
  match fst (fetch_website url w) with
  | None => fst (analyze_business_intelligence url w) = NoResult
  | Some _ => exists text, fst (analyze_business_intelligence url w) = Failed text
  end.
Proof.
  unfold BIPipeline.analyze_business_intelligence.
  destruct (fetch_website url w) as [[page|] w1]; cbn [fst snd].
  - destruct (analyze_page_raises url page) as [e ->].
    destruct e as [text code|text]; cbn [fst snd]; (split; [reflexivity|eauto]).
  - split; reflexivity.
Qed.

(** X3.  analyze_business_intelligence never returns a result: it
    returns [None] when the fetch fails and raises when it succeeds,
    whatever the page and whatever the other analyses do, and it raises
    before auto_save_report, so nothing is saved (the world is the one the
    fetch left). *)
Theorem analyze_business_intelligence_never_returns :
  forall (url : string) (w : W),
    snd (analyze_business_intelligence url w) = snd (fetch_website url w) /\
    (forall r, fst (analyze_business_intelligence url w) <> Analyzed r) /\
    match fst (fetch_website url w) with
    | None => fst (analyze_business_intelligence url w) = NoResult
    | Some _ => exists text, fst (analyze_business_intelligence url w) = Failed text
    end.
Proof.
  intros url w.
  destruct (analyze_business_intelligence_outcome url w) as [Hw Ho].
  split; [exact Hw|]. split; [|exact Ho].
  intros r Hr. rewrite Hr in Ho.
  destruct (fst (fetch_website url w)); [destruct Ho|]; discriminate.
Qed.

Variable D : Type.
Variable process : Analysis -> D + string.

Local Abbreviation analyze_business_intelligence_endpoint :=
  (Endpoints.analyze_business_intelligence_endpoint W Analysis D
     analyze_business_intelligence process).
Local Abbreviation analyze_lead_scoring_endpoint :=
  (Endpoints.analyze_lead_scoring_endpoint W Analysis D
     analyze_business_intelligence process).
Local Abbreviation batch_lead_scoring :=
  (BIApi.batch_lead_scoring W Analysis D analyze_business_intelligence process).

(** What a single-URL handler of business_intelligence_api.py answers
    over this analyzer. *)
Lemma handle_over_failing_analyzer (no_result technical_error : string)
    (url : JsonValue) (st : St W) :
  fst (Endpoints.handle W Analysis D process BIApi.validate_url
         analyze_business_intelligence no_result technical_error url st) =
  match url with
  | JFalsy => Raise (APIError "URL is required" 400)
  | JTruthy => Raise (APIError technical_error 500)
  | JStr s =>
      if PyStr.truthy s then
        match fst (fetch_website (add_protocol s) (world st)) with
        | None => Raise (APIError no_result 422)
        | Some _ => Raise (APIError technical_error 500)
        end
      else Raise (APIError "URL is required" 400)
  end.
Proof.
  unfold Endpoints.handle. destruct url as [s| |]; [|reflexivity..].
  unfold BIApi.validate_url. destruct (PyStr.truthy s); [|reflexivity].
  cbn [negb]. unfold bind, call.
  destruct (analyze_business_intelligence_outcome (add_protocol s) (world st))
    as (_ & Hcase).
  destruct (analyze_business_intelligence (add_protocol s) (world st)) as [o w1].
  cbn [fst] in Hcase.
  destruct (fst (fetch_website (add_protocol s) (world st))).
  - destruct Hcase as [text ->]. reflexivity.
  - rewrite Hcase. reflexivity.
Qed.

(** X4.  Over this analyzer the two single-URL endpoints of
    business_intelligence_api.py that return the analysis never answer
    200: for a URL string that is not empty the answer is the 422 error
    when the fetch fails and the handler's 500 error when the fetch
    succeeds; a body that is no object and a URL that is no string get
    500, every other request gets 400. *)
Theorem bi_endpoints_never_succeed :
  forall (body : Endpoints.SingleBody) (st : St W),
    let full := fst (analyze_business_intelligence_endpoint body st) in
    let lead := fst (analyze_lead_scoring_endpoint body st) in
    In (http_status full) [400; 422; 500] /\
    In (http_status lead) [400; 422; 500] /\
    match body with
    | Endpoints.SingleDict (JStr (String c s)) =>
        match fst (fetch_website (add_protocol (String c s)) (world st)) with
        | None =>
            full = Raise (APIError
                     "Failed to analyze website. Please check the URL and try again."
                     422) /\
            lead = Raise (APIError "Failed to analyze website" 422)
        | Some _ =>
            full = Raise (APIError "Business intelligence analysis failed" 500) /\
            lead = Raise (APIError "Lead scoring analysis failed" 500)
        end
    | Endpoints.SingleNotDict | Endpoints.SingleDict JTruthy =>
        http_status full = 500 /\ http_status lead = 500
    | _ => http_status full = 400 /\ http_status lead = 400
    end.
Proof.
  intros body st full lead. subst full lead.
  unfold Endpoints.analyze_business_intelligence_endpoint,
    Endpoints.analyze_lead_scoring_endpoint.
  assert (forall code : Z,
            code = 400 \/ code = 422 \/ code = 500 -> In code [400; 422; 500])
    as Hcodes by (intros code [-> | [-> | ->]]; cbn; auto).
  destruct body as [| |url];
    [cbn [raise fst http_status]; repeat split; first [reflexivity | apply Hcodes; auto]..|].
  rewrite !handle_over_failing_analyzer.
  destruct url as [[|c s]| |]; cbn [PyStr.truthy];
    [| |cbn [http_status]; repeat split; first [reflexivity | apply Hcodes; auto]..].
  - cbn [http_status]; repeat split; first [reflexivity | apply Hcodes; auto].
  - destruct (fst (fetch_website _ _)); cbn [http_status];
      repeat split; first [reflexivity | apply Hcodes; auto].
Qed.

(** The loop of the batch endpoint over this analyzer: every URL gets an
    'error' entry. *)
Lemma score_each_all_errors (urls : list JsonValue)
    (results : list (Entry JsonValue D)) (st : St W) :
  exists entries st',
    BIApi.score_each W Analysis D analyze_business_intelligence process
      urls results st = (Return (results ++ entries), st') /\
    List.map entry_url entries = urls /\
    Forall (fun e => status e = "error" /\ data e = None) entries.
Proof.
  revert results st. induction urls as [|url urls IH]; intros results st.
  - exists [], st. rewrite List.app_nil_r. repeat split. constructor.
  - cbn [BIApi.score_each]. unfold bind at 1.
    assert (exists text st1,
              BIApi.score_one W Analysis D analyze_business_intelligence process
                url st = (Return (error_entry url text), st1)) as (text & st1 & ->).
    { unfold BIApi.score_one.
      destruct (BIApi.validate_url url) as [validated|[message code|text]];
        [|unfold ret; eauto..].
      unfold bind, call, ret.
      destruct (analyze_business_intelligence_outcome validated (world st))
        as (_ & Hcase).
      destruct (analyze_business_intelligence validated (world st)) as [o w1].
      cbn [fst] in Hcase.
      destruct (fst (fetch_website validated (world st))).
      - destruct Hcase as [text ->]. eauto.
      - rewrite Hcase. eauto. }
    destruct (IH (results ++ [error_entry url text]) st1)
      as (entries & st' & Hrun & Hurls & Hall).
    exists (error_entry url text :: entries), st'.
    rewrite Hrun, <- List.app_assoc. repeat split.
    + cbn. now f_equal.
    + constructor; [split; reflexivity|exact Hall].
Qed.

Lemma count_success_errors {U} (entries : list (Entry U D)) :
  Forall (fun e => status e = "error" /\ data e = None) entries ->
  count_success entries = 0.
Proof.
  intros H. unfold count_success.
  induction H as [|e entries [He _] _ IH]; [reflexivity|].
  cbn [List.filter]. rewrite He. exact IH.
Qed.

(** X5.  Over this analyzer a batch of one to five URLs is answered with
    one entry per requested URL, in order, every one of them an 'error'
    entry without data: the summary counts no successful analysis and as
    many failed ones as there are URLs. *)
Theorem bi_batch_reports_every_url_failed :
  forall (urls : list JsonValue) (analysis_type : string) (st : St W),
    (0 < List.length urls <= 5)%nat ->
    exists entries st',
      batch_lead_scoring (BodyDict (UrlsList urls) analysis_type) st =
        (Return {| results := entries;
                   total_urls := Z.of_nat (List.length urls);
                   successful := 0;
                   failed := Z.of_nat (List.length urls) |}, st') /\
      List.map entry_url entries = urls /\
      Forall (fun e => status e = "error" /\ data e = None) entries.
Proof.
  intros urls analysis_type st Hlen.
  destruct (score_each_all_errors urls [] st) as (entries & st' & Hrun & Hurls & Hall).
  exists entries, st'. split; [|split; assumption].
  unfold BIApi.batch_lead_scoring, reraise_as_api_error.
  destruct urls as [|u urls]; [simpl in Hlen; lia|].
  destruct (Z.ltb_spec 5 (Z.of_nat (List.length (u :: urls)))); [lia|].
  unfold bind. rewrite Hrun. cbn [List.app]. unfold ret.
  rewrite (count_success_errors entries Hall). rewrite Z.sub_0_r. reflexivity.
Qed.

End LeadScoringFailure.

(** ** The category scores of a run *)

Section RunScoreFacts.

Import BIAnalyzer.

Variable re_search : string -> string -> bool.

(** A recorded technology scored at least 2, the smallest weight. *)
Lemma tech_fold_detected_or_two (soup : Soup) (l : list (string * TechConfig))
    (acc : gmap string Detected * Z) :
  0 <= snd acc /\ (fst acc = ∅ \/ 2 <= snd acc) ->
  let out := fold_left (tech_step re_search soup) l acc in
  0 <= snd out /\ (fst out = ∅ \/ 2 <= snd out).
Proof.
  intros Hacc.
  apply fold_left_invariant
    with (P := fun acc : gmap string Detected * Z =>
                 0 <= snd acc /\ (fst acc = ∅ \/ 2 <= snd acc));
    [exact Hacc|].
  intros acc' [tech cfg] _ [Hnn Hor]. unfold tech_step.
  pose proof (detect_score re_search soup cfg) as Hd.
  destruct (detect re_search soup cfg) as [sc ev]. cbn [fst] in Hd.
  destruct (Z.ltb_spec 0 sc); cbn [fst snd]; [|tauto].
  split; [lia|right; lia].
Qed.

Lemma nonempty_snoc {A} (l : list A) (x : A) : nonempty (l ++ [x]) = true.
Proof. destruct l; reflexivity. Qed.

(** The technology score of an analyzed page is at least 1: without a
    recorded marketing technology the opportunity list is not empty, and
    with one the sophistication score is at least 2. *)
Lemma tech_score_at_least_one (soup : Soup) :
  1 <= tech_score (analyze_tech_stack re_search soup).
Proof.
  unfold analyze_tech_stack.
  pose proof (tech_fold_detected_or_two soup tech_patterns (∅, 0)) as H.
  cbv zeta in H. cbn [fst snd] in H.
  specialize (H ltac:(split; [lia|now left])).
  destruct (fold_left _ _ _) as [detected score]. cbn [fst snd] in H.
  destruct H as [Hnn [Hempty|Htwo]].
  - subst detected. rewrite map_to_list_empty. cbn [existsb negb].
    unfold tech_score. cbn [agency_opportunities tech_sophistication_score].
    rewrite nonempty_snoc.
    pose proof (Z.div_pos score 2 Hnn ltac:(lia)). lia.
  - unfold tech_score. cbn [agency_opportunities tech_sophistication_score].
    assert (1 <= score / 2) by (apply Z.div_le_lower_bound; lia).
    destruct (nonempty _); lia.
Qed.

(** X6.  In every analysis run the company profile score is at most 20
    (8 for the industry, 8 for the employees, 4 for the location: the cap
    of 25 is never reached), the technology score is at least 1, and the
    overall score lies between 6 and 95. *)
Theorem run_overall_score_bounds :
  forall re_findall re_findall_i soup company_profile budget_analysis,
    let r := analyze_business_intelligence_lead_scoring
               re_search re_findall re_findall_i soup
               company_profile budget_analysis in
    (exists cp, category_scores r !! "company_profile" = Some cp /\ 0 <= cp <= 20) /\
    (exists te, category_scores r !! "technology" = Some te /\ 1 <= te <= 20) /\
    6 <= overall_score r <= 95.
Proof.
  intros re_findall re_findall_i soup p b r. subst r.
  unfold analyze_business_intelligence_lead_scoring.
  set (si := analyze_social_media_intelligence re_search soup).
  set (t := analyze_tech_stack re_search soup).
  set (c := extract_contact_intelligence re_findall re_findall_i soup).
  rewrite calculate_lead_scoring_categories, calculate_lead_scoring_overall.
  destruct (category_scores_lookup p si t b c) as (H1 & H2 & H3 & H4 & H5 & H6).
  pose proof (profile_score_range p) as Rp.
  pose proof (social_score_range si (social_engagement_nonneg re_search soup)) as Rs.
  pose proof (tech_score_range t (tech_sophistication_nonneg re_search soup)) as Rt.
  pose proof (tech_score_at_least_one soup) as Rt1. fold t in Rt1.
  pose proof (contact_score_range c
                (sales_readiness_nonneg re_findall re_findall_i soup)) as Rc.
  pose proof (budget_score_cases b) as Rb.
  rewrite overall_is_sum.
  split; [eexists; split; [exact H1|lia]|].
  split; [eexists; split; [exact H3|lia]|].
  lia.
Qed.

(** One round of the loop over the platform table. *)
Lemma social_step_closed_form (soup : Soup) (acc : SocialIntel)
    (entry : string * (list string * Z)) :
  social_step re_search soup acc entry =
  {| platforms_found :=
       platforms_found acc ++
       (if BISocial.platform_found re_search soup entry then [fst entry] else []);
     social_engagement_score :=
       social_engagement_score acc +
       (if BISocial.platform_found re_search soup entry
        then BISocial.weight entry else 0);
     social_budget_indicators :=
       social_budget_indicators acc ++
       (if BISocial.pixel_detected re_search soup (fst entry)
        then [fst entry +:+ "_ads"] else []) |}.
Proof.
  destruct entry as [platform [pats w]].
  unfold social_step, BISocial.platform_found, BISocial.weight.
  cbn [fst snd].
  fold (BISocial.pixel_detected re_search soup platform).
  destruct (BISocial.pixel_detected re_search soup platform);
    destruct (PyStr.truthy_opt (scan_links re_search pats (a_hrefs soup) None));
    cbn [orb]; rewrite ?List.app_nil_r, ?Z.add_0_r; reflexivity.
Qed.

(** The loop over the platform table, in closed form. *)
Lemma social_fold_closed_form (soup : Soup)
    (l : list (string * (list string * Z))) (acc : SocialIntel) :
  fold_left (social_step re_search soup) l acc =
  {| platforms_found :=
       platforms_found acc ++
       List.map fst (List.filter (BISocial.platform_found re_search soup) l);
     social_engagement_score :=
       social_engagement_score acc +
       BISocial.sum_weights (List.filter (BISocial.platform_found re_search soup) l);
     social_budget_indicators :=
       social_budget_indicators acc ++
       List.map (fun entry => fst entry +:+ "_ads")
         (List.filter (fun entry => BISocial.pixel_detected re_search soup (fst entry))
            l) |}.
Proof.
  revert acc. induction l as [|entry l IH]; intros acc.
  - cbn. rewrite !List.app_nil_r, Z.add_0_r. destruct acc; reflexivity.
  - cbn [fold_left]. rewrite IH, social_step_closed_form. clear IH.
    cbn [platforms_found social_engagement_score social_budget_indicators
         List.filter].
    destruct (BISocial.platform_found re_search soup entry);
      destruct (BISocial.pixel_detected re_search soup (fst entry));
      cbn [List.map BISocial.sum_weights fold_right];
      rewrite <- ?List.app_assoc; cbn [List.app];
      f_equal; unfold BISocial.sum_weights; lia.
Qed.

Lemma sum_weights_filter_le (f : string * (list string * Z) -> bool)
    (l : list (string * (list string * Z))) :
  Forall (fun entry => 0 <= BISocial.weight entry) l ->
  0 <= BISocial.sum_weights (List.filter f l) <= BISocial.sum_weights l.
Proof.
  unfold BISocial.sum_weights.
  induction 1 as [|entry l Hw _ IH]; cbn [List.filter fold_right]; [lia|].
  destruct (f entry); cbn [fold_right]; lia.
Qed.

(** X7.  analyze_social_media_intelligence, in closed form: the
    platforms found are the entries of the platform table, in table order,
    that have a link or a pixel on the page; the engagement score is the
    sum of their weights, at most 55; and the budget indicators are
    '<platform>_ads' for the platforms whose pixel was seen, each of them
    a platform found. *)
Theorem social_engagement_is_sum_of_weights :
  forall (soup : Soup),
    let si := analyze_social_media_intelligence re_search soup in
    let found := List.filter (BISocial.platform_found re_search soup) social_platforms in
    platforms_found si = List.map fst found /\
    social_engagement_score si = BISocial.sum_weights found /\
    0 <= social_engagement_score si <= 55 /\
    social_budget_indicators si =
      List.map (fun entry => fst entry +:+ "_ads")
        (List.filter (fun entry => BISocial.pixel_detected re_search soup (fst entry))
           social_platforms) /\
    Forall (fun indicator =>
              exists platform,
                indicator = platform +:+ "_ads" /\
                In platform (platforms_found si) /\
                In platform (List.map fst pixel_patterns))
      (social_budget_indicators si).
Proof.
  intros soup si found. subst si.
  unfold analyze_social_media_intelligence.
  rewrite social_fold_closed_form.
  cbn [platforms_found social_engagement_score social_budget_indicators List.app].
  fold found. rewrite Z.add_0_l.
  split; [reflexivity|]. split; [reflexivity|]. split.
  { pose proof (sum_weights_filter_le (BISocial.platform_found re_search soup)
                  social_platforms) as H.
    fold found in H.
    assert (BISocial.sum_weights social_platforms = 55) as E by reflexivity.
    rewrite E in H. apply H.
    repeat constructor; unfold BISocial.weight; cbn; lia. }
  split; [reflexivity|].
  apply List.Forall_forall. intros indicator Hin.
  apply in_map_iff in Hin as (entry & <- & Hin).
  apply filter_In in Hin as [Hin Hpix].
  exists (fst entry). split; [reflexivity|]. split.
  - apply in_map. subst found. apply filter_In. split; [exact Hin|].
    unfold BISocial.platform_found. rewrite Hpix. apply orb_true_r.
  - unfold BISocial.pixel_detected in Hpix.
    destruct (List.find _ pixel_patterns) as [[name pixels]|] eqn:Hfind;
      [|discriminate].
    apply find_some in Hfind as [Hmem Heq]. cbn [fst] in Heq.
    apply String.eqb_eq in Heq. subst name.
    apply (in_map fst) in Hmem. exact Hmem.
Qed.

End RunScoreFacts.

(** ** Budget indicators *)

Section BudgetFacts.

Import BIAnalyzer.

(** No platform of the table, with '_ads' appended and deleted again, is
    a key of the advertising table. *)
Lemma platform_ads_not_advertised (entry : string * (list string * Z)) :
  In entry social_platforms ->
  BIBudget.ad_indicators !! PyStr.replace_with_empty "_ads" (fst entry +:+ "_ads") = None.
Proof.
  unfold social_platforms. cbn [In].
  intros H.
  repeat (destruct H as [<-|H]; [vm_compute; reflexivity|]).
  destruct H.
Qed.

Lemma advertising_of_platform_ads (l : list (string * (list string * Z)))
    (acc : Z * list string) :
  Forall (fun entry => In entry social_platforms) l ->
  fold_left BIBudget.advertising_step
    (List.map (fun entry => fst entry +:+ "_ads") l) acc = acc.
Proof.
  induction 1 as [|entry l Hin _ IH]; [reflexivity|].
  cbn [List.map fold_left]. unfold BIBudget.advertising_step at 2.
  rewrite (platform_ads_not_advertised entry Hin). exact IH.
Qed.

(** The advertising score of the social analysis of a page is 0. *)
Lemma advertising_of_run re_search (page : Soup) :
  BIBudget.advertising (analyze_social_media_intelligence re_search page) = (0, []).
Proof.
  unfold BIBudget.advertising, analyze_social_media_intelligence.
  rewrite social_fold_closed_form. cbn [social_budget_indicators List.app].
  apply advertising_of_platform_ads.
  apply List.Forall_forall. intros entry Hin.
  apply filter_In in Hin. tauto.
Qed.

(** X8.  The advertising part of analyze_budget_indicators never counts
    in a run: the social analysis names its indicators '<platform>_ads'
    with the platforms facebook, twitter, linkedin and tiktok, the budget
    analysis deletes '_ads' from the name and looks the rest up in a table
    whose keys are 'google_ads', 'facebook_ads', 'linkedin_ads',
    'microsoft_ads' and 'programmatic'.  So the advertising score is 0, no
    spending indicator and no 'advertising' allocation is recorded,
    'advertising_consolidation' is never proposed, and
    'marketing_channel_expansion' is proposed exactly when the budget
    level is not 'low'. *)
Theorem advertising_never_counted :
  forall re_search (page soup : Soup) (tech_analysis : TechAnalysis),
    let social_intel := analyze_social_media_intelligence re_search page in
    let report := BIBudget.analyze_budget_indicators soup tech_analysis social_intel in
    BIBudget.advertising social_intel = (0, []) /\
    BIBudget.spending_indicators report = [] /\
    BIBudget.budget_allocation report !! "advertising" = None /\
    ~ In "advertising_consolidation"
        (BIBudget.budget_optimization_opportunities report) /\
    (In "marketing_channel_expansion"
       (BIBudget.budget_optimization_opportunities report) <->
     BIBudget.overall_budget_level report <> "low").
Proof.
  intros re_search page soup t si report.
  pose proof (advertising_of_run re_search page) as Hadv. fold si in Hadv.
  split; [exact Hadv|].
  subst report. unfold BIBudget.analyze_budget_indicators.
  rewrite Hadv. cbv zeta.
  generalize (BIBudget.tech_spend_score t) as tech_spend.
  generalize (BIBudget.hiring_score (PyStr.lower (get_text soup))) as hiring.
  generalize (BIBudget.revenue_score (PyStr.lower (get_text soup))) as revenue.
  intros revenue hiring tech_spend.
  change (0 <? 0) with false. change (8 <? 0) with false.
  change (0 =? 0) with true. cbn [andb].
  destruct (20 <=? 0 + tech_spend + hiring + revenue);
    [|destruct (10 <=? 0 + tech_spend + hiring + revenue);
      [|destruct (5 <=? 0 + tech_spend + hiring + revenue)]];
    cbn [BIBudget.spending_indicators BIBudget.budget_allocation
         BIBudget.budget_optimization_opportunities BIBudget.overall_budget_level];
    (split; [reflexivity|]);
    (split; [destruct (0 <? tech_spend), (0 <? hiring); by simplify_map_eq|]);
    destruct (10 <? tech_spend); cbn; intuition (discriminate || congruence).
Qed.

Lemma ad_indicators_positive (k : string) (points : Z) :
  BIBudget.ad_indicators !! k = Some points -> 0 < points.
Proof.
  unfold BIBudget.ad_indicators. intros H.
  repeat (apply lookup_insert_Some in H as [[_ <-]|[_ H]]; [lia|]).
  apply lookup_singleton_Some in H as [_ <-]. lia.
Qed.

Lemma advertising_nonneg (social_intel : SocialIntel) :
  0 <= fst (BIBudget.advertising social_intel).
Proof.
  unfold BIBudget.advertising.
  apply fold_left_invariant with (P := fun acc : Z * list string => 0 <= fst acc);
    [cbn; lia|].
  intros acc platform _ Hacc. unfold BIBudget.advertising_step.
  destruct (BIBudget.ad_indicators !! _) as [points|] eqn:Hk; [|exact Hacc].
  apply ad_indicators_positive in Hk. cbn [fst]. lia.
Qed.

Lemma tech_spend_nonneg (tech_analysis : TechAnalysis) :
  0 <= BIBudget.tech_spend_score tech_analysis.
Proof.
  unfold BIBudget.tech_spend_score.
  apply (map_fold_weak_ind (fun (acc : Z) (_ : gmap string Detected) => 0 <= acc));
    [lia|].
  intros k d m acc _ Hacc.
  destruct (String.eqb _ "high"); [lia|].
  destruct (String.eqb _ "medium"); lia.
Qed.

(** X9.  The budget level that analyze_budget_indicators reports and the
    budget category of the lead scoring that reads it: the total of the
    four partial scores is never negative; the category is 25 for a total
    of 20 or more, 20 from 10, 15 from 5 and 5 below ('unknown', the
    initial level, is never reported); the investment capacity repeats
    the level; and the financial health score, between 0 and 100, is 100
    exactly at the level 'high'. *)
Theorem budget_level_feeds_budget_score :
  forall (soup : Soup) (tech_analysis : TechAnalysis) (social_intel : SocialIntel),
    let total :=
      BIBudget.total_score (PyStr.lower (get_text soup)) tech_analysis social_intel in
    let report := BIBudget.analyze_budget_indicators soup tech_analysis social_intel in
    0 <= total /\
    budget_score (BIBudget.to_budget_analysis report) =
      (if 20 <=? total then 25 else if 10 <=? total then 20
       else if 5 <=? total then 15 else 5) /\
    In (BIBudget.overall_budget_level report)
      ["high"; "medium-high"; "medium"; "low"] /\
    BIBudget.investment_capacity report = BIBudget.overall_budget_level report /\
    0 <= BIBudget.financial_health_score report <= 100 /\
    (BIBudget.financial_health_score report = 100 <->
     BIBudget.overall_budget_level report = "high").
Proof.
  intros soup t si total report.
  assert (0 <= total) as Htotal.
  { subst total. unfold BIBudget.total_score, BIBudget.hiring_score,
      BIBudget.revenue_score, BIBudget.count_in.
    pose proof (advertising_nonneg si). pose proof (tech_spend_nonneg t). lia. }
  split; [exact Htotal|].
  subst report. unfold BIBudget.analyze_budget_indicators.
  unfold BIBudget.total_score in total.
  destruct (BIBudget.advertising si) as [advertising_score spending].
  cbn [fst] in total. cbv zeta. fold total.
  destruct (Z.leb_spec 20 total);
    [|destruct (Z.leb_spec 10 total); [|destruct (Z.leb_spec 5 total)]];
    cbn [BIBudget.to_budget_analysis BIBudget.overall_budget_level
         BIBudget.investment_capacity BIBudget.financial_health_score];
    (split; [reflexivity|]);
    (split; [cbn; tauto|]);
    (split; [reflexivity|]);
    (split; [lia|]);
    (split; [intros; try reflexivity; lia|intros; try discriminate; lia]).
Qed.

End BudgetFacts.

(** ** The company profile *)

Section ProfileFacts.

(** [max(d, key=d.get)] over the items of [d], in order: the first item
    with the greatest value. *)
Lemma max_by_score_first_maximum (rest : list (string * Z)) (best : string * Z) :
  exists before after k v,
    best :: rest = before ++ (k, v) :: after /\
    BIProfile.max_by_score best rest = k /\
    Forall (fun kv => snd kv < v) before /\
    Forall (fun kv => snd kv <= v) after.
Proof.
  revert best. induction rest as [|kv rest IH]; intros best.
  - exists [], [], (fst best), (snd best). destruct best. cbn. repeat split; constructor.
  - cbn [BIProfile.max_by_score].
    destruct (Z.ltb_spec (snd best) (snd kv)) as [Hlt|Hge].
    + destruct (IH kv) as (before & after & k & v & Hsplit & Hmax & Hb & Ha).
      exists (best :: before), after, k, v.
      split; [cbn; now rewrite Hsplit|]. split; [exact Hmax|]. split; [|exact Ha].
      constructor; [|exact Hb].
      assert (snd kv <= v); [|lia].
      destruct before as [|x before]; cbn in Hsplit;
        injection Hsplit as Hkv Hrest.
      * rewrite Hkv. cbn. lia.
      * subst x. inversion Hb; subst. lia.
    + destruct (IH best) as (before & after & k & v & Hsplit & Hmax & Hb & Ha).
      destruct before as [|x before]; cbn in Hsplit;
        injection Hsplit as Hbest Hrest.
      * exists [], (kv :: after), k, v.
        split; [cbn; now rewrite Hbest, Hrest|]. split; [exact Hmax|].
        split; [constructor|].
        constructor; [rewrite Hbest in Hge; cbn in Hge; lia|exact Ha].
      * exists (best :: kv :: before), after, k, v. subst x.
        inversion Hb; subst.
        split; [reflexivity|]. split; [exact Hmax|]. split; [|exact Ha].
        constructor; [assumption|]. constructor; [lia|assumption].
Qed.

(** A split of a filtered image is the image of a split. *)
Lemma filter_map_split {A B} (f : A -> B) (p : B -> bool) (l : list A)
    (before after : list B) (x : B) :
  List.filter p (List.map f l) = before ++ x :: after ->
  exists lb a la,
    l = lb ++ a :: la /\ f a = x /\ p x = true /\
    List.filter p (List.map f lb) = before /\
    List.filter p (List.map f la) = after.
Proof.
  revert before. induction l as [|a l IH]; intros before H; cbn in H.
  - destruct before; discriminate.
  - destruct (p (f a)) eqn:Hp.
    + destruct before as [|b before]; cbn in H; inversion H; subst.
      * exists [], a, l. cbn. repeat split; assumption.
      * destruct (IH before H2) as (lb & a' & la & -> & Hx & Hpx & Hb & Ha).
        exists (a :: lb), a', la. cbn. rewrite Hp, Hb. repeat split; assumption.
    + destruct (IH before H) as (lb & a' & la & -> & Hx & Hpx & Hb & Ha).
      exists (a :: lb), a', la. cbn. rewrite Hp. repeat split; assumption.
Qed.

Lemma industry_scores_filter (page_text : string) :
  BIProfile.industry_scores page_text =
  List.filter (fun kv => 0 <? snd kv)
    (List.map (fun entry => (fst entry, BIProfile.keyword_score page_text (snd entry)))
       BIProfile.industry_patterns).
Proof.
  unfold BIProfile.industry_scores.
  induction BIProfile.industry_patterns as [|entry l IH]; [reflexivity|].
  cbn [List.flat_map List.map List.filter snd]. rewrite IH.
  destruct (0 <? _); reflexivity.
Qed.

(** X10.  The industry of a profile is the entry of the industry table
    with the most keywords in the page text, the first such entry in
    table order; no industry is stored exactly when no keyword of any
    entry occurs in the text. *)
Theorem detect_industry_is_first_maximum :
  forall (page_text : string),
    let score := fun entry : string * list string =>
                   BIProfile.keyword_score page_text (snd entry) in
    match BIProfile.detect_industry page_text with
    | None => Forall (fun entry => score entry = 0) BIProfile.industry_patterns
    | Some industry =>
        exists before keywords after,
          BIProfile.industry_patterns = before ++ (industry, keywords) :: after /\
          0 < score (industry, keywords) /\
          Forall (fun entry => score entry < score (industry, keywords)) before /\
          Forall (fun entry => score entry <= score (industry, keywords)) after
    end.
Proof.
  intros page_text score. unfold BIProfile.detect_industry.
  rewrite industry_scores_filter.
  set (f := fun entry : string * list string =>
              (fst entry, BIProfile.keyword_score page_text (snd entry))).
  set (p := fun kv : string * Z => 0 <? snd kv).
  destruct (List.filter p (List.map f BIProfile.industry_patterns))
    as [|first rest] eqn:Hscores.
  - apply List.Forall_forall. intros entry Hin.
    assert (p (f entry) = false) as Hp.
    { destruct (p (f entry)) eqn:Hp; [|reflexivity].
      assert (In (f entry) []) as [].
      rewrite <- Hscores. apply filter_In. split; [now apply in_map|exact Hp]. }
    subst p f score. cbn in Hp |- *.
    apply Z.ltb_ge in Hp. unfold BIProfile.keyword_score in *. lia.
  - destruct (max_by_score_first_maximum rest first)
      as (before & after & k & v & Hsplit & Hmax & Hb & Ha).
    rewrite Hmax. rewrite Hsplit in Hscores.
    destruct (filter_map_split f p _ _ _ _ Hscores)
      as (lb & [industry keywords] & la & Htable & Hx & Hpx & Hfb & Hfa).
    subst f p. cbn in Hx, Hpx. injection Hx as Hk Hv.
    rewrite <- Hk. rewrite <- Hv in Hb, Ha, Hpx. clear Hk Hv Hmax Hsplit Hscores.
    apply Z.ltb_lt in Hpx.
    exists lb, keywords, la. split; [exact Htable|]. split; [exact Hpx|].
    assert (forall (l : list (string * list string)) (fl : list (string * Z)) bound,
              0 < bound ->
              List.filter (fun kv : string * Z => 0 <? snd kv)
                (List.map (fun entry : string * list string =>
                             (fst entry,
                              BIProfile.keyword_score page_text (snd entry))) l) = fl ->
              (Forall (fun kv => snd kv < bound) fl ->
               Forall (fun entry => score entry < bound) l) /\
              (Forall (fun kv => snd kv <= bound) fl ->
               Forall (fun entry => score entry <= bound) l)) as Hlift.
    { clear. intros l fl bound Hbound <-.
      induction l as [|entry l [IH1 IH2]]; [split; constructor|].
      cbn [List.map List.filter snd].
      destruct (Z.ltb_spec 0 (BIProfile.keyword_score page_text (snd entry)));
        split; intros H'.
      - inversion H'; subst. constructor; [assumption|now apply IH1].
      - inversion H'; subst. constructor; [assumption|now apply IH2].
      - constructor; [unfold score; lia|now apply IH1].
      - constructor; [unfold score; lia|now apply IH2]. }
    split.
    + apply (Hlift lb before _ Hpx Hfb). exact Hb.
    + apply (Hlift la after _ Hpx Hfa). exact Ha.
Qed.

End ProfileFacts.

(** ** The action plan *)

Section PlanFacts.

Import BIPlan.

Lemma In_append_if {A} (condition : bool) (x y : A) (l : list A) :
  In y (append_if condition x l) <-> In y l \/ (condition = true /\ y = x).
Proof.
  unfold append_if. destruct condition.
  - rewrite in_app_iff. cbn. intuition congruence.
  - intuition congruence.
Qed.

Lemma length_append_if {A} (condition : bool) (x : A) (l : list A) :
  List.length (append_if condition x l) =
  (List.length l + if condition then 1 else 0)%nat.
Proof.
  unfold append_if. destruct condition; [rewrite List.length_app|]; cbn; lia.
Qed.

Lemma In_identify_strengths (category_scores : gmap string Z) (x : string) :
  In x (identify_strengths category_scores) ->
  (18 <= get0 category_scores "company_profile" /\
   x = "Strong company profile and market positioning") \/
  (15 <= get0 category_scores "social_intelligence" /\
   x = "Excellent social media presence and engagement") \/
  (15 <= get0 category_scores "technology" /\
   x = "Advanced technology adoption and digital maturity") \/
  (20 <= get0 category_scores "budget" /\
   x = "High budget capacity and investment readiness") \/
  (7 <= get0 category_scores "contact_accessibility" /\
   x = "Clear contact paths and decision maker access").
Proof.
  unfold identify_strengths. cbv zeta. intros H.
  repeat (apply In_append_if in H as [H|[H ->]];
          [|apply Z.leb_le in H; tauto]).
  destruct H.
Qed.

Lemma In_identify_improvement_areas (category_scores : gmap string Z) (x : string) :
  In x (identify_improvement_areas category_scores) ->
  (get0 category_scores "company_profile" < 12 /\
   x = "Company profile and positioning needs strengthening") \/
  (get0 category_scores "social_intelligence" < 10 /\
   x = "Social media presence requires significant development") \/
  (get0 category_scores "technology" < 10 /\
   x = "Technology modernization represents major opportunity") \/
  (get0 category_scores "budget" < 15 /\
   x = "Budget development and investment capacity building needed") \/
  (get0 category_scores "contact_accessibility" < 5 /\
   x = "Contact information and decision maker identification critical").
Proof.
  unfold identify_improvement_areas. cbv zeta. intros H.
  repeat (apply In_append_if in H as [H|[H ->]];
          [|apply Z.ltb_lt in H; tauto]).
  destruct H.
Qed.

(** X11.  A category is never reported both as a strength and as an
    improvement area (the strength thresholds 18, 15, 15, 20 and 7 lie
    above the improvement thresholds 12, 10, 10, 15 and 5), so the two
    lists together hold at most five texts. *)
Theorem strengths_and_improvements_disjoint :
  forall (category_scores : gmap string Z),
    let strengths := identify_strengths category_scores in
    let improvements := identify_improvement_areas category_scores in
    ~ (In "Strong company profile and market positioning" strengths /\
       In "Company profile and positioning needs strengthening" improvements) /\
    ~ (In "Excellent social media presence and engagement" strengths /\
       In "Social media presence requires significant development" improvements) /\
    ~ (In "Advanced technology adoption and digital maturity" strengths /\
       In "Technology modernization represents major opportunity" improvements) /\
    ~ (In "High budget capacity and investment readiness" strengths /\
       In "Budget development and investment capacity building needed"
         improvements) /\
    ~ (In "Clear contact paths and decision maker access" strengths /\
       In "Contact information and decision maker identification critical"
         improvements) /\
    (List.length strengths + List.length improvements <= 5)%nat.
Proof.
  intros cs strengths improvements. subst strengths improvements.
  assert (forall s i,
            In s (identify_strengths cs) -> In i (identify_improvement_areas cs) ->
            (s = "Strong company profile and market positioning" ->
             i = "Company profile and positioning needs strengthening" -> False) /\
            (s = "Excellent social media presence and engagement" ->
             i = "Social media presence requires significant development" -> False) /\
            (s = "Advanced technology adoption and digital maturity" ->
             i = "Technology modernization represents major opportunity" -> False) /\
            (s = "High budget capacity and investment readiness" ->
             i = "Budget development and investment capacity building needed" ->
             False) /\
            (s = "Clear contact paths and decision maker access" ->
             i = "Contact information and decision maker identification critical" ->
             False)) as Hpair.
  { intros s i Hs Hi.
    apply In_identify_strengths in Hs. apply In_identify_improvement_areas in Hi.
    repeat split; intros -> ->;
      destruct Hs as [[Hs E]|[[Hs E]|[[Hs E]|[[Hs E]|[Hs E]]]]]; try discriminate E;
      destruct Hi as [[Hi E']|[[Hi E']|[[Hi E']|[[Hi E']|[Hi E']]]]];
      try discriminate E'; lia. }
  repeat split.
  1-5: intros [Hs Hi]; destruct (Hpair _ _ Hs Hi) as (H1 & H2 & H3 & H4 & H5);
    first [now apply H1 | now apply H2 | now apply H3 | now apply H4 | now apply H5].
  unfold identify_strengths, identify_improvement_areas. cbv zeta.
  rewrite !length_append_if. cbn [List.length].
  generalize (get0 cs "company_profile") (get0 cs "social_intelligence")
    (get0 cs "technology") (get0 cs "budget") (get0 cs "contact_accessibility").
  intros cp so te bu co.
  assert (forall a b x : Z, b <= a ->
            ((if (a <=? x)%Z then 1 else 0) +
             (if (x <? b)%Z then 1 else 0) <= 1)%nat)
    as Hone.
  { intros a b x Hab. destruct (Z.leb_spec a x), (Z.ltb_spec x b); lia. }
  pose proof (Hone 18 12 cp ltac:(lia)). pose proof (Hone 15 10 so ltac:(lia)).
  pose proof (Hone 15 10 te ltac:(lia)). pose proof (Hone 20 15 bu ltac:(lia)).
  pose proof (Hone 7 5 co ltac:(lia)).
  lia.
Qed.

(** X12.  The success metrics of a scored lead cut the tiers in two
    different ways.  The primary KPIs are chosen by the tier name
    (premium, qualified, everything else); the conversion milestones by
    the text '$10,000' in the deal size estimate, which occurs in the
    estimates of the premium tier ('$10,000-$100,000+') and of the
    potential tier ('$2,000-$10,000') but not in those of the qualified
    and nurture tiers: a lead scored 40 to 59 gets the milestones of a
    lead scored 80 or more, and a lead scored 60 to 79 those of a lead
    below 40. *)
Theorem discovery_milestones_tiers :
  forall p si t b c,
    let ls := BIAnalyzer.calculate_lead_scoring p si t b c in
    let overall := BIAnalyzer.overall_score ls in
    let metrics := define_success_metrics (BIAnalyzer.lead_quality ls) ls in
    conversion_milestones metrics =
      (if (80 <=? overall) || ((40 <=? overall) && (overall <? 60))
       then [ "Discovery call completed"; "Stakeholder meeting arranged";
              "Technical requirements gathered";
              "Proposal presented to decision makers" ]
       else [ "Initial interest confirmed"; "Budget discussion initiated";
              "Service demonstration completed";
              "Contract negotiation started" ]) /\
    primary_kpis metrics =
      (if 80 <=? overall
       then [ "Meeting scheduled within 7 days";
              "Proposal presented within 14 days";
              "Decision meeting within 30 days" ]
       else if 60 <=? overall
       then [ "Initial contact response within 7 days";
              "Needs assessment completed within 21 days";
              "Proposal requested within 45 days" ]
       else [ "Educational content engagement within 14 days";
              "Social media connection within 30 days";
              "Follow-up interest within 90 days" ]).
Proof.
  intros p si t b c ls overall metrics. subst metrics overall ls.
  unfold BIAnalyzer.calculate_lead_scoring. cbv zeta.
  generalize (BIAnalyzer.sum_values (BIAnalyzer.fill_category_scores p si t b c)) as s.
  generalize (BIAnalyzer.fill_category_scores p si t b c) as d.
  intros d s.
  destruct (determine_lead_quality_cases s) as [[H E]|[[H E]|[[H E]|[H E]]]];
    rewrite E; clear E;
    cbn [BIAnalyzer.overall_score BIAnalyzer.lead_quality];
    unfold define_success_metrics;
    cbn [conversion_milestones primary_kpis BIAnalyzer.deal_size_estimate];
    destruct (Z.leb_spec 80 s), (Z.leb_spec 60 s), (Z.leb_spec 40 s),
      (Z.ltb_spec s 60); try lia; split; vm_compute; reflexivity.
Qed.

End PlanFacts.

(** ** The priority matrix *)

Section PriorityMatrixFacts.

Import BIPlan.

Variables (quality : string) (score : Z).

Lemma impact_of_cases (a : Action) :
  impact_of quality score a =
  if String.eqb (priority a) "critical" || String.eqb (priority a) "high"
     || (60 <=? score)
  then "high" else "low".
Proof.
  unfold impact_of.
  destruct (String.eqb (priority a) "critical"), (String.eqb quality "premium"),
    (String.eqb (priority a) "high"), (60 <=? score); reflexivity.
Qed.

Lemma matrix_fold_quadrants (l : list Action) (m : gmap string (list Action))
    (hl hh ll lh : list Action) :
  m !! "high_impact_low_effort" = Some hl ->
  m !! "high_impact_high_effort" = Some hh ->
  m !! "low_impact_low_effort" = Some ll ->
  m !! "low_impact_high_effort" = Some lh ->
  size m = 4%nat ->
  let out := fold_left (matrix_step quality score) l m in
  out !! "high_impact_low_effort" = Some (hl ++ quadrant quality score "high" "low" l) /\
  out !! "high_impact_high_effort" = Some (hh ++ quadrant quality score "high" "high" l) /\
  out !! "low_impact_low_effort" = Some (ll ++ quadrant quality score "low" "low" l) /\
  out !! "low_impact_high_effort" = Some (lh ++ quadrant quality score "low" "high" l) /\
  size out = 4%nat.
Proof.
  revert m hl hh ll lh. induction l as [|a l IH]; intros m hl hh ll lh H1 H2 H3 H4 Hs.
  - cbn. rewrite !List.app_nil_r. auto.
  - cbn [fold_left]. unfold quadrant. cbn [List.filter].
    fold (quadrant quality score "high" "low" l)
      (quadrant quality score "high" "high" l)
      (quadrant quality score "low" "low" l)
      (quadrant quality score "low" "high" l).
    unfold matrix_step at 2 4 6 8 10.
    assert (impact_of quality score a = "high" \/ impact_of quality score a = "low")
      as [Hi|Hi] by (rewrite impact_of_cases; destruct (_ || _); auto).
    all: assert (effort_of a = "low" \/ effort_of a = "high")
      as [He|He] by (unfold effort_of; destruct (_ <=? _); auto).
    all: rewrite Hi, He; cbn [String.eqb Ascii.eqb Bool.eqb andb].
    + change ("high" +:+ "_impact_" +:+ "low" +:+ "_effort")
        with "high_impact_low_effort".
      rewrite H1.
      destruct (IH (<["high_impact_low_effort" := hl ++ [a]]> m)
                  (hl ++ [a]) hh ll lh) as (G1 & G2 & G3 & G4 & G5);
        [by simplify_map_eq..|rewrite map_size_insert_Some; eauto|].
      rewrite <- List.app_assoc in G1. auto.
    + change ("high" +:+ "_impact_" +:+ "high" +:+ "_effort")
        with "high_impact_high_effort".
      rewrite H2.
      destruct (IH (<["high_impact_high_effort" := hh ++ [a]]> m)
                  hl (hh ++ [a]) ll lh) as (G1 & G2 & G3 & G4 & G5);
        [by simplify_map_eq..|rewrite map_size_insert_Some; eauto|].
      rewrite <- List.app_assoc in G2. auto.
    + change ("low" +:+ "_impact_" +:+ "low" +:+ "_effort")
        with "low_impact_low_effort".
      rewrite H3.
      destruct (IH (<["low_impact_low_effort" := ll ++ [a]]> m)
                  hl hh (ll ++ [a]) lh) as (G1 & G2 & G3 & G4 & G5);
        [by simplify_map_eq..|rewrite map_size_insert_Some; eauto|].
      rewrite <- List.app_assoc in G3. auto.
    + change ("low" +:+ "_impact_" +:+ "high" +:+ "_effort")
        with "low_impact_high_effort".
      rewrite H4.
      destruct (IH (<["low_impact_high_effort" := lh ++ [a]]> m)
                  hl hh ll (lh ++ [a])) as (G1 & G2 & G3 & G4 & G5);
        [by simplify_map_eq..|rewrite map_size_insert_Some; eauto|].
      rewrite <- List.app_assoc in G4. auto.
Qed.

Lemma quadrants_permutation (l : list Action) :
  Permutation
    (quadrant quality score "high" "low" l ++ quadrant quality score "high" "high" l ++
     quadrant quality score "low" "low" l ++ quadrant quality score "low" "high" l) l.
Proof.
  induction l as [|a l IH]; [constructor|].
  unfold quadrant. cbn [List.filter].
  fold (quadrant quality score "high" "low" l)
    (quadrant quality score "high" "high" l)
    (quadrant quality score "low" "low" l)
    (quadrant quality score "low" "high" l).
  assert (impact_of quality score a = "high" \/ impact_of quality score a = "low")
    as [Hi|Hi] by (rewrite impact_of_cases; destruct (_ || _); auto).
  all: assert (effort_of a = "low" \/ effort_of a = "high")
    as [He|He] by (unfold effort_of; destruct (_ <=? _); auto).
  all: rewrite Hi, He; cbn [String.eqb Ascii.eqb Bool.eqb andb].
  - cbn [List.app]. now constructor.
  - symmetry. apply Permutation_cons_app. now symmetry.
  - symmetry. rewrite List.app_assoc.
    apply Permutation_cons_app. rewrite <- List.app_assoc. now symmetry.
  - symmetry. rewrite !List.app_assoc.
    apply Permutation_cons_app. rewrite <- !List.app_assoc. now symmetry.
Qed.

Lemma create_priority_matrix_any_quality (immediate short_term medium_term : list Action)
    (other : string) :
  create_priority_matrix immediate short_term medium_term quality score =
  create_priority_matrix immediate short_term medium_term other score.
Proof.
  unfold create_priority_matrix.
  generalize (immediate ++ short_term ++ medium_term) as l.
  generalize empty_matrix as m.
  intros m l. revert m. induction l as [|a l IH]; intros m; [reflexivity|].
  cbn [fold_left]. rewrite IH. f_equal.
  unfold matrix_step, impact_of.
  destruct (String.eqb (priority a) "critical"), (String.eqb other "premium"),
    (String.eqb quality "premium"), (String.eqb (priority a) "high"),
    (60 <=? score); reflexivity.
Qed.

(** X13.  _create_priority_matrix puts every action of the plan in
    exactly one of the four quadrants, in plan order: the quadrant
    '<impact>_impact_<effort>_effort' holds the actions of that impact and
    effort, the dict keeps its four keys, and nothing is dropped.  The
    impact is 'high' exactly for a priority 'critical' or 'high' or a
    score of 60 or more, so the lead quality passed to the function never
    changes the matrix. *)
Theorem priority_matrix_quadrants :
  forall (immediate short_term medium_term : list Action),
    let all := immediate ++ short_term ++ medium_term in
    let matrix :=
      create_priority_matrix immediate short_term medium_term quality score in
    let actions_of := fun impact effort => quadrant quality score impact effort all in
    matrix !! "high_impact_low_effort" = Some (actions_of "high" "low") /\
    matrix !! "high_impact_high_effort" = Some (actions_of "high" "high") /\
    matrix !! "low_impact_low_effort" = Some (actions_of "low" "low") /\
    matrix !! "low_impact_high_effort" = Some (actions_of "low" "high") /\
    size matrix = 4%nat /\
    Permutation
      (actions_of "high" "low" ++ actions_of "high" "high" ++
       actions_of "low" "low" ++ actions_of "low" "high")
      all /\
    (forall other : string,
       matrix = create_priority_matrix immediate short_term medium_term other score).
Proof.
  intros immediate short_term medium_term all matrix actions_of.
  destruct (matrix_fold_quadrants all empty_matrix [] [] [] [])
    as (G1 & G2 & G3 & G4 & G5); [reflexivity..|].
  cbn [List.app] in G1, G2, G3, G4.
  repeat (split; [assumption|]).
  split; [apply quadrants_permutation|].
  intros other. apply create_priority_matrix_any_quality.
Qed.

End PriorityMatrixFacts.

(** ** The request gates, continued *)

Section ValidationFacts.

Import Api.

Variables W R D : Type.
Variable urlparse : string -> option (string * string).
Variable analyze_website : string -> W -> Outcome R * W.
Variable analyze_business_intelligence : string -> W -> Outcome R * W.
Variable process : string -> R -> D + string.
Variable process_result : R -> D + string.
Variable lead_summary : R -> D + string.

Local Abbreviation validate_url := (ApiServer.validate_url urlparse).
Local Abbreviation analyze_batch :=
  (ApiServer.analyze_batch W R D urlparse analyze_website process).
Local Abbreviation analyze_website_endpoint :=
  (Endpoints.analyze_website_endpoint W R D urlparse analyze_website process_result).
Local Abbreviation batch_lead_scoring :=
  (BIApi.batch_lead_scoring W R D analyze_business_intelligence lead_summary).

Local Abbreviation safe := (Endpoints.safe_url urlparse).

Lemma startswith_append (p s : string) : PyStr.startswith p (p +:+ s) = true.
Proof.
  induction p as [|c p IH]; [reflexivity|].
  change (String c p +:+ s) with (String c (p +:+ s)).
  cbn [PyStr.startswith]. rewrite Ascii.eqb_refl. exact IH.
Qed.

Lemma add_protocol_has_protocol (s : string) :
  (PyStr.startswith "http://" (add_protocol s)
   || PyStr.startswith "https://" (add_protocol s)) = true.
Proof.
  unfold add_protocol.
  destruct (PyStr.startswith "http://" s || PyStr.startswith "https://" s) eqn:H;
    [exact H|].
  rewrite (startswith_append "https://" s). apply orb_true_r.
Qed.

Lemma add_protocol_idempotent (s : string) :
  add_protocol (add_protocol s) = add_protocol s.
Proof.
  unfold add_protocol at 1. now rewrite add_protocol_has_protocol.
Qed.

Lemma add_protocol_truthy (s : string) :
  PyStr.truthy s = true -> PyStr.truthy (add_protocol s) = true.
Proof.
  intros H. unfold add_protocol. destruct (_ || _); [exact H|reflexivity].
Qed.

(** What the validator of api_server.py returns. *)
Lemma validate_url_returns (url : JsonValue) (validated : string) :
  validate_url url = Return validated -> safe validated.
Proof.
  unfold ApiServer.validate_url at 1.
  destruct url as [s| |]; [|discriminate..].
  destruct (PyStr.truthy s) eqn:Hs; [|discriminate]. cbn [negb]. cbv zeta.
  destruct (urlparse (add_protocol s)) as [[scheme netloc]|] eqn:Hparse;
    [|discriminate].
  destruct (PyStr.truthy scheme && PyStr.truthy netloc) eqn:Hparts;
    [|discriminate]. cbn [negb].
  destruct (existsb _ ApiServer.dangerous_hosts) eqn:Hdanger; [discriminate|].
  intros H. injection H as <-.
  split; [apply add_protocol_has_protocol|]. split.
  - apply List.Forall_forall. intros dangerous Hin.
    destruct (PyStr.contains dangerous (PyStr.lower (add_protocol s))) eqn:Hc;
      [|reflexivity].
    rewrite <- Hdanger. symmetry. apply existsb_exists. eauto.
  - unfold ApiServer.validate_url.
    rewrite (add_protocol_truthy s Hs). cbn [negb]. cbv zeta.
    rewrite add_protocol_idempotent, Hparse, Hparts. cbn [negb].
    rewrite Hdanger. reflexivity.
Qed.

(** X14.  A URL that validate_url of api_server.py returns starts with
    'http://' or 'https://', holds none of 'localhost', '127.0.0.1' and
    '0.0.0.0' in any case of letters, and is returned unchanged when it is
    validated again; fetch_website, which adds a missing protocol itself,
    requests it as it is; and validate_url of
    business_intelligence_api.py returns the same URL for the same
    input. *)
Theorem validated_url_is_safe_fixed_point :
  forall (url : JsonValue) (validated : string),
    validate_url url = Return validated ->
    (PyStr.startswith "http://" validated
     || PyStr.startswith "https://" validated) = true /\
    Forall (fun dangerous => PyStr.contains dangerous (PyStr.lower validated) = false)
      ApiServer.dangerous_hosts /\
    validate_url (JStr validated) = Return validated /\
    Endpoints.fetch_url validated = validated /\
    BIApi.validate_url url = Return validated.
Proof.
  intros url validated H.
  destruct (validate_url_returns url validated H) as (Hp & Hd & Hv).
  repeat (split; [assumption|]). split.
  - unfold Endpoints.fetch_url, add_protocol. now rewrite Hp.
  - unfold ApiServer.validate_url in H. unfold BIApi.validate_url.
    destruct url as [s| |]; [|discriminate..].
    destruct (negb (PyStr.truthy s)); [discriminate|].
    cbv zeta in H.
    destruct (urlparse (add_protocol s)) as [[scheme netloc]|]; [|discriminate].
    destruct (negb _); [discriminate|].
    destruct (existsb _ _); [discriminate|]. exact H.
Qed.

Lemma validate_all_returns (urls : list JsonValue) (validated : list string) :
  ApiServer.validate_all urlparse urls = Return validated ->
  Forall safe validated.
Proof.
  revert validated. induction urls as [|u urls IH]; intros validated H; cbn in H.
  - injection H as <-. constructor.
  - destruct (validate_url u) as [v|e] eqn:Hv; [|discriminate].
    destruct (ApiServer.validate_all urlparse urls) as [vs|e]; [|discriminate].
    injection H as <-. constructor; [exact (validate_url_returns u v Hv)|now apply IH].
Qed.

(** The calls of a single-URL handler of api_server.py. *)
Lemma handle_calls_validated (no_result technical_error : string)
    (url : JsonValue) (st : St W) :
  exists called,
    calls (snd (Endpoints.handle W R D process_result validate_url analyze_website
                  no_result technical_error url st)) = calls st ++ called /\
    Forall safe called /\ (List.length called <= 1)%nat.
Proof.
  unfold Endpoints.handle.
  destruct (validate_url url) as [validated|[message code|text]] eqn:Hv;
    try (exists []; cbn; rewrite List.app_nil_r; repeat split; try constructor; lia).
  exists [validated]. unfold bind, call.
  destruct (analyze_website validated (world st)) as [o w1].
  split; [|split; [|cbn; lia]].
  2: constructor; [exact (validate_url_returns url validated Hv)|constructor].
  destruct o as [r| |text]; [destruct (process_result r)|..]; reflexivity.
Qed.

(** X15.  The handlers of api_server.py call the analyzer only with
    validated URLs: whatever the request, the calls that the batch
    endpoint and the three single-URL endpoints add to the log are URLs
    that start with a protocol, hold none of the three local host names,
    and pass the validation unchanged; a single-URL endpoint adds at most
    one call. *)
Theorem analyzer_called_only_with_validated_urls :
  (forall (body : Body) (st : St W),
     exists called,
       calls (snd (analyze_batch body st)) = calls st ++ called /\
       Forall safe called) /\
  (forall (body : Endpoints.SingleBody) (st : St W),
     Forall (fun endpoint : Endpoints.SingleBody -> M W D =>
               exists called,
                 calls (snd (endpoint body st)) = calls st ++ called /\
                 Forall safe called /\
                 (List.length called <= 1)%nat)
       [ analyze_website_endpoint;
         Endpoints.analyze_seo_only_endpoint W R D urlparse analyze_website
           process_result;
         Endpoints.analyze_automation_only_endpoint W R D urlparse analyze_website
           process_result ]).
Proof.
  split.
  - intros body st.
    assert (forall A (e : Exn) h,
              snd (reraise_as_api_error (@raise W A e) h st) = st) as Hraise.
    { intros A e h. unfold reraise_as_api_error, raise. destruct e; reflexivity. }
    unfold ApiServer.analyze_batch.
    destruct body as [| |[urls|] analysis_type];
      try (exists []; rewrite Hraise, List.app_nil_r; split; [reflexivity|constructor]).
    destruct urls as [|u urls];
      [exists []; rewrite Hraise, List.app_nil_r; split; [reflexivity|constructor]|].
    destruct (5 <? Z.of_nat (List.length (u :: urls)));
      [exists []; rewrite Hraise, List.app_nil_r; split; [reflexivity|constructor]|].
    unfold reraise_as_api_error, bind at 1, lift.
    destruct (ApiServer.validate_all urlparse (u :: urls)) as [validated|e] eqn:Hval.
    + destruct (analyze_each_isolated W R D analyze_website process
                  analysis_type validated [] st) as (entries & w' & Hrun & _).
      unfold bind. rewrite Hrun. cbn [snd ret calls].
      exists validated. split; [reflexivity|].
      exact (validate_all_returns _ _ Hval).
    + exists []. rewrite List.app_nil_r.
      destruct e; cbn [snd]; (split; [reflexivity|constructor]).
  - intros body st.
    repeat constructor;
      unfold Endpoints.analyze_website_endpoint, Endpoints.analyze_seo_only_endpoint,
        Endpoints.analyze_automation_only_endpoint;
      (destruct body as [| |url];
       [exists []; cbn; rewrite List.app_nil_r; repeat split; try constructor; lia..
       |apply handle_calls_validated]).
Qed.

(** X16.  The batch endpoint of api_server.py validates every URL before
    it analyzes any: when one URL of a batch of one to five fails the
    validation, the request is answered with that URL's error (or, for a
    URL that is no string, with the 500 error of the handler), the
    analyzer is not called at all and the request's state is unchanged. *)
Theorem invalid_url_rejects_whole_batch :
  forall (urls : list JsonValue) (analysis_type : string) (e : Exn) (st : St W),
    (0 < List.length urls <= 5)%nat ->
    ApiServer.validate_all urlparse urls = Raise e ->
    analyze_batch (BodyDict (UrlsList urls) analysis_type) st =
      (Raise match e with
             | APIError message code => APIError message code
             | PyException _ =>
                 APIError "Batch analysis failed due to technical error" 500
             end, st).
Proof.
  intros urls analysis_type e st Hlen Hval.
  unfold ApiServer.analyze_batch, reraise_as_api_error.
  destruct urls as [|u urls]; [simpl in Hlen; lia|].
  destruct (Z.ltb_spec 5 (Z.of_nat (List.length (u :: urls)))); [lia|].
  unfold bind at 1, lift. rewrite Hval. destruct e; reflexivity.
Qed.

(** The calls that the batch endpoint of business_intelligence_api.py
    makes for a list of requested URLs: one per string that is not empty,
    with the protocol added. *)
Lemma score_each_runs (urls : list JsonValue)
    (results : list (Entry JsonValue D)) (st : St W) :
  exists entries st',
    BIApi.score_each W R D analyze_business_intelligence lead_summary
      urls results st = (Return (results ++ entries), st') /\
    List.map entry_url entries = urls /\
    calls st' =
      calls st ++
      List.flat_map (fun url => match url with
                                | JStr (String c s) => [add_protocol (String c s)]
                                | _ => []
                                end) urls /\
    Forall (fun e => match entry_url e with
                     | JStr (String _ _) => True
                     | _ => status e = "error"
                     end) entries.
Proof.
  revert results st. induction urls as [|url urls IH]; intros results st.
  - exists [], st. cbn. rewrite !List.app_nil_r. repeat split. constructor.
  - cbn [BIApi.score_each]. unfold bind at 1.
    assert (exists e st1,
              BIApi.score_one W R D analyze_business_intelligence lead_summary
                url st = (Return e, st1) /\
              entry_url e = url /\
              calls st1 =
                calls st ++ match url with
                            | JStr (String c s) => [add_protocol (String c s)]
                            | _ => []
                            end /\
              match url with
              | JStr (String _ _) => True
              | _ => status e = "error"
              end) as (e & st1 & -> & Hurl & Hcalls & Hstatus).
    { unfold BIApi.score_one.
      destruct url as [[|c s]| |];
        try (eexists _, st; cbn; rewrite List.app_nil_r; repeat split; reflexivity).
      cbn [BIApi.validate_url PyStr.truthy negb].
      unfold bind, call, ret.
      destruct (analyze_business_intelligence _ (world st)) as [o w1].
      eexists _, _. split; [reflexivity|]. split; [|split; [reflexivity|exact I]].
      destruct o as [r| |text]; [destruct (lead_summary r)|..]; reflexivity. }
    destruct (IH (results ++ [e]) st1) as (entries & st' & Hrun & Hurls & Hc & Hall).
    exists (e :: entries), st'.
    rewrite Hrun, <- List.app_assoc. repeat split.
    + cbn. now rewrite Hurl, Hurls.
    + rewrite Hc, Hcalls. cbn [List.flat_map]. now rewrite <- List.app_assoc.
    + constructor; [rewrite Hurl; exact Hstatus|exact Hall].
Qed.

(** X17.  The batch endpoint of business_intelligence_api.py validates
    each URL inside the loop: a batch of one to five URLs is always
    answered with one entry per requested URL, in order; a URL that is
    empty or no string gets an 'error' entry and does not stop the batch;
    and the analyzer is called exactly for the strings that are not empty,
    with the protocol added and nothing else checked. *)
Theorem bi_batch_answers_every_url :
  forall (urls : list JsonValue) (analysis_type : string) (st : St W),
    (0 < List.length urls <= 5)%nat ->
    exists entries st',
      batch_lead_scoring (BodyDict (UrlsList urls) analysis_type) st =
        (Return {| results := entries;
                   total_urls := Z.of_nat (List.length urls);
                   successful := count_success entries;
                   failed := Z.of_nat (List.length urls) - count_success entries |},
         st') /\
      List.map entry_url entries = urls /\
      calls st' =
        calls st ++
        List.flat_map (fun url => match url with
                                  | JStr (String c s) => [add_protocol (String c s)]
                                  | _ => []
                                  end) urls /\
      Forall (fun e => match entry_url e with
                       | JStr (String _ _) => True
                       | _ => status e = "error"
                       end) entries.
Proof.
  intros urls analysis_type st Hlen.
  destruct (score_each_runs urls [] st) as (entries & st' & Hrun & Hurls & Hc & Hall).
  exists entries, st'. split; [|repeat split; assumption].
  unfold BIApi.batch_lead_scoring, reraise_as_api_error.
  destruct urls as [|u urls]; [simpl in Hlen; lia|].
  destruct (Z.ltb_spec 5 (Z.of_nat (List.length (u :: urls)))); [lia|].
  unfold bind. rewrite Hrun. reflexivity.
Qed.

End ValidationFacts.

(** ** The extracts of api_server.py *)

Section ExtractFacts.

Import WebsiteAnalyzer.

Lemma filter_filter_swap {A} (p q : A -> bool) (l : list A) :
  List.filter p (List.filter q l) = List.filter q (List.filter p l).
Proof.
  induction l as [|x l IH]; [reflexivity|]. cbn.
  destruct (p x) eqn:Hp, (q x) eqn:Hq; cbn; rewrite ?Hp, ?Hq, IH; reflexivity.
Qed.

(** A filter of the sorted list is the sorted filter. *)
Lemma filter_sort_by_rank (p : Opportunity -> bool) (l : list Opportunity) :
  List.filter p (sort_by_key rank l) = sort_by_key rank (List.filter p l).
Proof.
  rewrite !sort_by_rank_closed_form. rewrite !List.filter_app.
  unfold of_rank. now rewrite !(filter_filter_swap p).
Qed.

Lemma filter_partition_permutation {A} (p : A -> bool) (l : list A) :
  Permutation (List.filter p l ++ List.filter (fun x => negb (p x)) l) l.
Proof.
  induction l as [|x l IH]; [constructor|]. cbn.
  destruct (p x); cbn.
  - now constructor.
  - symmetry. apply Permutation_cons_app. now symmetry.
Qed.

(** X18.  extract_seo_data and extract_automation_data split the
    recommendations of an analysis in two: the SEO list is the sorted list
    of the opportunities whose category is 'seo', the automation list the
    sorted list of all others, each still in priority order, and together
    they hold every recommendation once.  Of the nine analyses of
    analyze_website only 'seo_analysis' gives the category 'seo'. *)
Theorem seo_and_automation_recommendations_partition :
  forall (st0 : Store) (outs : list (string * list Opportunity)),
    let sa := store_analyses st0 outs in
    let gr := generate_recommendations (fst sa) (snd sa) in
    exists merged,
      deref (fst gr) (snd gr) = Some merged /\
      Endpoints.seo_recommendations merged =
        sort_by_key rank (List.filter Endpoints.is_seo (tagged outs)) /\
      Endpoints.automation_recommendations merged =
        sort_by_key rank
          (List.filter (fun o => negb (Endpoints.is_seo o)) (tagged outs)) /\
      Permutation
        (Endpoints.seo_recommendations merged ++
         Endpoints.automation_recommendations merged) merged /\
      Forall (fun name =>
                forall o,
                  Endpoints.is_seo
                    (set_category (PyStr.replace_with_empty "_analysis" name) o) =
                  String.eqb name "seo_analysis")
        Endpoints.analysis_names.
Proof.
  intros st0 outs sa gr.
  destruct (generate_recommendations_sorts st0 outs) as [_ Hd].
  fold sa gr in Hd.
  exists (sort_by_key rank (tagged outs)).
  split; [exact Hd|].
  unfold Endpoints.seo_recommendations, Endpoints.automation_recommendations.
  split; [apply filter_sort_by_rank|].
  split; [apply filter_sort_by_rank|].
  split; [apply filter_partition_permutation|].
  repeat constructor.
Qed.

End ExtractFacts.

(** ** The automation score *)

Section AutomationFacts.

Import Automation.

(** The SEO part of the score, for every SEO score from 0 to 100. *)
Lemma seo_points_table :
  forallb (fun n => match seo_points (Z.of_nat n) with
                    | Some points => points =? Z.of_nat n / 5
                    | None => false
                    end) (seq 0 101) = true.
Proof. vm_compute. reflexivity. Qed.

Lemma seo_points_exact (s : Z) : 0 <= s <= 100 -> seo_points s = Some (s / 5).
Proof.
  intros Hs.
  pose proof seo_points_table as H.
  rewrite forallb_forall in H. specialize (H (Z.to_nat s)).
  rewrite Z2Nat.id in H by lia.
  destruct (seo_points s) as [points|].
  - f_equal. apply Z.eqb_eq. apply H. apply in_seq. lia.
  - discriminate H. apply in_seq. lia.
Qed.

Lemma if_add (c : bool) (s n : Z) :
  (if c then s + n else s) = s + (if c then n else 0).
Proof. destruct c; lia. Qed.

Lemma mobile_score_range (a : Analysis) : 0 <= mobile_score a <= 10.
Proof.
  unfold mobile_score.
  destruct (has_viewport_meta a), (responsive_design a), (mobile_menu a); lia.
Qed.

Lemma detector_points_range (a : Analysis) : 0 <= detector_points a <= 80.
Proof.
  unfold detector_points. cbv zeta. rewrite !if_add.
  pose proof (mobile_score_range a) as Hm.
  repeat match goal with
         | |- context [if ?c then ?n else 0] =>
             let H := fresh in
             assert (0 <= (if c then n else 0) <= n) as H by (destruct c; lia);
             generalize dependent (if c then n else 0); intros
         end.
  lia.
Qed.

(** X19.  For an SEO score from 0 to 100 the SEO part of the automation
    score, computed in floating point as int((seo_score / 100) * 20), is
    exactly the fifth of the SEO score, rounded down: no point is lost to
    rounding.  The other parts give 0 to 80 points (the mobile part 8 at
    most, though its three checks add up to 10), so the score is their sum
    with the SEO part, between 0 and 100, and the final cap at 100 never
    changes it. *)
Theorem automation_score_is_exact :
  forall (a : Analysis),
    0 <= seo_score a <= 100 ->
    seo_points (seo_score a) = Some (seo_score a / 5) /\
    calculate_automation_score a = Some (detector_points a + seo_score a / 5) /\
    0 <= detector_points a <= 80 /\
    0 <= detector_points a + seo_score a / 5 <= 100.
Proof.
  intros a Hs.
  pose proof (seo_points_exact (seo_score a) Hs) as Hp.
  pose proof (detector_points_range a) as Hd.
  assert (0 <= seo_score a / 5 <= 20) as H5.
  { split; [apply Z.div_pos; lia|apply Z.div_le_upper_bound; lia]. }
  split; [exact Hp|].
  split; [|split; [exact Hd|lia]].
  unfold calculate_automation_score. cbv zeta. rewrite Hp. f_equal. lia.
Qed.

End AutomationFacts.

(** ** Contact accessibility and the industry branches *)

Section ContactAndIndustryFacts.

Import BIAnalyzer.

(** X20.  The contact score of a lead is half the sales readiness score,
    at most 10, while contact_accessibility is cut at 15 and 8 of the
    sales readiness score itself.  In a scored lead the contact strength
    ('Clear contact paths and decision maker access') is reported exactly
    from a sales readiness of 14, one below the accessibility 'high', and
    the contact improvement area exactly below 10, so also for the
    accessibility 'medium' at 8 and 9. *)
Theorem contact_thresholds_by_sales_readiness :
  forall p si t b (c : ContactIntel),
    let readiness := sales_readiness_score c in
    let scores := category_scores (calculate_lead_scoring p si t b c) in
    (BIBudget.contact_accessibility c = "high" <-> 15 <= readiness) /\
    (BIBudget.contact_accessibility c = "low" <-> readiness < 8) /\
    (In "Clear contact paths and decision maker access"
       (BIPlan.identify_strengths scores) <-> 14 <= readiness) /\
    (In "Contact information and decision maker identification critical"
       (BIPlan.identify_improvement_areas scores) <-> readiness < 10).
Proof.
  intros p si t b c readiness scores. subst scores.
  rewrite calculate_lead_scoring_categories.
  unfold BIPlan.identify_strengths, BIPlan.identify_improvement_areas. cbv zeta.
  rewrite !In_append_if. cbn [In].
  unfold BIPlan.get0.
  destruct (category_scores_lookup p si t b c) as (_ & _ & _ & _ & -> & _).
  cbn [default]. unfold contact_score. fold readiness.
  unfold BIBudget.contact_accessibility. fold readiness.
  pose proof (Z.div_mod readiness 2 ltac:(lia)) as Hdiv.
  pose proof (Z.mod_pos_bound readiness 2 ltac:(lia)) as Hmod.
  assert (7 <= Z.min (readiness / 2) 10 <-> 14 <= readiness) as H7 by lia.
  assert (Z.min (readiness / 2) 10 < 5 <-> readiness < 10) as H5 by lia.
  clear Hdiv Hmod.
  split; [|split; [|split]].
  - destruct (Z.leb_spec 15 readiness); [|destruct (Z.leb_spec 8 readiness)];
      split; intros; try reflexivity; try discriminate; lia.
  - destruct (Z.leb_spec 15 readiness); [|destruct (Z.leb_spec 8 readiness)];
      split; intros; try reflexivity; try discriminate; lia.
  - rewrite <- H7. rewrite <- Z.leb_le. intuition (try discriminate).
  - rewrite <- H5. rewrite <- Z.ltb_lt. intuition (try discriminate).
Qed.

Lemma detected_industry_in_table (page_text industry : string) :
  BIProfile.detect_industry page_text = Some industry ->
  In industry (List.map fst BIProfile.industry_patterns).
Proof.
  unfold BIProfile.detect_industry. rewrite industry_scores_filter.
  destruct (List.filter _ _) as [|first rest] eqn:Hscores; [discriminate|].
  intros H. injection H as <-.
  destruct (max_by_score_first_maximum rest first)
    as (before & after & k & v & Hsplit & -> & _).
  assert (In (k, v) (first :: rest)) as Hin.
  { rewrite Hsplit. apply in_elt. }
  rewrite <- Hscores in Hin. apply filter_In in Hin as [Hin _].
  apply in_map_iff in Hin as (entry & Heq & Hin).
  injection Heq as <- _. now apply in_map.
Qed.

(** X21.  _identify_quick_wins on a profile built by
    extract_company_profile: it raises the AttributeError of [lower] on
    [None] exactly when no industry was detected; otherwise it returns up
    to four quick wins, and never the 'Local business listing
    optimization', which is given to the industries 'retail',
    'restaurants' and 'services', none of them an industry of the
    table. *)
Theorem quick_wins_of_extracted_profile :
  forall re_findall re_findall_i (page : BIProfile.ProfilePage)
         lead_scoring social_intel business_account tech_analysis contact_intel,
    let company_profile :=
      BIProfile.extract_company_profile re_findall re_findall_i page in
    match BIQuickWins.identify_quick_wins lead_scoring company_profile social_intel
            business_account tech_analysis contact_intel with
    | Api.Return quick_wins =>
        is_Some (BIProfile.detect_industry (PyStr.lower (BIProfile.text page))) /\
        (List.length quick_wins <= 4)%nat /\
        Forall (fun win => BIQuickWins.opportunity win <>
                           "Local business listing optimization") quick_wins
    | Api.Raise e =>
        BIProfile.detect_industry (PyStr.lower (BIProfile.text page)) = None /\
        e = BIPlan.attribute_error "lower"
    end.
Proof.
  intros re_findall re_findall_i page ls si business_account t c company_profile.
  subst company_profile. unfold BIQuickWins.identify_quick_wins. cbv zeta.
  cbn [BIProfile.industry BIProfile.extract_company_profile].
  destruct (BIProfile.detect_industry (PyStr.lower (BIProfile.text page)))
    as [industry|] eqn:Hind; [|split; reflexivity].
  split; [eauto|].
  assert (PyStr.mem (PyStr.lower industry) ["retail"; "restaurants"; "services"]
          = false) as ->.
  { apply detected_industry_in_table in Hind.
    cbn in Hind.
    repeat (destruct Hind as [<-|Hind]; [reflexivity|]). destruct Hind. }
  split.
  - repeat match goal with
           | |- context [if ?c then _ else _] => destruct c
           end; cbn; lia.
  - repeat match goal with
           | |- context [if ?c then _ else _] => destruct c
           end; repeat constructor; cbn; discriminate.
Qed.

End ContactAndIndustryFacts.

(** ** The agency opportunities of the technology analysis *)

Section TechOpportunityFacts.

Import BIAnalyzer.

Variable re_search : string -> string -> bool.

(** Every recorded technology is an entry of the table, with the
    category of the table. *)
Lemma tech_fold_entries (soup : Soup) (l : list (string * TechConfig))
    (acc : gmap string Detected * Z) (k : string) (d : Detected) :
  fst (fold_left (tech_step re_search soup) l acc) !! k = Some d ->
  fst acc !! k = Some d \/
  exists cfg, In (k, cfg) l /\ category d = cfg_category cfg.
Proof.
  revert acc. induction l as [|[tech cfg] l IH]; intros acc H; cbn in H.
  - left. exact H.
  - apply IH in H as [H|(cfg' & Hin & Hc)].
    + unfold tech_step in H. destruct (detect re_search soup cfg) as [sc ev].
      destruct (0 <? sc); cbn [fst] in H; [|left; exact H].
      destruct (decide (k = tech)) as [->|Hne].
      * rewrite lookup_insert_eq in H. injection H as <-.
        right. exists cfg. split; [left; reflexivity|reflexivity].
      * rewrite lookup_insert_ne in H by congruence. left. exact H.
    + right. exists cfg'. split; [right; exact Hin|exact Hc].
Qed.

Lemma In_snoc_if {A} (c : bool) (x y : A) (l : list A) :
  In y (if c then l ++ [x] else l) <-> In y l \/ (c = true /\ y = x).
Proof.
  destruct c.
  - rewrite in_app_iff. cbn. intuition congruence.
  - intuition congruence.
Qed.

(** X22.  The agency opportunities of analyze_tech_stack:
    'marketing_automation_implementation' is proposed exactly when none of
    HubSpot, Marketo and Pardot is recorded (the only technologies of the
    table whose category holds 'marketing'), 'wordpress_optimization'
    exactly when WordPress is recorded and 'ecommerce_optimization'
    exactly when Shopify is; and only technologies of the table are
    recorded. *)
Theorem marketing_opportunity_iff_no_marketing_tool :
  forall (soup : Soup),
    let tech_analysis := analyze_tech_stack re_search soup in
    let detected := detected_technologies tech_analysis in
    let opportunities := agency_opportunities tech_analysis in
    (In "marketing_automation_implementation" opportunities <->
     detected !! "hubspot" = None /\ detected !! "marketo" = None /\
     detected !! "pardot" = None) /\
    (In "wordpress_optimization" opportunities <-> is_Some (detected !! "wordpress")) /\
    (In "ecommerce_optimization" opportunities <-> is_Some (detected !! "shopify")) /\
    (forall k, is_Some (detected !! k) -> In k (List.map fst tech_patterns)).
Proof.
  intros soup tech_analysis detected opportunities.
  subst opportunities detected tech_analysis. unfold analyze_tech_stack.
  pose proof (tech_fold_entries soup tech_patterns (∅, 0)) as Hentries.
  pose proof (fun tech cfg =>
                tech_fold_lookup re_search soup tech_patterns (∅, 0) tech cfg
                  tech_patterns_keys_distinct) as Hlookup.
  destruct (fold_left (tech_step re_search soup) tech_patterns (∅, 0))
    as [detected score].
  cbn [fst snd] in Hentries, Hlookup.
  cbn [detected_technologies agency_opportunities].
  assert (forall k d, detected !! k = Some d ->
            exists cfg, In (k, cfg) tech_patterns /\ category d = cfg_category cfg)
    as Htable.
  { intros k d H. destruct (Hentries k d H) as [H'|H']; [|exact H'].
    rewrite lookup_empty in H'. discriminate. }
  assert (existsb (fun kv : string * Detected =>
                     PyStr.contains "marketing" (category (snd kv)))
            (map_to_list detected) = false <->
          detected !! "hubspot" = None /\ detected !! "marketo" = None /\
          detected !! "pardot" = None) as Hmarketing.
  { split.
    - intros Hno.
      assert (forall tech cfg,
                In (tech, cfg) tech_patterns ->
                PyStr.contains "marketing" (cfg_category cfg) = true ->
                detected !! tech = None) as Hnone.
      { intros tech cfg Hin Hcat.
        destruct (detected !! tech) as [d|] eqn:Hd; [|reflexivity].
        destruct (Htable tech d Hd) as (cfg' & Hin' & Hc).
        assert (cfg' = cfg) as ->.
        { pose proof tech_patterns_keys_distinct as Hnd.
          clear -Hin Hin' Hnd. revert Hin Hin' Hnd.
          generalize tech_patterns as l.
          induction l as [|[k c] l IH]; intros Hin Hin' Hnd; [destruct Hin|].
          cbn in Hnd. apply NoDup_cons in Hnd as [Hk Hnd].
          destruct Hin as [Heq|Hin], Hin' as [Heq'|Hin'].
          - congruence.
          - injection Heq as -> ->. exfalso. apply Hk.
            rewrite list_elem_of_In. apply (in_map fst _ _ Hin').
          - injection Heq' as -> ->. exfalso. apply Hk.
            rewrite list_elem_of_In. apply (in_map fst _ _ Hin).
          - now apply IH. }
        exfalso. rewrite <- not_true_iff_false in Hno. apply Hno.
        apply existsb_exists. exists (tech, d). split.
        - apply list_elem_of_In, elem_of_map_to_list. exact Hd.
        - cbn [snd]. rewrite Hc. exact Hcat. }
      repeat split; eapply Hnone;
        try (vm_compute; reflexivity);
        unfold tech_patterns; cbn [In]; eauto 12.
    - intros (Hh & Hm & Hp).
      apply not_true_iff_false. intros Hex.
      apply existsb_exists in Hex as ([k d] & Hin & Hcat). cbn [snd] in Hcat.
      apply list_elem_of_In, elem_of_map_to_list in Hin.
      destruct (Htable k d Hin) as (cfg & Htab & Hc). rewrite Hc in Hcat.
      unfold tech_patterns in Htab. cbn [In] in Htab.
      repeat (destruct Htab as [Heq|Htab];
              [injection Heq as <- <-;
               first [discriminate Hcat | congruence]|]).
      destruct Htab. }
  rewrite !In_snoc_if. cbn [In].
  split; [|split; [|split]].
  - rewrite <- Hmarketing. rewrite negb_true_iff.
    intuition (try discriminate).
  - rewrite !bool_decide_eq_true. intuition (try discriminate; try reflexivity).
  - rewrite !bool_decide_eq_true. intuition (try discriminate; try reflexivity).
  - intros k [d Hd]. destruct (Htable k d Hd) as (cfg & Hin & _).
    apply (in_map fst _ _ Hin).
Qed.

End TechOpportunityFacts.

(** ** The SEO analyses and the SEO score *)

Section SeoAnalyzerFacts.

Import WebsiteAnalyzer SeoAnalyzers.

Lemma meta_points_rules (m : MetaTags) :
  meta_points m =
  pts (PyStr.truthy_opt (title m)) 10 +
  pts (PyStr.truthy_opt (title m) &&
       ((30 <=? title_length m) && (title_length m <=? 60))) 5 +
  pts (PyStr.truthy_opt (description m)) 5 +
  pts (PyStr.truthy_opt (description m) &&
       ((120 <=? description_length m) && (description_length m <=? 160))) 5.
Proof.
  unfold meta_points, pts. cbv zeta.
  destruct (PyStr.truthy_opt (title m)),
    ((30 <=? title_length m) && (title_length m <=? 60)),
    (PyStr.truthy_opt (description m)),
    ((120 <=? description_length m) && (description_length m <=? 160));
    reflexivity.
Qed.

Lemma header_points_rules (h : HeaderStructure) :
  header_points h =
  pts (default 0 (header_counts h !! "h1") =? 1) 10 +
  pts (3 <=? sum_counts (header_counts h)) 5.
Proof.
  unfold header_points, pts. cbv zeta.
  destruct (default 0 (header_counts h !! "h1") =? 1),
    (3 <=? sum_counts (header_counts h)); reflexivity.
Qed.

(** The SEO score is the sum of its meta part, its header part and the
    other rules, which give 60 points at most. *)
Lemma seo_score_parts (s : SeoAnalysis) :
  exists rest,
    0 <= rest <= 60 /\
    calculate_seo_score s =
    meta_points (meta_tags s) + header_points (header_structure s) + rest.
Proof.
  rewrite calculate_seo_score_unclamped.
  pose proof (rule_sum_range s) as Hrange.
  rewrite Z.min_l by lia. clear Hrange.
  rewrite meta_points_rules, header_points_rules.
  unfold rule_sum. cbv zeta.
  eexists. split; [|rewrite <- !Z.add_assoc; do 6 f_equal; reflexivity].
  repeat match goal with
         | |- context [pts ?c ?n] =>
             let H := fresh in
             pose proof (pts_range c n ltac:(lia)) as H;
             generalize dependent (pts c n); intros
         end.
  destruct (Qle_bool _ _); [|destruct (Qle_bool _ _)]; lia.
Qed.

Lemma sum_counts_insert (m : gmap string Z) (k : string) (v : Z) :
  m !! k = None -> sum_counts (<[k := v]> m) = sum_counts m + v.
Proof.
  intros Hk. unfold sum_counts.
  rewrite map_fold_insert_L; [reflexivity| |exact Hk].
  intros. lia.
Qed.

Lemma count_headers_closed_form (v : HeaderView) :
  count_headers v =
  <["h1" := Z.of_nat (List.length (h1 v))]>
    (<["h2" := Z.of_nat (List.length (h2 v))]>
       (<["h3" := Z.of_nat (List.length (h3 v))]>
          (<["h4" := Z.of_nat (List.length (h4 v))]>
             (<["h5" := Z.of_nat (List.length (h5 v))]>
                (<["h6" := Z.of_nat (List.length (h6 v))]> ∅))))).
Proof.
  unfold count_headers, levels. cbn [fold_left fst snd].
  apply map_eq. intros k.
  destruct (decide (k = "h1")) as [->|?]; [by simplify_map_eq|].
  destruct (decide (k = "h2")) as [->|?]; [by simplify_map_eq|].
  destruct (decide (k = "h3")) as [->|?]; [by simplify_map_eq|].
  destruct (decide (k = "h4")) as [->|?]; [by simplify_map_eq|].
  destruct (decide (k = "h5")) as [->|?]; [by simplify_map_eq|].
  destruct (decide (k = "h6")) as [->|?]; [by simplify_map_eq|].
  by simplify_map_eq.
Qed.

Lemma count_headers_facts (v : HeaderView) :
  default 0 (count_headers v !! "h1") = Z.of_nat (List.length (h1 v)) /\
  sum_counts (count_headers v) =
  Z.of_nat (List.length (h1 v)) + Z.of_nat (List.length (h2 v)) +
  Z.of_nat (List.length (h3 v)) + Z.of_nat (List.length (h4 v)) +
  Z.of_nat (List.length (h5 v)) + Z.of_nat (List.length (h6 v)).
Proof.
  rewrite count_headers_closed_form. split; [by simplify_map_eq|].
  repeat (rewrite sum_counts_insert; [|by simplify_map_eq]).
  unfold sum_counts. rewrite map_fold_empty. lia.
Qed.

Lemma In_recommendations_snoc_if (c : bool) (o : Opportunity)
    (l : list Opportunity) (r : string) :
  In r (recommendations (if c then l ++ [o] else l)) <->
  In r (recommendations l) \/ (c = true /\ r = recommendation o).
Proof.
  unfold recommendations. destruct c.
  - rewrite List.map_app, in_app_iff. cbn. intuition congruence.
  - intuition congruence.
Qed.

Lemma not_in_forallb (l rs : list string) :
  Forall (fun r => ~ In r l) rs <->
  forallb (fun r => negb (PyStr.mem r l)) rs = true.
Proof.
  rewrite forallb_forall, List.Forall_forall.
  split; intros H r Hr; specialize (H r Hr).
  - apply negb_true_iff, not_true_iff_false. intros Hm. apply H.
    unfold PyStr.mem in Hm. apply existsb_exists in Hm as (y & Hy & Heq).
    apply String.eqb_eq in Heq. now subst y.
  - intros Hin. apply negb_true_iff, not_true_iff_false in H. apply H.
    unfold PyStr.mem. apply existsb_exists. exists r.
    split; [exact Hin|apply String.eqb_refl].
Qed.

Lemma truthy_of_length (t : string) :
  0 < Z.of_nat (String.length t) -> PyStr.truthy t = true.
Proof. destruct t; [cbn; lia|reflexivity]. Qed.

(** The meta part is full exactly for a title of 30 to 60 and a
    description of 120 to 160 characters. *)
Lemma meta_points_full (v : MetaView) :
  meta_points (fst (analyze_meta_tags v)) = 25 <->
  match title_tag v, description_tag v with
  | Some t, Some d =>
      30 <= Z.of_nat (String.length t) <= 60 /\
      120 <= Z.of_nat (String.length d) <= 160
  | _, _ => False
  end.
Proof.
  unfold analyze_meta_tags, meta_points. cbv zeta.
  destruct (title_tag v) as [t|], (description_tag v) as [d|];
    cbn [fst title title_length description description_length PyStr.truthy_opt].
  - pose proof (truthy_of_length t) as Ht. pose proof (truthy_of_length d) as Hd.
    destruct (PyStr.truthy t), (PyStr.truthy d),
      (Z.leb_spec 30 (Z.of_nat (String.length t))),
      (Z.leb_spec (Z.of_nat (String.length t)) 60),
      (Z.leb_spec 120 (Z.of_nat (String.length d))),
      (Z.leb_spec (Z.of_nat (String.length d)) 160);
      cbn [andb]; split; intros Hgoal; try lia;
      try (specialize (Ht ltac:(lia)); discriminate Ht);
      try (specialize (Hd ltac:(lia)); discriminate Hd).
  - destruct (PyStr.truthy t), (Z.leb_spec 30 (Z.of_nat (String.length t))),
      (Z.leb_spec (Z.of_nat (String.length t)) 60);
      cbn [andb]; split; intros Hgoal; try lia; destruct Hgoal.
  - destruct (PyStr.truthy d), (Z.leb_spec 120 (Z.of_nat (String.length d))),
      (Z.leb_spec (Z.of_nat (String.length d)) 160);
      cbn [andb]; split; intros Hgoal; try lia; destruct Hgoal.
  - split; intros Hgoal; [lia|destruct Hgoal].
Qed.

Lemma meta_opportunities_none (v : MetaView) :
  forallb (fun r => negb (PyStr.mem r (recommendations (snd (analyze_meta_tags v)))))
    [ "Add title tag"; "Increase title tag length"; "Shorten title tag";
      "Add meta description"; "Expand meta description";
      "Shorten meta description" ] = true <->
  match title_tag v, description_tag v with
  | Some t, Some d =>
      30 <= Z.of_nat (String.length t) <= 60 /\
      120 <= Z.of_nat (String.length d) <= 160
  | _, _ => False
  end.
Proof.
  unfold analyze_meta_tags. cbv zeta.
  destruct (title_tag v) as [t|], (description_tag v) as [d|];
    destruct (canonical_tag v), (negb (nonempty (og_tags v)));
    cbn [snd];
    try (destruct (Z.ltb_spec (Z.of_nat (String.length t)) 30);
         [|destruct (Z.ltb_spec 60 (Z.of_nat (String.length t)))]);
    try (destruct (Z.ltb_spec (Z.of_nat (String.length d)) 120);
         [|destruct (Z.ltb_spec 160 (Z.of_nat (String.length d)))]);
    vm_compute forallb;
    split; intros Hgoal; first [discriminate Hgoal | reflexivity | lia | destruct Hgoal].
Qed.

Lemma header_points_full (v : HeaderView) :
  header_points (structure (analyze_header_structure v)) = 15 <->
  forallb (fun r => negb (PyStr.mem r
                            (recommendations
                               (header_opportunities (analyze_header_structure v)))))
    [ "Add H1 heading"; "Use only one H1 per page";
      "Add more header tags for content structure" ] = true.
Proof.
  rewrite header_points_rules.
  unfold analyze_header_structure. cbv zeta.
  cbn [structure header_opportunities header_counts].
  destruct (count_headers_facts v) as [-> ->].
  set (n1 := Z.of_nat (List.length (h1 v))).
  set (total := n1 + _ + _ + _ + _ + _).
  assert (0 <= n1) as Hn1 by (subst n1; lia).
  generalize (fold_left
                (fun empty level =>
                   fold_left (fun empty text =>
                                if negb (PyStr.truthy text) then empty + 1
                                else empty) (snd level) empty)
                (levels v) 0) as empty.
  intros empty. clearbody total n1. unfold pts.
  destruct (Z.eqb_spec n1 0), (Z.eqb_spec n1 1), (Z.ltb_spec 1 n1),
    (Z.leb_spec 3 total), (Z.ltb_spec total 3); try lia;
    cbn [negb andb]; destruct (0 <? empty);
    vm_compute forallb;
    split; intros Hgoal; first [discriminate Hgoal | reflexivity | lia].
Qed.

(** X23.  The SEO analyses and the score that reads them agree.  In the
    result of analyze_seo the score is the sum of the meta part, the
    header part and at most 60 other points; the meta part has its full
    25 points exactly when analyze_meta_tags raises none of its six title
    and description opportunities, and the header part its full 15 points
    exactly when analyze_header_structure raises none of 'Add H1 heading',
    'Use only one H1 per page' and 'Add more header tags for content
    structure'.  The opportunities of the result begin with those of the
    meta tags. *)
Theorem seo_points_agree_with_opportunities :
  forall (meta_view : MetaView) (header_view : HeaderView) (others : OtherAnalyses),
    let report := analyze_seo meta_view header_view others in
    let s := analysis report in
    let meta_recs := recommendations (snd (analyze_meta_tags meta_view)) in
    let header_recs :=
      recommendations (header_opportunities (analyze_header_structure header_view)) in
    (exists rest,
       0 <= rest <= 60 /\
       seo_score report =
       meta_points (meta_tags s) + header_points (header_structure s) + rest) /\
    (meta_points (meta_tags s) = 25 <->
     Forall (fun r => ~ In r meta_recs)
       [ "Add title tag"; "Increase title tag length"; "Shorten title tag";
         "Add meta description"; "Expand meta description";
         "Shorten meta description" ]) /\
    (header_points (header_structure s) = 15 <->
     Forall (fun r => ~ In r header_recs)
       [ "Add H1 heading"; "Use only one H1 per page";
         "Add more header tags for content structure" ]) /\
    (exists rest, opportunities report = snd (analyze_meta_tags meta_view) ++ rest).
Proof.
  intros meta_view header_view others report s meta_recs header_recs.
  split; [apply seo_score_parts|].
  split; [|split; [|eexists; reflexivity]].
  - subst meta_recs s report. cbn [analysis analyze_seo meta_tags].
    rewrite not_in_forallb, meta_opportunities_none. apply meta_points_full.
  - subst header_recs s report. cbn [analysis analyze_seo header_structure].
    rewrite not_in_forallb. apply header_points_full.
Qed.

End SeoAnalyzerFacts.

(** ** The statements at sample inputs, continued *)

(** The analyzer on the shop page: the profile has the industry
    'ecommerce' and no business size, and the analysis stops at the
    explanation of the profile score. *)
Example shop_analysis_fails :
  PipelineSamples.analyze_business_intelligence "https://shop.example" 0%nat =
  (Api.Failed "'NoneType' object has no attribute 'title'", 1%nat).
Proof. vm_compute. reflexivity. Qed.

(** The bounds 6 and 95 of the overall score are reached: by a page
    whose only hit is one HubSpot indicator, with no profile and a low
    budget, and by a page on which every pattern matches, with a full
    profile and a high budget. *)
Example overall_score_bounds_reached :
  BIAnalyzer.overall_score
    (BIAnalyzer.analyze_business_intelligence_lead_scoring
       (fun _ _ => false) PipelineSamples.no_matches PipelineSamples.no_matches
       PipelineSamples.hubspot_only_soup
       {| BIAnalyzer.industry := None; BIAnalyzer.employees := None;
          BIAnalyzer.location := None |}
       {| BIAnalyzer.overall_budget_level := Some "low" |}) = 6 /\
  BIAnalyzer.overall_score
    (BIAnalyzer.analyze_business_intelligence_lead_scoring
       (fun _ _ => true) (fun _ _ => [["x"]]) (fun _ _ => [["x"]])
       PipelineSamples.busy_soup PipelineSamples.large_saas_profile
       {| BIAnalyzer.overall_budget_level := Some "high" |}) = 95.
Proof. vm_compute. split; reflexivity. Qed.

(** A batch of a page that is analyzed and a host that is down: two
    'error' entries. *)
Lemma bi_batch_reports_every_url_failed_witness :
  exists entries st',
    BIApi.batch_lead_scoring nat _ string
      PipelineSamples.analyze_business_intelligence (fun _ => inl "summary")
      (Api.BodyDict (Api.UrlsList PipelineSamples.two_urls) "full")
      Samples.fresh_request =
    (Api.Return {| Api.results := entries; Api.total_urls := 2;
                   Api.successful := 0; Api.failed := 2 |}, st') /\
    List.map Api.entry_url entries = PipelineSamples.two_urls.
Proof.
  destruct (bi_batch_reports_every_url_failed
              unit (list BIQuickWins.QuickWin) unit unit
              (fun _ => tt)
              (fun ls profile social tech contact =>
                 BIQuickWins.identify_quick_wins ls profile social
                   (fun _ => false) tech contact)
              (fun _ _ => "") (fun _ _ => "")
              (fun _ _ => Api.Return "") (fun _ _ => Api.Return "")
              (fun _ _ => Api.Return "") (fun _ _ => Api.Return "")
              (fun _ => Api.Return tt) (fun _ _ _ => Api.Return tt)
              nat PipelineSamples.Page unit unit unit unit
              PipelineSamples.no_matches PipelineSamples.no_matches
              PipelineSamples.fetch_website snd
              (fun page =>
                 Api.Return (BIAnalyzer.analyze_social_media_intelligence
                               Samples.literal_search (fst page)))
              (fun page =>
                 Api.Return (BIAnalyzer.analyze_tech_stack
                               Samples.literal_search (fst page)))
              (fun _ => Api.Return tt)
              (fun page tech social =>
                 Api.Return (BIBudget.to_budget_analysis
                               (BIBudget.analyze_budget_indicators (fst page)
                                  tech social)))
              (fun _ => Api.Return tt)
              (fun page =>
                 Api.Return (BIAnalyzer.extract_contact_intelligence
                               PipelineSamples.no_matches PipelineSamples.no_matches
                               (fst page)))
              (fun _ _ _ _ => Api.Return tt)
              (fun _ _ => tt)
              (fun _ w => (Api.Return tt, S w))
              string (fun _ => inl "summary")
              PipelineSamples.two_urls "full" Samples.fresh_request)
    as (entries & st' & Hrun & Hurls & _).
  - simpl. lia.
  - exists entries, st'. split; [exact Hrun|exact Hurls].
Defined.

(** The validator of api_server.py on a bare host name. *)
Lemma validated_url_is_safe_fixed_point_witness :
  ApiServer.validate_url Samples.simple_urlparse (Api.JStr "https://a.example") =
  Api.Return "https://a.example".
Proof.
  destruct (validated_url_is_safe_fixed_point Samples.simple_urlparse
              (Api.JStr "a.example") "https://a.example") as (_ & _ & H & _).
  - vm_compute. reflexivity.
  - exact H.
Defined.

(** A loopback URL in second place stops the batch of api_server.py. *)
Lemma invalid_url_rejects_whole_batch_witness :
  ApiServer.analyze_batch nat string string Samples.simple_urlparse
    Samples.flaky_analyzer Samples.keep_payload
    (Api.BodyDict (Api.UrlsList PipelineSamples.invalid_batch) "full")
    Samples.fresh_request =
  (Api.Raise (Api.APIError "Invalid URL - localhost not allowed" 400),
   Samples.fresh_request).
Proof.
  apply (invalid_url_rejects_whole_batch nat string string Samples.simple_urlparse
           Samples.flaky_analyzer Samples.keep_payload
           PipelineSamples.invalid_batch "full"
           (Api.APIError "Invalid URL - localhost not allowed" 400)
           Samples.fresh_request).
  - simpl. lia.
  - vm_compute. reflexivity.
Defined.

(** The batch of business_intelligence_api.py on a list with a null, a
    loopback URL and an empty string: four entries, two calls. *)
Lemma bi_batch_answers_every_url_witness :
  exists entries st',
    BIApi.batch_lead_scoring nat string string Samples.flaky_analyzer
      (fun r => inl r)
      (Api.BodyDict (Api.UrlsList PipelineSamples.mixed_urls) "full")
      Samples.fresh_request =
      (Api.Return {| Api.results := entries; Api.total_urls := 4;
                     Api.successful := Api.count_success entries;
                     Api.failed := 4 - Api.count_success entries |}, st') /\
    List.map Api.entry_url entries = PipelineSamples.mixed_urls /\
    Api.calls st' = ["https://a.example"; "https://localhost:8080"].
Proof.
  destruct (bi_batch_answers_every_url nat string string Samples.flaky_analyzer
              (fun r => inl r) PipelineSamples.mixed_urls "full"
              Samples.fresh_request)
    as (entries & st' & Hrun & Hurls & Hcalls & _).
  - simpl. lia.
  - exists entries, st'. rewrite Hrun. repeat split; assumption.
Defined.

(** The automation score of a page whose only hits are the three mobile
    checks and whose SEO score is 60: 8 points and 12 points. *)
Lemma automation_score_is_exact_witness :
  Automation.calculate_automation_score PipelineSamples.bare_automation = Some 20.
Proof.
  destruct (automation_score_is_exact PipelineSamples.bare_automation)
    as (_ & H & _).
  - vm_compute. split; discriminate.
  - rewrite H. vm_compute. reflexivity.
Defined.
